(** * graphite-clickhouse: the bootstrap and HTTP wiring layer

    A shallow embedding of [graphite-clickhouse.go]: the status-recording
    response writer ([LogResponseWriter]), the access-logging middleware
    ([App.Handler]) and the start-up sequence of [main].

    Go pointers are locations of a store, interface values are tagged by
    their dynamic type, a panic is [None]. The functions of [net/http],
    [net/textproto], [net], [path], [strings] and [zap] that the file calls
    or serves with are written out as the Go libraries define them; the
    packages of this repository that it calls ([config], [pkg/scope],
    [tagger], the handler packages) are parameters.

    The last part models two components that the specification describes
    and that have no source here, the alignment step of the Render Pipeline
    and the Cluster Executor, from the words of the specification. *)

From Stdlib Require Import ZArith Ascii String List PrimFloat.
From stdpp Require Import gmap strings list.

Local Open Scope string_scope.
Local Open Scope Z_scope.

(** ** net/http: headers *)

(** [http.Header] is [map[string][]string]. *)
Abbreviation http_Header := (gmap string (list string)).

Definition http_StatusOK : Z := 200.

(** ** The response writers *)

Definition loc := nat.

(** A value of the interface type [http.ResponseWriter], by dynamic type:
    the nil interface, a [*LogResponseWriter] (possibly a nil pointer), or an
    object of any other implementation, named by its location. *)
Inductive http_ResponseWriter : Type :=
| RW_nil
| RW_log (p : option loc)
| RW_other (u : loc).
Arguments RW_other u%_nat_scope.

(** [type LogResponseWriter struct { http.ResponseWriter; status int; cached bool }] *)
Record LogResponseWriter : Type := mkLogResponseWriter {
  ResponseWriter : http_ResponseWriter;
  status : Z;
  cached : bool
}.

(** What a response writer of another implementation was asked to do. *)
Inductive writer_call : Type :=
| Did_WriteHeader (code : Z)
| Did_Write (body : string).

(** A response writer of another implementation: the header map its
    [Header()] returns, and the calls it received, oldest first. What the
    implementation does with a call (send it, ignore it) is not interpreted;
    it is taken to return. *)
Record OtherWriter : Type := mkOtherWriter {
  ow_header : http_Header;
  ow_calls : list writer_call
}.

(** ** Types declared in packages outside this file *)

(** [context.Context] and [zapwriter.Config] are used as opaque values. *)
Class Externals : Type := {
  context_Context : Type;
  zapwriter_Config : Type
}.

(** A Go [error], by its message. *)
Definition error : Type := string.

(** The fields of [config.Config] that this file reads. Durations are in
    nanoseconds. *)
Record config_Common : Type := mkCommon {
  Common_Listen : string;
  Common_PprofListen : string;
  Common_MaxCPU : Z;
  Common_MemoryReturnInterval : Z;
  Common_HeadersToLog : list string
}.

Record config_Config `{Externals} : Type := mkConfig {
  Common : config_Common;
  Logging : list zapwriter_Config;
  Prometheus_Listen : string
}.
Arguments mkConfig {_} _ _ _.

(** [type App struct { config *config.Config }] *)
Record App `{Externals} : Type := mkApp {
  config : config_Config
}.
Arguments mkApp {_} _.

(** ** go.uber.org/zap: loggers and log entries *)

Inductive zap_Field : Type :=
| zap_Duration (key : string) (d : Z)
| zap_String (key : string) (v : string)
| zap_Int (key : string) (v : Z)
| zap_Bool (key : string) (v : bool)
| zap_Any_config (key : string).

(** A [*zap.Logger]: its dotted name and the fields attached by [With]. *)
Record zap_Logger : Type := mkLogger {
  zl_name : string;
  zl_with : list zap_Field
}.

(** [Logger.Named]: an empty segment changes nothing, others are joined by a dot. *)
Definition zap_Named (l : zap_Logger) (s : string) : zap_Logger :=
  if decide (s = "") then l
  else if decide (zl_name l = "") then mkLogger s (zl_with l)
  else mkLogger (zl_name l ++ "." ++ s) (zl_with l).

(** [Logger.With]. *)
Definition zap_With (l : zap_Logger) (fs : list zap_Field) : zap_Logger :=
  mkLogger (zl_name l) (zl_with l ++ fs).

(** One call of [Logger.Info]. *)
Record log_entry : Type := mkEntry {
  le_logger : zap_Logger;
  le_msg : string;
  le_fields : list zap_Field
}.

(** ** The store *)

(** Everything the handlers can read and change: the [LogResponseWriter]
    objects, the response writers of other implementations, the wall clock
    ([time.Now], in nanoseconds), the state of the global [math/rand] source,
    and the [Info] calls made so far, oldest first. *)
Record World : Type := mkWorld {
  logws : gmap loc LogResponseWriter;
  others : gmap loc OtherWriter;
  clock : Z;
  rng : N;
  logged : list log_entry
}.

Definition set_logws (f : gmap loc LogResponseWriter -> gmap loc LogResponseWriter)
  (σ : World) : World :=
  mkWorld (f (logws σ)) (others σ) (clock σ) (rng σ) (logged σ).

Definition set_others (f : gmap loc OtherWriter -> gmap loc OtherWriter)
  (σ : World) : World :=
  mkWorld (logws σ) (f (others σ)) (clock σ) (rng σ) (logged σ).

Definition set_rng (n : N) (σ : World) : World :=
  mkWorld (logws σ) (others σ) (clock σ) n (logged σ).

(** [Logger.Info]. *)
Definition zap_Info (l : zap_Logger) (msg : string) (fs : list zap_Field)
  (σ : World) : World :=
  mkWorld (logws σ) (others σ) (clock σ) (rng σ) (logged σ ++ [mkEntry l msg fs]).

(** ** LogResponseWriter *)

(** [func (w *LogResponseWriter) Status() int]; a nil receiver panics. *)
Definition LogResponseWriter_Status (w : option loc) (σ : World) : option Z :=
  l ← w;
  o ← logws σ !! l;
  if decide (status o = 0) then Some http_StatusOK else Some (status o).

(** [func WrapResponseWriter(w http.ResponseWriter) *LogResponseWriter]:
    the type assertion succeeds exactly on [RW_log]; otherwise a new object
    is allocated, with zero [status] and [cached]. *)
Definition WrapResponseWriter (w : http_ResponseWriter) (σ : World)
  : option loc * World :=
  match w with
  | RW_log wrapped => (wrapped, σ)
  | _ =>
      let l := fresh (dom (logws σ)) in
      (Some l, set_logws (insert l (mkLogResponseWriter w 0 false)) σ)
  end.

(** Method calls through the interface are resolved by dynamic type. A
    [LogResponseWriter] forwards the promoted methods to its embedded writer,
    so a call may walk a chain of wrappers; [fuel] bounds the walk. *)

(** The walk can visit each wrapper once before it repeats, and then takes
    one more step, into the writer of another implementation. *)
Definition chain_fuel (σ : World) : nat := S (size (logws σ)).

(** The writer of another implementation that [w.Header()] and [w.Write]
    end up at; a nil interface or pointer panics. *)
Fixpoint rw_base (fuel : nat) (w : http_ResponseWriter) (σ : World) : option loc :=
  match fuel with
  | O => None
  | S fuel' =>
      match w with
      | RW_nil => None
      | RW_other u => _ ← others σ !! u; Some u
      | RW_log p =>
          l ← p;
          o ← logws σ !! l;
          rw_base fuel' (ResponseWriter o) σ
      end
  end.

(** [w.WriteHeader(code)] through the interface. On a [LogResponseWriter]:
    [w.status = status; w.ResponseWriter.WriteHeader(status)]. A writer of
    another implementation takes any code; the writers of [net/http] panic
    on a code outside 100..999 ([checkWriteHeaderCode]), so that the call
    returns is stated for such codes only. *)
Fixpoint rw_WriteHeader (fuel : nat) (w : http_ResponseWriter) (code : Z)
  (σ : World) : option World :=
  match fuel with
  | O => None
  | S fuel' =>
      match w with
      | RW_nil => None
      | RW_other u =>
          o ← others σ !! u;
          Some (set_others
                  (insert u (mkOtherWriter (ow_header o)
                                           (ow_calls o ++ [Did_WriteHeader code]))) σ)
      | RW_log p =>
          l ← p;
          o ← logws σ !! l;
          rw_WriteHeader fuel' (ResponseWriter o) code
            (set_logws (insert l (mkLogResponseWriter (ResponseWriter o) code (cached o))) σ)
      end
  end.

(** [func (w *LogResponseWriter) WriteHeader(status int)]. *)
Definition LogResponseWriter_WriteHeader (w : option loc) (code : Z) (σ : World)
  : option World :=
  rw_WriteHeader (chain_fuel σ) (RW_log w) code σ.

(** The call [w.WriteHeader(code)] on an interface value. *)
Definition iface_WriteHeader (w : http_ResponseWriter) (code : Z) (σ : World)
  : option World :=
  rw_WriteHeader (chain_fuel σ) w code σ.

(** [Write] and [Header] are promoted from the embedded writer: the call
    lands on the writer of another implementation at the end of the chain. *)
Definition iface_base (w : http_ResponseWriter) (σ : World) : option loc :=
  rw_base (chain_fuel σ) w σ.

Definition iface_Write (w : http_ResponseWriter) (body : string) (σ : World)
  : option World :=
  u ← iface_base w σ;
  o ← others σ !! u;
  Some (set_others
          (insert u (mkOtherWriter (ow_header o) (ow_calls o ++ [Did_Write body]))) σ).

(** ** net/textproto and net/http: header keys *)

Definition byte_in (lo hi : N) (c : ascii) : bool :=
  ((lo <=? N_of_ascii c) && (N_of_ascii c <=? hi))%N.

Definition is_lower (c : ascii) : bool := byte_in 97 122 c.
Definition is_upper (c : ascii) : bool := byte_in 65 90 c.
Definition is_digit (c : ascii) : bool := byte_in 48 57 c.

(** [validHeaderFieldByte]: the token characters of RFC 7230. *)
Definition validHeaderFieldByte (c : ascii) : bool :=
  is_lower c || is_upper c || is_digit c
  || existsb (N.eqb (N_of_ascii c))
       [33; 35; 36; 37; 38; 39; 42; 43; 45; 46; 94; 95; 96; 124; 126]%N.

Fixpoint string_forallb (f : ascii -> bool) (s : string) : bool :=
  match s with
  | EmptyString => true
  | String c s' => f c && string_forallb f s'
  end.

(** The loop of [canonicalMIMEHeaderKey]: upper case at the start and after
    each dash, lower case elsewhere. *)
Fixpoint canonical_loop (upper : bool) (s : string) : string :=
  match s with
  | EmptyString => EmptyString
  | String c s' =>
      let c' :=
        if upper && is_lower c then ascii_of_N (N_of_ascii c - 32)
        else if negb upper && is_upper c then ascii_of_N (N_of_ascii c + 32)
        else c in
      String c' (canonical_loop (Ascii.eqb c' "-") s')
  end.

(** [textproto.CanonicalMIMEHeaderKey]: a key with a byte that is no token
    character is returned unchanged. *)
Definition CanonicalMIMEHeaderKey (s : string) : string :=
  if string_forallb validHeaderFieldByte s then canonical_loop true s else s.

(** [Header.Add]: append to the values of the canonical key. *)
Definition Header_Add (h : http_Header) (key value : string) : http_Header :=
  let k := CanonicalMIMEHeaderKey key in
  <[k := (default [] (h !! k) ++ [value])%list]> h.

(** [Header.Get]: the first value of the canonical key, or the empty string. *)
Definition Header_Get (h : http_Header) (key : string) : string :=
  match h !! CanonicalMIMEHeaderKey key with
  | Some (v :: _) => v
  | _ => ""
  end.

(** [w.Header().Add(key, value)] on an interface value. *)
Definition iface_Header_Add (w : http_ResponseWriter) (key value : string)
  (σ : World) : option World :=
  u ← iface_base w σ;
  o ← others σ !! u;
  Some (set_others
          (insert u (mkOtherWriter (Header_Add (ow_header o) key value) (ow_calls o))) σ).

(** [w.Header().Get(key)] on an interface value. *)
Definition iface_Header_Get (w : http_ResponseWriter) (key : string)
  (σ : World) : option string :=
  u ← iface_base w σ;
  o ← others σ !! u;
  Some (Header_Get (ow_header o) key).

(** ** net and strings *)

Fixpoint string_existsb (f : ascii -> bool) (s : string) : bool :=
  match s with
  | EmptyString => false
  | String c s' => f c || string_existsb f s'
  end.

(** [net.JoinHostPort]: a host with a colon is put in brackets. *)
Definition net_JoinHostPort (host port : string) : string :=
  if string_existsb (Ascii.eqb ":") host
  then "[" ++ host ++ "]:" ++ port
  else host ++ ":" ++ port.

(** [strings.Split(s, ", ")[0]]: what stands before the first [", "]. *)
Fixpoint Split_first (s : string) : string :=
  match s with
  | EmptyString => EmptyString
  | String c s' =>
      if String.prefix ", " s then EmptyString else String c (Split_first s')
  end.

(** ** Requests and handlers *)

(** The fields of [http.Request] that this file reads; [URL] is the result
    of [r.URL.String()]. *)
Record http_Request `{Externals} : Type := mkRequest {
  Method : string;
  URL : string;
  Header : http_Header;
  RemoteAddr : string;
  Context : context_Context
}.
Arguments mkRequest {_} _ _ _ _ _.

(** [http.Handler]: [ServeHTTP(w, r)] changes the store, or panics. By the
    contract of [http.Handler] the request itself is not modified. *)
Definition http_Handler `{Externals} : Type :=
  http_ResponseWriter -> http_Request -> World -> option World.

(** The functions of [pkg/scope] that [App.Handler] calls. [HttpRequest]
    returns the request with a request-scope context; it may draw from the
    global random source. *)
Class scope_pkg `{Externals} : Type := {
  scope_HttpRequest : http_Request -> N -> http_Request * N;
  scope_RequestID : context_Context -> string;
  scope_Grafana : context_Context -> string;
  scope_LoggerWithHeaders : context_Context -> http_Request -> list string -> zap_Logger
}.

(** The fields of the access log line, in the order of the source. *)
Definition access_fields (d : Z) (method url peer client : string) (st : Z)
  (cachedFind : bool) : list zap_Field :=
  [ zap_Duration "time" d;
    zap_String "method" method;
    zap_String "url" url;
    zap_String "peer" peer;
    zap_String "client" client;
    zap_Int "status" st;
    zap_Bool "find_cached" cachedFind ].

(** [func (app *App) Handler(handler http.Handler) http.Handler] *)
Definition App_Handler `{scope_pkg} (app : App) (handler : http_Handler)
  : http_Handler :=
  fun w r σ =>
    let '(writer, σ) := WrapResponseWriter w σ in
    let '(r, seed) := scope_HttpRequest r (rng σ) in
    let σ := set_rng seed σ in
    σ ← iface_Header_Add w "X-Gch-Request-ID" (scope_RequestID (Context r)) σ;
    let start := clock σ in
    σ ← handler (RW_log writer) r σ;
    let d := clock σ - start in
    let logger :=
      zap_Named
        (scope_LoggerWithHeaders (Context r) r (Common_HeadersToLog (Common (config app))))
        "http" in
    let grafana := scope_Grafana (Context r) in
    let logger :=
      if decide (grafana = "") then logger
      else zap_With logger [zap_String "grafana" grafana] in
    let peer :=
      let peer := Header_Get (Header r) "X-Real-Ip" in
      if decide (peer = "") then RemoteAddr r else net_JoinHostPort peer "0" in
    let client :=
      let client := Header_Get (Header r) "X-Forwarded-For" in
      if decide (client = "") then client else Split_first client in
    cachedFind ← iface_Header_Get w "X-Cached-Find" σ;
    st ← LogResponseWriter_Status writer σ;
    Some (zap_Info logger "access"
            (access_fields d (Method r) (URL r) peer client st
               (String.eqb cachedFind "true")) σ).

(** ** A history of calls on one wrapped writer *)

Inductive writer_op : Type :=
| Op_WriteHeader (code : Z)
| Op_Write (body : string)
| Op_Header_Add (key value : string).

Definition run_op (w : option loc) (op : writer_op) (σ : World) : option World :=
  match op with
  | Op_WriteHeader code => LogResponseWriter_WriteHeader w code σ
  | Op_Write body => iface_Write (RW_log w) body σ
  | Op_Header_Add key value => iface_Header_Add (RW_log w) key value σ
  end.

Fixpoint run_ops (w : option loc) (ops : list writer_op) (σ : World) : option World :=
  match ops with
  | [] => Some σ
  | op :: ops' => σ' ← run_op w op σ; run_ops w ops' σ'
  end.

(** The code of the most recent [WriteHeader] in a history, if there is one. *)
Fixpoint last_WriteHeader (ops : list writer_op) : option Z :=
  match ops with
  | [] => None
  | op :: ops' =>
      match last_WriteHeader ops' with
      | Some code => Some code
      | None => match op with Op_WriteHeader code => Some code | _ => None end
      end
  end.

(** ** The handlers that main registers *)

(** The values passed to [mux.Handle] and [mux.HandleFunc], as main builds them. *)
Inductive handler_id `{Externals} : Type :=
| capabilities_NewHandler (cfg : config_Config)
| find_NewHandler (cfg : config_Config)
| index_NewHandler (cfg : config_Config)
| render_NewHandler (cfg : config_Config)
| autocomplete_NewTags (cfg : config_Config)
| autocomplete_NewValues (cfg : config_Config)
| app_Handler (app : App) (handler : handler_id)
| debug_config_func (cfg : config_Config)
| alive_func.

(** What the handlers of the other packages do, and [json.MarshalIndent] on
    the configuration. *)
Class handlers_pkg `{Externals} : Type := {
  capabilities_ServeHTTP : config_Config -> http_Handler;
  find_ServeHTTP : config_Config -> http_Handler;
  index_ServeHTTP : config_Config -> http_Handler;
  render_ServeHTTP : config_Config -> http_Handler;
  autocomplete_Tags_ServeHTTP : config_Config -> http_Handler;
  autocomplete_Values_ServeHTTP : config_Config -> http_Handler;
  json_MarshalIndent : config_Config -> string + error
}.

Definition http_StatusInternalServerError : Z := 500.

Definition newline : string := String (ascii_of_N 10) EmptyString.

(** [w.Header().Set(key, value)] on an interface value. *)
Definition iface_Header_Set (w : http_ResponseWriter) (key value : string)
  (σ : World) : option World :=
  u ← iface_base w σ;
  o ← others σ !! u;
  Some (set_others
          (insert u (mkOtherWriter
                       (<[CanonicalMIMEHeaderKey key := [value]]> (ow_header o))
                       (ow_calls o))) σ).

(** [http.Error]. *)
Definition http_Error (w : http_ResponseWriter) (err : string) (code : Z)
  (σ : World) : option World :=
  σ ← iface_Header_Set w "Content-Type" "text/plain; charset=utf-8" σ;
  σ ← iface_Header_Set w "X-Content-Type-Options" "nosniff" σ;
  σ ← iface_WriteHeader w code σ;
  iface_Write w (err ++ newline) σ.

(** [ServeHTTP] of a registered handler. *)
Fixpoint ServeHTTP `{scope_pkg} `{!handlers_pkg} (h : handler_id) : http_Handler :=
  match h with
  | capabilities_NewHandler cfg => capabilities_ServeHTTP cfg
  | find_NewHandler cfg => find_ServeHTTP cfg
  | index_NewHandler cfg => index_ServeHTTP cfg
  | render_NewHandler cfg => render_ServeHTTP cfg
  | autocomplete_NewTags cfg => autocomplete_Tags_ServeHTTP cfg
  | autocomplete_NewValues cfg => autocomplete_Values_ServeHTTP cfg
  | app_Handler app handler => App_Handler app (ServeHTTP handler)
  | debug_config_func cfg =>
      fun w r σ =>
        match json_MarshalIndent cfg with
        | inr err => http_Error w err http_StatusInternalServerError σ
        | inl b => iface_Write w b σ
        end
  | alive_func =>
      fun w r σ =>
        σ ← iface_WriteHeader w http_StatusOK σ;
        iface_Write w ("Graphite-clickhouse is alive." ++ newline) σ
  end.

(** ** net/http: ServeMux *)

(** The registered patterns with their handlers, in registration order. *)
Definition ServeMux `{Externals} : Type := list (string * handler_id).

Definition has_pattern `{Externals} (mux : ServeMux) (pattern : string) : bool :=
  existsb (fun e => String.eqb (fst e) pattern) mux.

(** [mux.Handle]: an empty pattern or a second registration panics. *)
Definition mux_Handle `{Externals} (mux : ServeMux) (pattern : string)
  (h : handler_id) : option ServeMux :=
  if decide (pattern = "") then None
  else if has_pattern mux pattern then None
  else Some (mux ++ [(pattern, h)])%list.

Definition ends_in_slash (pattern : string) : bool :=
  match String.get (String.length pattern - 1) pattern with
  | Some c => Ascii.eqb c "/"
  | None => false
  end.

(** The longest pattern ending in a slash that is a prefix of [path]. *)
Fixpoint longest_prefix `{Externals} (mux : ServeMux) (path : string)
  (best : option (string * handler_id)) : option (string * handler_id) :=
  match mux with
  | [] => best
  | (pattern, h) :: mux' =>
      let better :=
        match best with
        | Some (p0, _) => (String.length p0 <? String.length pattern)%nat
        | None => true
        end in
      if ends_in_slash pattern && String.prefix pattern path && better
      then longest_prefix mux' path (Some (pattern, h))
      else longest_prefix mux' path best
  end.

(** [ServeMux.match] on a clean path: the exact pattern first, then the
    longest pattern ending in a slash that the path starts with. The
    cleaning of the path and the redirects around the match are
    [ServeMux.Handler], [mux_Handler] below. *)
Definition mux_match `{Externals} (mux : ServeMux) (path : string)
  : option handler_id :=
  match find (fun e => String.eqb (fst e) path) mux with
  | Some (_, h) => Some h
  | None => snd <$> longest_prefix mux path None
  end.

(** ** main *)

(** [const Version] and [var BuildVersion]. *)
Definition Version : string := "0.13.4".
Definition BuildVersion : string := "(development build)".

(** The command line after [flag.Parse]. *)
Record Flags : Type := mkFlags {
  configFile : string;
  printDefaultConfig : bool;
  checkConfig : bool;
  buildTags : bool;
  pprof : string;
  printVersion : bool;
  verbose : bool
}.

(** What the calls into other packages answer: [None] is a nil error.
    [http_ListenAndServe] answers [None] when the server never returns. *)
Record Env `{Externals} : Type := mkEnv {
  config_PrintDefaultConfig : option error;
  config_ReadConfig : string -> bool -> config_Config + error;
  zapwriter_ApplyConfig : list zapwriter_Config -> option error;
  zapwriter_NewManager : list zapwriter_Config -> (string -> zap_Logger) + error;
  tagger_Make : config_Config -> option error;
  prometheus_Run : config_Config -> option error;
  metrics_Graphite_set : bool;
  http_ListenAndServe : string -> ServeMux -> option error
}.
Arguments mkEnv {_} _ _ _ _ _ _ _ _.

(** What the main goroutine does, in order. The two [Ev_go_] events start a
    goroutine; what that goroutine does afterwards is not part of the trace. *)
Inductive event `{Externals} : Type :=
| Ev_rand_Seed
| Ev_fmt_Print (s : string)
| Ev_PrintDefaultConfig
| Ev_ReadConfig (file : string) (check : bool)
| Ev_ApplyConfig (logging : list zapwriter_Config)
| Ev_NewManager (logging : list zapwriter_Config)
| Ev_Info (l : zap_Logger) (msg : string) (fields : list zap_Field)
| Ev_GOMAXPROCS (n : Z)
| Ev_go_FreeOSMemory (interval : Z)
| Ev_go_pprof_ListenAndServe (listen : string)
| Ev_tagger_Make (cfg : config_Config)
| Ev_NewServeMux
| Ev_mux_Handle (pattern : string) (h : handler_id)
| Ev_prometheus_Run (cfg : config_Config)
| Ev_Graphite_Start
| Ev_ListenAndServe (addr : string) (mux : ServeMux).

(** How main ends: by [return], by [log.Fatal], by a panic, or never (inside
    [http.ListenAndServe]). *)
Inductive exit : Type :=
| Returned
| Fatal (err : error)
| Panicked
| Serving.

(** A piece of main: the events so far, and either a value to go on with or
    the end of the process. *)
Definition Main `{Externals} (A : Type) : Type := list event * (A + exit).

#[export] Instance Main_ret `{Externals} : MRet Main := fun A a => ([], inl a).

#[export] Instance Main_bind `{Externals} : MBind Main := fun A B f m =>
  match m with
  | (evs, inl a) => let '(evs', r) := f a in ((evs ++ evs')%list, r)
  | (evs, inr e) => (evs, inr e)
  end.

Definition emit `{Externals} (ev : event) : Main unit := ([ev], inl tt).

Definition stop `{Externals} {A : Type} (e : exit) : Main A := ([], inr e).

(** [if err != nil { log.Fatal(err) }] *)
Definition fatal_on `{Externals} (err : option error) : Main unit :=
  match err with
  | Some e => stop (Fatal e)
  | None => mret tt
  end.

Definition when `{Externals} (b : bool) (m : Main unit) : Main unit :=
  if b then m else mret tt.

(** [mux.Handle(pattern, h)], with its panics. *)
Definition handle `{Externals} (mux : ServeMux) (pattern : string)
  (h : handler_id) : Main ServeMux :=
  emit (Ev_mux_Handle pattern h);;
  match mux_Handle mux pattern h with
  | Some mux' => mret mux'
  | None => stop Panicked
  end.

(** The registrations of main, in source order. *)
Definition register_handlers `{Externals} (app : App) (cfg : config_Config)
  : Main ServeMux :=
  emit Ev_NewServeMux;;
  mux ← handle [] "/_internal/capabilities/" (app_Handler app (capabilities_NewHandler cfg));
  mux ← handle mux "/metrics/find/" (app_Handler app (find_NewHandler cfg));
  mux ← handle mux "/metrics/index.json" (app_Handler app (index_NewHandler cfg));
  mux ← handle mux "/render/" (app_Handler app (render_NewHandler cfg));
  mux ← handle mux "/tags/autoComplete/tags" (app_Handler app (autocomplete_NewTags cfg));
  mux ← handle mux "/tags/autoComplete/values" (app_Handler app (autocomplete_NewValues cfg));
  mux ← handle mux "/debug/config" (debug_config_func cfg);
  handle mux "/alive" alive_func.

(** [main] from [flag.Parse] to the comment [CONFIG end]: the flags that
    print and leave, the configuration, the loggers, [GOMAXPROCS] and the
    goroutine that returns memory. *)
Definition main_config `{Externals} (flags : Flags) (env : Env)
  : Main config_Config :=
  when (printVersion flags) (emit (Ev_fmt_Print Version);; stop Returned);;
  when (printDefaultConfig flags)
    (emit Ev_PrintDefaultConfig;;
     fatal_on (config_PrintDefaultConfig env);;
     stop Returned);;
  emit (Ev_ReadConfig (configFile flags) (checkConfig flags));;
  cfg ← match config_ReadConfig env (configFile flags) (checkConfig flags) with
        | inl cfg => mret cfg
        | inr err => stop (Fatal err)
        end;
  when (checkConfig flags) (stop Returned);;
  emit (Ev_ApplyConfig (Logging cfg));;
  fatal_on (zapwriter_ApplyConfig env (Logging cfg));;
  emit (Ev_NewManager (Logging cfg));;
  localManager ← match zapwriter_NewManager env (Logging cfg) with
                 | inl m => mret m
                 | inr err => stop (Fatal err)
                 end;
  let logger := localManager "start" in
  emit (Ev_Info logger "starting graphite-clickhouse"
          (if verbose flags
           then [zap_String "build_version" BuildVersion; zap_Any_config "config"]
           else [zap_String "build_version" BuildVersion]));;
  emit (Ev_GOMAXPROCS (Common_MaxCPU (Common cfg)));;
  when (bool_decide (0 < Common_MemoryReturnInterval (Common cfg)))
    (emit (Ev_go_FreeOSMemory (Common_MemoryReturnInterval (Common cfg))));;
  mret cfg.

(** The pprof listener: [if pprof != nil && *pprof != "" ||
    cfg.Common.PprofListen != ""]; the pointer to the flag is never nil. *)
Definition main_pprof `{Externals} (flags : Flags) (cfg : config_Config)
  : Main unit :=
  when (bool_decide (pprof flags ≠ "") || bool_decide (Common_PprofListen (Common cfg) ≠ ""))
    (let listen := Common_PprofListen (Common cfg) in
     let listen := if bool_decide (pprof flags ≠ "") then pprof flags else listen in
     emit (Ev_go_pprof_ListenAndServe listen)).

(** Between the comments [CONSOLE COMMANDS start] and [end]. *)
Definition main_console `{Externals} (flags : Flags) (env : Env)
  (cfg : config_Config) : Main unit :=
  when (buildTags flags)
    (emit (Ev_tagger_Make cfg);;
     fatal_on (tagger_Make env cfg);;
     stop Returned).

(** The rest of [main]: the mux, the Prometheus and Graphite side services,
    and the server. *)
Definition main_server `{Externals} (env : Env) (cfg : config_Config)
  : Main unit :=
  let app := mkApp cfg in
  mux ← register_handlers app cfg;
  when (bool_decide (Prometheus_Listen cfg ≠ ""))
    (emit (Ev_prometheus_Run cfg);;
     fatal_on (prometheus_Run env cfg));;
  when (metrics_Graphite_set env) (emit Ev_Graphite_Start);;
  emit (Ev_ListenAndServe (Common_Listen (Common cfg)) mux);;
  match http_ListenAndServe env (Common_Listen (Common cfg)) mux with
  | Some err => stop (Fatal err)
  | None => stop Serving
  end.

(** [func main()] *)
Definition main_body `{Externals} (flags : Flags) (env : Env) : Main unit :=
  emit Ev_rand_Seed;;
  cfg ← main_config flags env;
  main_pprof flags cfg;;
  main_console flags env cfg;;
  main_server env cfg.

(** A run of the program: its trace and how it ends. Falling off the end of
    [main] is a return. *)
Definition main `{Externals} (flags : Flags) (env : Env) : list event * exit :=
  match main_body flags env with
  | (evs, inl _) => (evs, Returned)
  | (evs, inr e) => (evs, e)
  end.

(** The mux that [register_handlers] builds. *)
Definition server_mux `{Externals} (cfg : config_Config) : ServeMux :=
  let app := mkApp cfg in
  [ ("/_internal/capabilities/", app_Handler app (capabilities_NewHandler cfg));
    ("/metrics/find/", app_Handler app (find_NewHandler cfg));
    ("/metrics/index.json", app_Handler app (index_NewHandler cfg));
    ("/render/", app_Handler app (render_NewHandler cfg));
    ("/tags/autoComplete/tags", app_Handler app (autocomplete_NewTags cfg));
    ("/tags/autoComplete/values", app_Handler app (autocomplete_NewValues cfg));
    ("/debug/config", debug_config_func cfg);
    ("/alive", alive_func) ].

(** The events of the HTTP service: creating the mux, registering a
    handler, starting the side services, and serving on the listen address. *)
Definition is_server_event `{Externals} (ev : event) : bool :=
  match ev with
  | Ev_NewServeMux | Ev_mux_Handle _ _ | Ev_prometheus_Run _
  | Ev_Graphite_Start | Ev_ListenAndServe _ _ => true
  | _ => false
  end.

Definition is_tagger_Make `{Externals} (ev : event) : bool :=
  match ev with
  | Ev_tagger_Make _ => true
  | _ => false
  end.

(** An event of the start-up: neither of the HTTP service nor the tag build. *)
Definition startup_event `{Externals} (ev : event) : Prop :=
  is_server_event ev = false /\ is_tagger_Make ev = false.

(** ** What a wrapper passes on *)

(** The calls that a history of calls on a wrapper hands to the embedded
    writer: [WriteHeader] and the promoted [Write], in order. *)
Fixpoint forwarded_calls (ops : list writer_op) : list writer_call :=
  match ops with
  | [] => []
  | Op_WriteHeader code :: ops' => Did_WriteHeader code :: forwarded_calls ops'
  | Op_Write body :: ops' => Did_Write body :: forwarded_calls ops'
  | Op_Header_Add _ _ :: ops' => forwarded_calls ops'
  end.

(** The header map of the embedded writer after the [Header().Add] calls of
    a history. *)
Fixpoint forwarded_header (ops : list writer_op) (h : http_Header) : http_Header :=
  match ops with
  | [] => h
  | Op_Header_Add key value :: ops' => forwarded_header ops' (Header_Add h key value)
  | _ :: ops' => forwarded_header ops' h
  end.

(** ** The parts of the access line *)

(** The logger of the access line: the request logger named [http], with
    the field [grafana] when the request scope has one. *)
Definition access_logger `{scope_pkg} (app : App) (r : http_Request) : zap_Logger :=
  let logger :=
    zap_Named
      (scope_LoggerWithHeaders (Context r) r (Common_HeadersToLog (Common (config app))))
      "http" in
  let grafana := scope_Grafana (Context r) in
  if decide (grafana = "") then logger
  else zap_With logger [zap_String "grafana" grafana].

(** [peer]: the address in [X-Real-Ip] with port 0, or [r.RemoteAddr]. *)
Definition access_peer `{Externals} (r : http_Request) : string :=
  let peer := Header_Get (Header r) "X-Real-Ip" in
  if decide (peer = "") then RemoteAddr r else net_JoinHostPort peer "0".

(** [client]: the first element of [X-Forwarded-For]. *)
Definition access_client `{Externals} (r : http_Request) : string :=
  let client := Header_Get (Header r) "X-Forwarded-For" in
  if decide (client = "") then client else Split_first client.


(** ** The runs of main, case by case *)

(** The events from reading the configuration to the comment [CONFIG end],
    when nothing fails. *)
Definition startup_trace `{Externals} (flags : Flags) (cfg : config_Config)
  (mgr : string -> zap_Logger) : list event :=
  [ Ev_ReadConfig (configFile flags) false;
    Ev_ApplyConfig (Logging cfg);
    Ev_NewManager (Logging cfg);
    Ev_Info (mgr "start") "starting graphite-clickhouse"
      (if verbose flags
       then [zap_String "build_version" BuildVersion; zap_Any_config "config"]
       else [zap_String "build_version" BuildVersion]);
    Ev_GOMAXPROCS (Common_MaxCPU (Common cfg)) ]
  ++ (if bool_decide (0 < Common_MemoryReturnInterval (Common cfg))
      then [Ev_go_FreeOSMemory (Common_MemoryReturnInterval (Common cfg))]
      else []).

(** The address of the pprof listener: the flag before the configuration. *)
Definition pprof_listen `{Externals} (flags : Flags) (cfg : config_Config) : string :=
  if bool_decide (pprof flags ≠ "") then pprof flags
  else Common_PprofListen (Common cfg).

Definition pprof_trace `{Externals} (flags : Flags) (cfg : config_Config)
  : list event :=
  if bool_decide (pprof flags ≠ "") || bool_decide (Common_PprofListen (Common cfg) ≠ "")
  then [Ev_go_pprof_ListenAndServe (pprof_listen flags cfg)]
  else [].

(** Creating the mux and registering the eight handlers. *)
Definition registration_trace `{Externals} (cfg : config_Config) : list event :=
  Ev_NewServeMux :: ((fun e => Ev_mux_Handle e.1 e.2) <$> server_mux cfg).

(** Starting the side services, when Prometheus does not fail. *)
Definition side_trace `{Externals} (env : Env) (cfg : config_Config) : list event :=
  (if bool_decide (Prometheus_Listen cfg ≠ "") then [Ev_prometheus_Run cfg] else [])
  ++ (if metrics_Graphite_set env then [Ev_Graphite_Start] else []).

(** The configuration is read and the loggers are set up without error, and
    no flag ends the program before that. *)
Definition config_ok `{Externals} (flags : Flags) (env : Env)
  (cfg : config_Config) (mgr : string -> zap_Logger) : Prop :=
  printVersion flags = false
  /\ printDefaultConfig flags = false
  /\ checkConfig flags = false
  /\ config_ReadConfig env (configFile flags) false = inl cfg
  /\ zapwriter_ApplyConfig env (Logging cfg) = None
  /\ zapwriter_NewManager env (Logging cfg) = inl mgr.

(** The nine ways main can go, each with its trace and its end. *)
Inductive main_case `{Externals} (flags : Flags) (env : Env)
  : list event -> exit -> Prop :=
| case_version :
    printVersion flags = true ->
    main_case flags env [Ev_rand_Seed; Ev_fmt_Print Version] Returned
| case_default_config :
    printVersion flags = false ->
    printDefaultConfig flags = true ->
    main_case flags env [Ev_rand_Seed; Ev_PrintDefaultConfig]
      (match config_PrintDefaultConfig env with
       | Some err => Fatal err
       | None => Returned
       end)
| case_config_error (err : error) :
    printVersion flags = false ->
    printDefaultConfig flags = false ->
    config_ReadConfig env (configFile flags) (checkConfig flags) = inr err ->
    main_case flags env
      [Ev_rand_Seed; Ev_ReadConfig (configFile flags) (checkConfig flags)]
      (Fatal err)
| case_check_config (cfg : config_Config) :
    printVersion flags = false ->
    printDefaultConfig flags = false ->
    checkConfig flags = true ->
    config_ReadConfig env (configFile flags) true = inl cfg ->
    main_case flags env [Ev_rand_Seed; Ev_ReadConfig (configFile flags) true]
      Returned
| case_logging_error (cfg : config_Config) (err : error) :
    printVersion flags = false ->
    printDefaultConfig flags = false ->
    checkConfig flags = false ->
    config_ReadConfig env (configFile flags) false = inl cfg ->
    zapwriter_ApplyConfig env (Logging cfg) = Some err ->
    main_case flags env
      [Ev_rand_Seed; Ev_ReadConfig (configFile flags) false;
       Ev_ApplyConfig (Logging cfg)]
      (Fatal err)
| case_manager_error (cfg : config_Config) (err : error) :
    printVersion flags = false ->
    printDefaultConfig flags = false ->
    checkConfig flags = false ->
    config_ReadConfig env (configFile flags) false = inl cfg ->
    zapwriter_ApplyConfig env (Logging cfg) = None ->
    zapwriter_NewManager env (Logging cfg) = inr err ->
    main_case flags env
      [Ev_rand_Seed; Ev_ReadConfig (configFile flags) false;
       Ev_ApplyConfig (Logging cfg); Ev_NewManager (Logging cfg)]
      (Fatal err)
| case_tags (cfg : config_Config) (mgr : string -> zap_Logger) :
    config_ok flags env cfg mgr ->
    buildTags flags = true ->
    main_case flags env
      (Ev_rand_Seed :: startup_trace flags cfg mgr ++ pprof_trace flags cfg
         ++ [Ev_tagger_Make cfg])
      (match tagger_Make env cfg with
       | Some err => Fatal err
       | None => Returned
       end)
| case_prometheus_error (cfg : config_Config) (mgr : string -> zap_Logger)
    (err : error) :
    config_ok flags env cfg mgr ->
    buildTags flags = false ->
    Prometheus_Listen cfg ≠ "" ->
    prometheus_Run env cfg = Some err ->
    main_case flags env
      (Ev_rand_Seed :: startup_trace flags cfg mgr ++ pprof_trace flags cfg
         ++ registration_trace cfg ++ [Ev_prometheus_Run cfg])
      (Fatal err)
| case_server (cfg : config_Config) (mgr : string -> zap_Logger) :
    config_ok flags env cfg mgr ->
    buildTags flags = false ->
    (Prometheus_Listen cfg ≠ "" -> prometheus_Run env cfg = None) ->
    main_case flags env
      (Ev_rand_Seed :: startup_trace flags cfg mgr ++ pprof_trace flags cfg
         ++ registration_trace cfg ++ side_trace env cfg
         ++ [Ev_ListenAndServe (Common_Listen (Common cfg)) (server_mux cfg)])
      (match http_ListenAndServe env (Common_Listen (Common cfg)) (server_mux cfg) with
       | Some err => Fatal err
       | None => Serving
       end).

(** The event of serving on an address, and of starting a pprof listener. *)
Definition is_ListenAndServe `{Externals} (ev : event) : bool :=
  match ev with
  | Ev_ListenAndServe _ _ => true
  | _ => false
  end.

Definition is_pprof `{Externals} (ev : event) : bool :=
  match ev with
  | Ev_go_pprof_ListenAndServe _ => true
  | _ => false
  end.

Definition is_ReadConfig `{Externals} (ev : event) : bool :=
  match ev with
  | Ev_ReadConfig _ _ => true
  | _ => false
  end.

Definition is_prometheus_Run `{Externals} (ev : event) : bool :=
  match ev with
  | Ev_prometheus_Run _ => true
  | _ => false
  end.

(** ** net/http: the status codes a response writer accepts *)

(** [checkWriteHeaderCode] of [net/http]: the response writers of the
    standard library panic on a code outside 100..999. A history on which
    this holds makes no such call. *)
Definition checkWriteHeaderCode (code : Z) : bool :=
  negb ((code <? 100) || (999 <? code)).

Definition valid_op (op : writer_op) : bool :=
  match op with
  | Op_WriteHeader code => checkWriteHeaderCode code
  | _ => true
  end.

(** ** path: Clean *)

(** [r+1 == n || path[r+1] == '/']: the element ends here. *)
Definition element_ends (s : string) : bool :=
  match s with
  | EmptyString => true
  | String c _ => Ascii.eqb c "/"
  end.

(** The write buffer of [Clean] is kept newest byte first, so [out.w] is
    its length. This is the loop of the [..] case,
    [for out.w > dotdot && out.index(out.w) != '/' { out.w-- }], where [c]
    is the byte at [out.w]. *)
Fixpoint Clean_unwind (out : list ascii) (c : ascii) (dotdot : nat) : list ascii :=
  match out with
  | [] => []
  | c' :: out' =>
      if (dotdot <? length out)%nat && negb (Ascii.eqb c "/")
      then Clean_unwind out' c' dotdot
      else out
  end.

(** The loop of [Clean] over the bytes that are left. [copying] says that
    the loop is inside the copy of a real path element (the inner [for] of
    the default case), which ends at the next slash. *)
Fixpoint Clean_loop (rooted copying : bool) (out : list ascii) (dotdot : nat)
  (s : string) : list ascii :=
  match s with
  | EmptyString => out
  | String c s' =>
      if copying then
        if Ascii.eqb c "/" then Clean_loop rooted false out dotdot s'
        else Clean_loop rooted true (c :: out) dotdot s'
      else
        let element :=
          Clean_loop rooted true
            (c :: if (if rooted then negb (length out =? 1)%nat
                      else negb (length out =? 0)%nat)
                  then "/"%char :: out else out)
            dotdot s' in
        if Ascii.eqb c "/" then Clean_loop rooted false out dotdot s'
        else if Ascii.eqb c "." && element_ends s'
        then Clean_loop rooted false out dotdot s'
        else
          match s' with
          | String c2 s'' =>
              if Ascii.eqb c "." && Ascii.eqb c2 "." && element_ends s'' then
                if (dotdot <? length out)%nat then
                  match out with
                  | c0 :: out0 =>
                      Clean_loop rooted false (Clean_unwind out0 c0 dotdot) dotdot s''
                  | [] => Clean_loop rooted false out dotdot s''
                  end
                else if negb rooted then
                  let out1 :=
                    "."%char :: "."%char
                      :: (if (0 <? length out)%nat then "/"%char :: out else out) in
                  Clean_loop rooted false out1 (length out1) s''
                else Clean_loop rooted false out dotdot s''
              else element
          | EmptyString => element
          end
  end.

(** [path.Clean]. *)
Definition path_Clean (path : string) : string :=
  match path with
  | EmptyString => "."
  | String c s' =>
      let out :=
        if Ascii.eqb c "/" then Clean_loop true false ["/"%char] 1 s'
        else Clean_loop false false [] 0 path in
      match out with
      | [] => "."
      | _ => string_of_list_ascii (rev out)
      end
  end.

(** ** net/http: the path and the host that the mux looks up *)

(** [cleanPath]: the canonical path, with its trailing slash put back. *)
Definition cleanPath (p : string) : string :=
  if String.eqb p "" then "/"
  else
    let p := if String.prefix "/" p then p else "/" ++ p in
    let np := path_Clean p in
    if ends_in_slash p && negb (String.eqb np "/") then
      if (String.length p =? String.length np + 1)%nat && String.prefix np p
      then p
      else np ++ "/"
    else np.

(** [strings.IndexByte] and the last index of a byte. *)
Fixpoint IndexByte (s : string) (c : ascii) : option nat :=
  match s with
  | EmptyString => None
  | String a s' => if Ascii.eqb a c then Some 0%nat else S <$> IndexByte s' c
  end.

Fixpoint LastIndexByte (s : string) (c : ascii) : option nat :=
  match s with
  | EmptyString => None
  | String a s' =>
      match LastIndexByte s' c with
      | Some i => Some (S i)
      | None => if Ascii.eqb a c then Some 0%nat else None
      end
  end.

(** [s[n:]]. *)
Definition string_from (n : nat) (s : string) : string :=
  substring n (String.length s - n) s.

(** [net.SplitHostPort]; [None] is an error. *)
Definition net_SplitHostPort (hostport : string) : option (string * string) :=
  match LastIndexByte hostport ":" with
  | None => None
  | Some i =>
      let port := string_from (S i) hostport in
      if String.prefix "[" hostport then
        match IndexByte hostport "]" with
        | None => None
        | Some e =>
            if (S e =? String.length hostport)%nat then None
            else if (S e =? i)%nat then
              if bool_decide (is_Some (IndexByte (string_from 1 hostport) "[")) then None
              else if bool_decide (is_Some (IndexByte (string_from (S e) hostport) "]"))
              then None
              else Some (substring 1 (e - 1) hostport, port)
            else None
        end
      else
        let host := substring 0 i hostport in
        if bool_decide (is_Some (IndexByte host ":")) then None
        else if bool_decide (is_Some (IndexByte hostport "[")) then None
        else if bool_decide (is_Some (IndexByte hostport "]")) then None
        else Some (host, port)
  end.

(** [stripHostPort]: the host without a port; unchanged when there is no
    port or the address does not parse. *)
Definition stripHostPort (h : string) : string :=
  match IndexByte h ":" with
  | None => h
  | Some _ =>
      match net_SplitHostPort h with
      | Some (host, _) => host
      | None => h
      end
  end.

(** ** net/http: ServeMux.Handler *)

(** The fields of [http.Request] that [ServeMux.Handler] reads. *)
Record mux_Request : Type := mkMuxRequest {
  mr_Method : string;
  mr_Host : string;
  mr_URL_Host : string;
  mr_URL_Path : string
}.

(** The handler that [ServeMux.Handler] returns: a registered handler,
    [http.RedirectHandler(url, code)] where [url] is built from the URL of
    the request with [path] as its path and the query kept, or
    [http.NotFoundHandler()]. *)
Inductive mux_selected `{Externals} : Type :=
| Registered (h : handler_id)
| RedirectHandler (path : string) (code : Z)
| NotFoundHandler.

Definition http_StatusMovedPermanently : Z := 301.

(** [mux.hosts]: some pattern starts with a host. *)
Definition mux_hosts `{Externals} (mux : ServeMux) : bool :=
  existsb (fun e => negb (String.prefix "/" (fst e))) mux.

(** [ServeMux.match] with the pattern that matched. *)
Definition mux_match_entry `{Externals} (mux : ServeMux) (path : string)
  : option (string * handler_id) :=
  match find (fun e => String.eqb (fst e) path) mux with
  | Some e => Some e
  | None => longest_prefix mux path None
  end.

(** [ServeMux.shouldRedirectRLocked]: [path] is not registered, with or
    without the host, and [path/] is. *)
Definition shouldRedirectRLocked `{Externals} (mux : ServeMux) (host path : string)
  : bool :=
  if has_pattern mux path || has_pattern mux (host ++ path) then false
  else if (String.length path =? 0)%nat then false
  else if has_pattern mux (path ++ "/") || has_pattern mux (host ++ path ++ "/")
  then negb (ends_in_slash path)
  else false.

(** [ServeMux.redirectToPathSlash]: the path to redirect to, if any. *)
Definition redirectToPathSlash `{Externals} (mux : ServeMux) (host path : string)
  : option string :=
  if shouldRedirectRLocked mux host path then Some (path ++ "/") else None.

(** [ServeMux.handler]: a pattern with the host first, then without, then
    not found. *)
Definition mux_handler `{Externals} (mux : ServeMux) (host path : string)
  : mux_selected * string :=
  let hosted := if mux_hosts mux then mux_match_entry mux (host ++ path) else None in
  let found :=
    match hosted with
    | Some e => Some e
    | None => mux_match_entry mux path
    end in
  match found with
  | Some (pattern, h) => (Registered h, pattern)
  | None => (NotFoundHandler, "")
  end.

(** [ServeMux.Handler]: the handler for the request and the pattern that
    matched. A [CONNECT] request keeps its path; any other has its path
    cleaned, and is redirected when that changes it. *)
Definition mux_Handler `{Externals} (mux : ServeMux) (r : mux_Request)
  : mux_selected * string :=
  if String.eqb (mr_Method r) "CONNECT" then
    match redirectToPathSlash mux (mr_URL_Host r) (mr_URL_Path r) with
    | Some p => (RedirectHandler p http_StatusMovedPermanently, p)
    | None => mux_handler mux (mr_Host r) (mr_URL_Path r)
    end
  else
    let host := stripHostPort (mr_Host r) in
    let path := cleanPath (mr_URL_Path r) in
    match redirectToPathSlash mux host path with
    | Some p => (RedirectHandler p http_StatusMovedPermanently, p)
    | None =>
        if negb (String.eqb path (mr_URL_Path r))
        then (RedirectHandler path http_StatusMovedPermanently,
              (mux_handler mux host path).2)
        else mux_handler mux host (mr_URL_Path r)
    end.

(** The host and the path that [ServeMux.Handler] looks up for a request. *)
Definition mux_host (r : mux_Request) : string :=
  if String.eqb (mr_Method r) "CONNECT" then mr_URL_Host r
  else stripHostPort (mr_Host r).

Definition mux_path (r : mux_Request) : string :=
  if String.eqb (mr_Method r) "CONNECT" then mr_URL_Path r
  else cleanPath (mr_URL_Path r).

(** The subtrees that main registers, without their trailing slash. *)
Definition subtree_roots : list string :=
  ["/_internal/capabilities"; "/metrics/find"; "/render"].

(** [strings.Contains]. *)
Fixpoint strings_Contains (s substr : string) : bool :=
  String.prefix substr s
  || match s with
     | EmptyString => false
     | String _ s' => strings_Contains s' substr
     end.

(** * Components specified outside this file *)

(** The Render Pipeline and the Cluster Executor have no source file here.
    Every definition of this part is written from the specification, and
    names the sentence it follows. *)

(** ** Render Pipeline: alignment *)

(** Modelled from the spec: the type of output points, which the missing
    Render Pipeline produces. Section 3: "SeriesPoint: (timestamp, value,
    present:boolean)"; values are IEEE binary64 numbers. *)
Record SeriesPoint : Type := mkPoint {
  timestamp : Z;
  value : float;
  present : bool
}.

(** Modelled from the spec: the aggregations that the missing Render
    Pipeline can be configured with. Section 4.6: "sum/avg/max/min/last". *)
Inductive Aggregation : Type :=
| agg_sum
| agg_avg
| agg_max
| agg_min
| agg_last.

(** Modelled from the spec: the sum of the values of a bucket, for the
    missing consolidation step. Section 4.6: "aggregation is computed in
    floating-point". *)
Definition float_sum (vs : list float) : float :=
  fold_left PrimFloat.add vs 0%float.

(** Modelled from the spec: the number of values of a bucket, as a float,
    for the average of the missing consolidation step. *)
Definition float_count (vs : list float) : float :=
  fold_left (fun n _ => PrimFloat.add n 1%float) vs 0%float.

(** Modelled from the spec: the larger of two values, for "max" of the
    missing consolidation step. *)
Definition float_max (a b : float) : float := if PrimFloat.ltb a b then b else a.

(** Modelled from the spec: the smaller of two values, for "min" of the
    missing consolidation step. *)
Definition float_min (a b : float) : float := if PrimFloat.ltb b a then b else a.

(** Modelled from the spec: the consolidation of the raw values that land in
    one bucket; the Render Pipeline is not among the sources. Section 4.6:
    "consolidated using the configured aggregation (sum/avg/max/min/last)",
    "aggregation is computed in floating-point". The values are in
    timestamp order. *)
Definition aggregate (f : Aggregation) (vs : list float) : float :=
  match vs with
  | [] => PrimFloat.nan
  | v :: vs' =>
      match f with
      | agg_sum => float_sum vs
      | agg_avg => PrimFloat.div (float_sum vs) (float_count vs)
      | agg_max => fold_left float_max vs' v
      | agg_min => fold_left float_min vs' v
      | agg_last => List.last vs' v
      end
  end.

(** Modelled from the spec: the bucket of a raw timestamp, for the missing
    alignment step. Section 4.6: "buckets every raw timestamp into the
    target step using floor division from start". *)
Definition bucket_of (start step t : Z) : Z := (t - start) / step.

(** Modelled from the spec: one step of putting the raw rows in timestamp
    order, for the missing alignment step. *)
Fixpoint insert_by_time (p : Z * float) (l : list (Z * float)) : list (Z * float) :=
  match l with
  | [] => [p]
  | q :: l' => if fst p <? fst q then p :: l else q :: insert_by_time p l'
  end.

(** Modelled from the spec: the raw rows in timestamp order, for the missing
    alignment step. Section 4.6: rows arrive "possibly out of order"; section
    5: the merge is followed by a "deterministic sort". Rows of one
    timestamp stay in arrival order. *)
Definition sort_by_time (raw : list (Z * float)) : list (Z * float) :=
  fold_right insert_by_time [] (rev raw).

(** Modelled from the spec: the raw values that land in bucket [i], for the
    missing alignment step. *)
Definition bucket_values (start step : Z) (raw : list (Z * float)) (i : Z)
  : list float :=
  snd <$> filter (fun p => bucket_of start step (fst p) = i) (sort_by_time raw).

(** Modelled from the spec: one output bucket of the missing alignment step.
    Section 4.6: "gaps (no raw point in a bucket) are marked present=false
    rather than interpolated". *)
Definition render_bucket (f : Aggregation) (start step : Z)
  (raw : list (Z * float)) (i : Z) : SeriesPoint :=
  match bucket_values start step raw i with
  | [] => mkPoint (start + i * step) PrimFloat.nan false
  | vs => mkPoint (start + i * step) (aggregate f vs) true
  end.

(** Modelled from the spec: the alignment step of [Render] for one series,
    over [n] buckets from [start]. The spec does not say how the number of
    buckets follows from [stop], so it is an argument. *)
Definition Align (f : Aggregation) (start step : Z) (n : nat)
  (raw : list (Z * float)) : list SeriesPoint :=
  (fun i : nat => render_bucket f start step raw (Z.of_nat i)) <$> seq 0 n.

(** ** Cluster Executor *)

(** Modelled from the spec: a shard of the cluster that the missing Cluster
    Executor queries. Glossary: "one partition of the index/data tables
    served by one or more replica hosts"; the first host is tried first. *)
Record Shard : Type := mkShard {
  shard_name : string;
  shard_hosts : list string
}.

(** Modelled from the spec: the kind of an [ExecError] of the missing
    Cluster Executor. *)
Inductive ExecErrorKind : Type :=
| PartialClusterFailure.

(** Modelled from the spec: the answer of the missing [Execute]. Section
    4.4: "ResultSet | ExecError"; an index result set is a list of paths. *)
Inductive ExecResult : Type :=
| ResultSet (paths : list string)
| ExecError (kind : ExecErrorKind) (failedShards : list string).

(** Modelled from the spec: the failover policy for one shard; the Cluster
    Executor is not among the sources. Section 4.4: "if a host fails and a
    spare host for the same shard exists, retry once on the spare before
    marking the shard failed". [send] is one sub-query to one host, [None]
    when it fails (network error, non-2xx, or deadline exceeded). *)
Definition query_shard (send : string -> option (list string)) (s : Shard)
  : option (list string) :=
  match shard_hosts s with
  | [] => None
  | host :: spares =>
      match send host with
      | Some paths => Some paths
      | None =>
          match spares with
          | spare :: _ => send spare
          | [] => None
          end
      end
  end.

(** Modelled from the spec: the shards that got no answer, for the missing
    [Execute]. *)
Definition failed_shards (send : string -> option (list string))
  (cluster : list Shard) : list string :=
  shard_name <$> filter (fun s => query_shard send s = None) cluster.

(** Modelled from the spec: the merge of the missing [Execute]. Section
    4.4: "Successful shard responses are merged: for index queries, by set
    union with de-duplication on path identity". *)
Definition merge_paths (answers : list (list string)) : list string :=
  remove_dups (concat answers).

(** Modelled from the spec: [Execute] of the missing Cluster Executor, for
    an index query. Section 4.4: "if all replicas of any required shard
    fail, the whole request fails with ExecError(PartialClusterFailure,
    failedShards)". *)
Definition Execute (send : string -> option (list string)) (cluster : list Shard)
  : ExecResult :=
  match failed_shards send cluster with
  | [] => ResultSet (merge_paths (omap (query_shard send) cluster))
  | failed => ExecError PartialClusterFailure failed
  end.

(** * Example inputs *)

#[export] Instance example_Externals : Externals :=
  {| context_Context := string; zapwriter_Config := string |}.

(** A store with one response writer of another implementation, at
    location 0, and no wrapper yet. *)
Definition example_World : World :=
  mkWorld ∅ {[ 0%nat := mkOtherWriter ∅ [] ]} 0 0 [].

(** A request scope that names every request [req-1] and logs under [gch]. *)
#[export] Instance example_scope : scope_pkg := {|
  scope_HttpRequest := fun r seed =>
    (mkRequest (Method r) (URL r) (Header r) (RemoteAddr r) "req-1", (seed + 1)%N);
  scope_RequestID := fun ctx => ctx;
  scope_Grafana := fun _ => "";
  scope_LoggerWithHeaders := fun _ _ _ => mkLogger "gch" []
|}.

Definition example_Request : http_Request :=
  mkRequest "GET" "/render/?target=a.b" ∅ "10.0.0.1:4242" "".

(** A handler that fails: it answers 500 after two seconds. *)
Definition example_failing_handler : http_Handler :=
  fun w _ σ =>
    σ ← iface_WriteHeader w http_StatusInternalServerError σ;
    σ ← iface_Write w "Internal Server Error" σ;
    Some (mkWorld (logws σ) (others σ) (clock σ + 2000000000) (rng σ) (logged σ)).

Definition example_Config : config_Config :=
  mkConfig (mkCommon ":9090" "" 1 0 []) [] "".

(** Every call into another package succeeds; the server never returns. *)
Definition example_Env : Env :=
  mkEnv None (fun _ _ => inl example_Config) (fun _ => None)
    (fun _ => inl (fun name => mkLogger name [])) (fun _ => None)
    (fun _ => None) false (fun _ _ => None).

(** [graphite-clickhouse -tags -version], [graphite-clickhouse -tags] and
    [graphite-clickhouse]. *)
Definition flags_tags_version : Flags :=
  mkFlags "/etc/graphite-clickhouse/graphite-clickhouse.conf"
    false false true "" true false.

Definition flags_tags : Flags :=
  mkFlags "/etc/graphite-clickhouse/graphite-clickhouse.conf"
    false false true "" false false.

Definition flags_server : Flags :=
  mkFlags "/etc/graphite-clickhouse/graphite-clickhouse.conf"
    false false false "" false false.

(** Handlers of the other packages that answer with an empty body. *)
#[export] Instance example_handlers : handlers_pkg := {|
  capabilities_ServeHTTP := fun _ w _ σ => iface_Write w "" σ;
  find_ServeHTTP := fun _ w _ σ => iface_Write w "" σ;
  index_ServeHTTP := fun _ w _ σ => iface_Write w "" σ;
  render_ServeHTTP := fun _ w _ σ => iface_Write w "" σ;
  autocomplete_Tags_ServeHTTP := fun _ w _ σ => iface_Write w "" σ;
  autocomplete_Values_ServeHTTP := fun _ w _ σ => iface_Write w "" σ;
  json_MarshalIndent := fun _ => inl "{}"
|}.

(** A cluster of two shards, A and B; only host [a1] answers. *)
Definition example_cluster : list Shard :=
  [mkShard "A" ["a1"]; mkShard "B" ["b1"; "b2"]].

Definition example_send (host : string) : option (list string) :=
  if String.eqb host "a1" then Some ["a.b.c"; "a.b.d"] else None.

(** A request that came through a proxy. *)
Definition example_proxied_Request : http_Request :=
  mkRequest "GET" "/metrics/find/?query=a.*"
    {[ "X-Real-Ip" := ["::1"]; "X-Forwarded-For" := ["10.1.1.1, 10.2.2.2"] ]}
    "10.0.0.1:4242" "".

(** A find handler that answers from its cache. *)
Definition example_cached_handler : http_Handler :=
  fun w _ σ =>
    σ ← iface_Header_Set w "X-Cached-Find" "true" σ;
    iface_Write w "a.b" σ.

(** [graphite-clickhouse -check-config], and
    [graphite-clickhouse -tags -pprof :6060]. *)
Definition flags_check_config : Flags :=
  mkFlags "/etc/graphite-clickhouse/graphite-clickhouse.conf"
    false true false "" false false.

Definition flags_tags_pprof : Flags :=
  mkFlags "/etc/graphite-clickhouse/graphite-clickhouse.conf"
    false false true ":6060" false false.

(** A configuration with a Prometheus listener, and a world in which
    starting it fails. *)
Definition example_Config_prometheus : config_Config :=
  mkConfig (mkCommon ":9090" "" 1 0 []) [] ":9092".

Definition example_Env_prometheus_fails : Env :=
  mkEnv None (fun _ _ => inl example_Config_prometheus) (fun _ => None)
    (fun _ => inl (fun name => mkLogger name [])) (fun _ => None)
    (fun _ => Some "listen tcp :9092: bind: address already in use") false
    (fun _ _ => None).

(** Requests as the mux sees them: a render request, one whose path is not
    in canonical form, and one for a subtree without its trailing slash. *)
Definition example_render_Request : mux_Request :=
  mkMuxRequest "GET" "graphite.example.com:9090" "" "/render/".

Definition example_unclean_Request : mux_Request :=
  mkMuxRequest "GET" "graphite.example.com:9090" "" "/render/../alive".

Definition example_root_Request : mux_Request :=
  mkMuxRequest "GET" "graphite.example.com:9090" "" "/metrics/find".

(** * Checks on concrete inputs *)

Example CanonicalMIMEHeaderKey_request_id :
  CanonicalMIMEHeaderKey "X-Gch-Request-ID" = "X-Gch-Request-Id".
Proof. reflexivity. Qed.

Example CanonicalMIMEHeaderKey_lower :
  CanonicalMIMEHeaderKey "x-forwarded-for" = "X-Forwarded-For".
Proof. reflexivity. Qed.

Example CanonicalMIMEHeaderKey_no_token :
  CanonicalMIMEHeaderKey "x real ip" = "x real ip".
Proof. reflexivity. Qed.

Example Split_first_two : Split_first "10.1.1.1, 10.2.2.2" = "10.1.1.1".
Proof. reflexivity. Qed.

Example Split_first_one : Split_first "10.1.1.1" = "10.1.1.1".
Proof. reflexivity. Qed.

Example JoinHostPort_v4 : net_JoinHostPort "10.1.1.1" "0" = "10.1.1.1:0".
Proof. reflexivity. Qed.

Example JoinHostPort_v6 : net_JoinHostPort "::1" "0" = "[::1]:0".
Proof. reflexivity. Qed.

(** A request whose handler answers 500: the access line says so, under the
    logger [gch.http], with the two seconds the handler took. *)
Example App_Handler_logs_server_error :
  logged <$> App_Handler (mkApp example_Config) example_failing_handler
               (RW_other 0) example_Request example_World
  = Some [mkEntry (mkLogger "gch.http" []) "access"
            [ zap_Duration "time" 2000000000;
              zap_String "method" "GET";
              zap_String "url" "/render/?target=a.b";
              zap_String "peer" "10.0.0.1:4242";
              zap_String "client" "";
              zap_Int "status" 500;
              zap_Bool "find_cached" false ]].
Proof. vm_compute. reflexivity. Qed.

(** The server run: start-up, eight registrations, then the server. *)
Example main_server_run :
  (main flags_server example_Env).2 = Serving
  /\ length (main flags_server example_Env).1 = 16%nat
  /\ last (main flags_server example_Env).1
     = Some (Ev_ListenAndServe ":9090" (server_mux example_Config)).
Proof. repeat split; reflexivity. Qed.

(** Patterns without a trailing slash match only themselves. *)
Example mux_match_exact_only :
  mux_match (server_mux example_Config) "/tags/autoComplete/tags/x" = None
  /\ mux_match (server_mux example_Config) "/render" = None
  /\ mux_match (server_mux example_Config) "/alive" = Some alive_func.
Proof. repeat split; reflexivity. Qed.

(** [path.Clean] on rooted and relative paths. *)
Example path_Clean_examples :
  map path_Clean
    [ ""; "abc"; "abc/def"; "."; ".."; "../../abc"; "/"; "abc/"; "../";
      "abc//def//ghi"; "//abc//"; "abc/./def"; "/./abc/def";
      "abc/def/../ghi/../jkl"; "abc/def/../.."; "/abc/def/../../..";
      "abc/def/../../../ghi/jkl/../../../mno"; "abc/../../././../def";
      "/../a/b/../././/c"; "/a.b/..c/..." ]
  = [ "."; "abc"; "abc/def"; "."; ".."; "../../abc"; "/"; "abc"; "..";
      "abc/def/ghi"; "/abc"; "abc/def"; "/abc/def";
      "abc/jkl"; "."; "/";
      "../../mno"; "../../def";
      "/a/c"; "/a.b/..c/..." ].
Proof. vm_compute. reflexivity. Qed.

(** [cleanPath] roots the path and keeps a trailing slash. *)
Example cleanPath_examples :
  map cleanPath
    [ ""; "a"; "//"; "/render/"; "/render"; "/render/../alive"; "/render//x";
      "/dir/./"; "/dir/."; "/a/b/../" ]
  = [ "/"; "/a"; "/"; "/render/"; "/render"; "/alive"; "/render/x";
      "/dir/"; "/dir"; "/a/" ].
Proof. vm_compute. reflexivity. Qed.

Example stripHostPort_examples :
  map stripHostPort
    [ "example.com"; "example.com:8080"; "[::1]:80"; "::1"; "[::1]"; ":80";
      "[a]b:80"; "a[b:80" ]
  = [ "example.com"; "example.com"; "::1"; "::1"; "[::1]"; "";
      "[a]b:80"; "a[b:80" ].
Proof. vm_compute. reflexivity. Qed.

(** The mux of main on four requests: a render request is served, a path
    that is not in canonical form and a subtree without its slash are
    redirected, and the path of a [CONNECT] request is not cleaned. *)
Example mux_Handler_examples :
  mux_Handler (server_mux example_Config) example_render_Request
  = (Registered (app_Handler (mkApp example_Config) (render_NewHandler example_Config)),
     "/render/")
  /\ mux_Handler (server_mux example_Config) example_unclean_Request
     = (RedirectHandler "/alive" 301, "/alive")
  /\ mux_Handler (server_mux example_Config) example_root_Request
     = (RedirectHandler "/metrics/find/" 301, "/metrics/find/")
  /\ mux_Handler (server_mux example_Config)
       (mkMuxRequest "CONNECT" "graphite.example.com:9090" "" "/render/../alive")
     = (Registered (app_Handler (mkApp example_Config) (render_NewHandler example_Config)),
        "/render/")
  /\ mux_Handler (server_mux example_Config)
       (mkMuxRequest "GET" "graphite.example.com:9090" "" "/metrics")
     = (NotFoundHandler, "").
Proof. vm_compute. repeat split; reflexivity. Qed.

(** * Properties of the response writer *)

(** [Status()] never answers zero. *)
Lemma Status_never_zero (w : option loc) (σ : World) :
  LogResponseWriter_Status w σ <> Some 0.
Proof.
  unfold LogResponseWriter_Status. destruct w as [l|]; [|discriminate]. simpl.
  destruct (logws σ !! l) as [o|]; [|discriminate]. simpl.
  destruct (decide (status o = 0)) as [Hz|Hz]; [discriminate|].
  intros [= Heq]. exact (Hz Heq).
Qed.

Lemma Status_lookup (l : loc) (o : LogResponseWriter) (σ : World) :
  logws σ !! l = Some o ->
  LogResponseWriter_Status (Some l) σ
  = Some (if decide (status o = 0) then http_StatusOK else status o).
Proof.
  intros Hl. unfold LogResponseWriter_Status. simpl. rewrite Hl. simpl.
  destruct (decide (status o = 0)); reflexivity.
Qed.

(** [WriteHeader] keeps every wrapper in place and leaves its [status]
    alone or sets it to the code of the call. *)
Lemma rw_WriteHeader_logws (fuel : nat) :
  forall (w : http_ResponseWriter) (code : Z) (σ σ' : World),
    rw_WriteHeader fuel w code σ = Some σ' ->
    forall (l : loc) (o : LogResponseWriter),
      logws σ !! l = Some o ->
      exists o', logws σ' !! l = Some o' /\ (status o' = status o \/ status o' = code).
Proof.
  induction fuel as [|fuel IH]; intros w code σ σ' Hrun l o Hl; [discriminate|].
  destruct w as [|p|u]; simpl in Hrun; [discriminate| |].
  - destruct p as [l0|]; [|discriminate]. simpl in Hrun.
    destruct (logws σ !! l0) as [o0|] eqn:Hl0; [|discriminate]. simpl in Hrun.
    destruct (decide (l0 = l)) as [->|Hne].
    + destruct (IH _ _ _ _ Hrun l
                  (mkLogResponseWriter (ResponseWriter o0) code (cached o0)))
        as (o' & Ho' & Hst); [simpl; apply lookup_insert_eq|].
      exists o'. split; [exact Ho'|]. right.
      destruct Hst as [Hst|Hst]; exact Hst.
    + destruct (IH _ _ _ _ Hrun l o) as (o' & Ho' & Hst).
      * simpl. rewrite lookup_insert_ne; [exact Hl|exact Hne].
      * exists o'. split; [exact Ho'|exact Hst].
  - destruct (others σ !! u) as [ou|]; [|discriminate]. simpl in Hrun.
    injection Hrun as <-. exists o. split; [exact Hl|left; reflexivity].
Qed.

(** After [w.WriteHeader(code)] the field [w.status] is [code]. *)
Lemma WriteHeader_sets_status (l : loc) (code : Z) (σ σ' : World) :
  LogResponseWriter_WriteHeader (Some l) code σ = Some σ' ->
  exists o', logws σ' !! l = Some o' /\ status o' = code.
Proof.
  unfold LogResponseWriter_WriteHeader, chain_fuel. simpl. intros Hrun.
  destruct (logws σ !! l) as [o|] eqn:Hl; [|discriminate]. simpl in Hrun.
  destruct (rw_WriteHeader_logws _ _ _ _ _ Hrun l
              (mkLogResponseWriter (ResponseWriter o) code (cached o)))
    as (o' & Ho' & Hst); [simpl; apply lookup_insert_eq|].
  exists o'. split; [exact Ho'|]. destruct Hst as [Hst|Hst]; exact Hst.
Qed.

(** [Write] and [Header().Add] do not touch the wrappers. *)
Lemma iface_Write_logws (w : http_ResponseWriter) (body : string) (σ σ' : World) :
  iface_Write w body σ = Some σ' -> logws σ' = logws σ.
Proof.
  unfold iface_Write. intros Hrun.
  destruct (iface_base w σ) as [u|]; [|discriminate]. simpl in Hrun.
  destruct (others σ !! u) as [o|]; [|discriminate]. simpl in Hrun.
  injection Hrun as <-. reflexivity.
Qed.

Lemma iface_Header_Add_logws (w : http_ResponseWriter) (key v : string)
  (σ σ' : World) :
  iface_Header_Add w key v σ = Some σ' -> logws σ' = logws σ.
Proof.
  unfold iface_Header_Add. intros Hrun.
  destruct (iface_base w σ) as [u|]; [|discriminate]. simpl in Hrun.
  destruct (others σ !! u) as [o|]; [|discriminate]. simpl in Hrun.
  injection Hrun as <-. reflexivity.
Qed.

(** A history of calls leaves in [status] the code of its last
    [WriteHeader], or what was there before. *)
Lemma run_ops_status (l : loc) (ops : list writer_op) :
  forall (σ σ' : World) (o : LogResponseWriter),
    logws σ !! l = Some o ->
    run_ops (Some l) ops σ = Some σ' ->
    exists o', logws σ' !! l = Some o'
               /\ status o' = default (status o) (last_WriteHeader ops).
Proof.
  induction ops as [|op ops IH]; intros σ σ' o Hl Hrun.
  - injection Hrun as <-. exists o. split; [exact Hl|reflexivity].
  - simpl in Hrun.
    destruct (run_op (Some l) op σ) as [σ1|] eqn:Hop; [|discriminate].
    simpl in Hrun.
    assert (exists o1, logws σ1 !! l = Some o1
                       /\ status o1 = match op with
                                      | Op_WriteHeader code => code
                                      | _ => status o
                                      end) as (o1 & Hl1 & Hst1).
    { destruct op as [code|body|key v]; simpl in Hop.
      - apply WriteHeader_sets_status in Hop. exact Hop.
      - apply iface_Write_logws in Hop. exists o. rewrite Hop. auto.
      - apply iface_Header_Add_logws in Hop. exists o. rewrite Hop. auto. }
    destruct (IH σ1 σ' o1 Hl1 Hrun) as (o' & Hl' & Hst').
    exists o'. split; [exact Hl'|]. rewrite Hst'. simpl.
    destruct (last_WriteHeader ops) as [c|]; simpl; [reflexivity|].
    rewrite Hst1. destruct op; reflexivity.
Qed.

(** C9: WrapResponseWriter is idempotent. On a writer that already is a
    [*LogResponseWriter] it returns that very pointer and changes nothing in
    the store, so wrapping the result of a wrap returns the same pointer
    again, with the same store: no wrapper is ever put around a wrapper. On
    any other writer it allocates one new object that embeds the writer
    itself. *)
Theorem WrapResponseWriter_idempotent (w : http_ResponseWriter) (σ : World) :
  (forall p : option loc, WrapResponseWriter (RW_log p) σ = (p, σ))
  /\ (let '(wrapped, σ') := WrapResponseWriter w σ in
      WrapResponseWriter (RW_log wrapped) σ' = (wrapped, σ'))
  /\ (let '(wrapped, σ') := WrapResponseWriter w σ in
      match w with
      | RW_log p => wrapped = p /\ σ' = σ
      | _ => exists l : loc,
               wrapped = Some l
               /\ logws σ !! l = None
               /\ logws σ' !! l = Some (mkLogResponseWriter w 0 false)
      end).
Proof.
  split; [intros p; reflexivity|].
  split.
  - destruct (WrapResponseWriter w σ) as [wrapped σ'] eqn:Hw. reflexivity.
  - destruct w as [|p|u]; simpl.
    + exists (fresh (dom (logws σ))). split; [reflexivity|]. split.
      * apply not_elem_of_dom. apply is_fresh.
      * apply lookup_insert_eq.
    + split; reflexivity.
    + exists (fresh (dom (logws σ))). split; [reflexivity|]. split.
      * apply not_elem_of_dom. apply is_fresh.
      * apply lookup_insert_eq.
Qed.

(** C10, as stated, fails when the code passed to [WriteHeader] is zero:
    wrap a writer, call [WriteHeader(0)] on the wrapper, and [Status()]
    answers 200, not the code of the most recent call. *)
Lemma Status_after_WriteHeader_zero :
  exists (σ' : World) (code : Z),
    run_ops (WrapResponseWriter (RW_other 0) example_World).1 [Op_WriteHeader 0]
      (WrapResponseWriter (RW_other 0) example_World).2 = Some σ'
    /\ last_WriteHeader [Op_WriteHeader 0] = Some code
    /\ LogResponseWriter_Status
         (WrapResponseWriter (RW_other 0) example_World).1 σ' = Some 200
    /\ LogResponseWriter_Status
         (WrapResponseWriter (RW_other 0) example_World).1 σ' <> Some code.
Proof.
  eexists. exists 0. split; [vm_compute; reflexivity|].
  split; [reflexivity|]. split; [vm_compute; reflexivity|].
  vm_compute. discriminate.
Qed.

(** C10, amended: take a writer that is no [*LogResponseWriter], wrap it, and
    make any calls on the wrapper. [Status()] then answers 200 if
    [WriteHeader] was never called or if its most recent call passed zero,
    and the code of the most recent [WriteHeader] call otherwise; it never
    answers zero. *)
Theorem Status_after_history (w : http_ResponseWriter) (σ σ' : World)
  (ops : list writer_op) :
  (forall p : option loc, w <> RW_log p) ->
  run_ops (WrapResponseWriter w σ).1 ops (WrapResponseWriter w σ).2 = Some σ' ->
  LogResponseWriter_Status (WrapResponseWriter w σ).1 σ'
  = Some (match last_WriteHeader ops with
          | None => 200
          | Some code => if decide (code = 0) then 200 else code
          end)
  /\ LogResponseWriter_Status (WrapResponseWriter w σ).1 σ' <> Some 0.
Proof.
  intros Hw Hrun.
  assert (exists l, (WrapResponseWriter w σ).1 = Some l
                    /\ logws (WrapResponseWriter w σ).2 !! l
                       = Some (mkLogResponseWriter w 0 false)) as (l & Hp & Hl).
  { destruct w as [|p|u]; simpl.
    - eexists. split; [reflexivity|apply lookup_insert_eq].
    - destruct (Hw p). reflexivity.
    - eexists. split; [reflexivity|apply lookup_insert_eq]. }
  rewrite Hp in *.
  destruct (run_ops_status l ops _ _ _ Hl Hrun) as (o' & Hl' & Hst).
  rewrite (Status_lookup l o' σ' Hl'). rewrite Hst. simpl.
  destruct (last_WriteHeader ops) as [code|]; simpl.
  - destruct (decide (code = 0)) as [Hz|Hz]; split; try reflexivity.
    + discriminate.
    + intros [= Heq]. exact (Hz Heq).
  - split; [reflexivity|discriminate].
Qed.

(** The history [WriteHeader(500); Write; WriteHeader(404)] on a new wrapper:
    [Status()] answers 404. *)
Lemma Status_after_history_witness :
  LogResponseWriter_Status (WrapResponseWriter (RW_other 0) example_World).1
    (mkWorld {[ 0%nat := mkLogResponseWriter (RW_other 0) 404 false ]}
       {[ 0%nat := mkOtherWriter ∅ [Did_WriteHeader 500; Did_Write "oops"; Did_WriteHeader 404] ]}
       0 0 [])
  = Some 404
  /\ LogResponseWriter_Status (WrapResponseWriter (RW_other 0) example_World).1
       (mkWorld {[ 0%nat := mkLogResponseWriter (RW_other 0) 404 false ]}
          {[ 0%nat := mkOtherWriter ∅ [Did_WriteHeader 500; Did_Write "oops"; Did_WriteHeader 404] ]}
          0 0 [])
     <> Some 0.
Proof.
  apply (Status_after_history (RW_other 0) example_World _
           [Op_WriteHeader 500; Op_Write "oops"; Op_WriteHeader 404]).
  - intros p. discriminate.
  - vm_compute. reflexivity.
Defined.

(** * Properties of the access-logging middleware *)

(** Replacing the writer that a chain ends at does not change where the
    chain ends. *)
Lemma rw_base_insert (fuel : nat) :
  forall (w : http_ResponseWriter) (σ : World) (u : loc) (o : OtherWriter),
    rw_base fuel w σ = Some u ->
    rw_base fuel w (set_others (insert u o) σ) = Some u.
Proof.
  induction fuel as [|fuel IH]; intros w σ u o Hb; [discriminate|].
  destruct w as [|p|v]; simpl in *; [discriminate| |].
  - destruct p as [l|]; [|discriminate]. simpl in *.
    destruct (logws σ !! l) as [ol|]; [|discriminate]. simpl in *.
    apply IH. exact Hb.
  - destruct (others σ !! v) as [ov|] eqn:Hv; [|discriminate]. simpl in Hb.
    injection Hb as ->. rewrite lookup_insert_eq. reflexivity.
Qed.

Lemma iface_base_insert (w : http_ResponseWriter) (σ : World) (u : loc)
  (o : OtherWriter) :
  iface_base w σ = Some u -> iface_base w (set_others (insert u o) σ) = Some u.
Proof. unfold iface_base, chain_fuel. cbn [logws set_others]. apply rw_base_insert. Qed.

(** C8: whenever the handler built by [App.Handler] completes, it has
    (1) added the request-scope identifier [scope.RequestID] under
    [X-Gch-Request-ID] (canonical key [X-Gch-Request-Id]) to the header map
    of the response before the wrapped handler ran, (2) run the wrapped
    handler on the wrapper and the scoped request, and (3) after that made
    one [Info] call, [access], on the logger named [http], with the
    duration, method, URL and status among its fields, the status being
    what the wrapper reports, a server error included. *)
Theorem App_Handler_request_id_and_access_log `{scope_pkg} (app : App)
  (handler : http_Handler) (w : http_ResponseWriter) (r : http_Request)
  (σ σ' : World) :
  App_Handler app handler w r σ = Some σ' ->
  let writer := (WrapResponseWriter w σ).1 in
  let r' := (scope_HttpRequest r (rng σ)).1 in
  exists (σ1 σ2 : World) (u : loc) (o : OtherWriter) (old : list string)
         (st : Z) (logger : zap_Logger) (peer client : string) (cached : bool),
    iface_base w σ1 = Some u
    /\ others σ1 !! u = Some o
    /\ ow_header o !! "X-Gch-Request-Id"
       = Some (old ++ [scope_RequestID (Context r')])%list
    /\ handler (RW_log writer) r' σ1 = Some σ2
    /\ LogResponseWriter_Status writer σ2 = Some st
    /\ σ' = zap_Info logger "access"
               (access_fields (clock σ2 - clock σ1) (Method r') (URL r')
                  peer client st cached) σ2
    /\ zl_name logger
       = zl_name (zap_Named
                    (scope_LoggerWithHeaders (Context r') r'
                       (Common_HeadersToLog (Common (config app)))) "http")
    /\ logged σ' = (logged σ2 ++
                     [mkEntry logger "access"
                        [ zap_Duration "time" (clock σ2 - clock σ1);
                          zap_String "method" (Method r');
                          zap_String "url" (URL r');
                          zap_String "peer" peer;
                          zap_String "client" client;
                          zap_Int "status" st;
                          zap_Bool "find_cached" cached ]])%list.
Proof.
  intros Hrun writer r'. subst writer r'. unfold App_Handler in Hrun.
  destruct (WrapResponseWriter w σ) as [writer σ0] eqn:Hw.
  destruct (scope_HttpRequest r (rng σ0)) as [r' seed] eqn:Hr.
  assert (rng σ0 = rng σ) as Hrng.
  { destruct w; simpl in Hw; injection Hw as _ <-; reflexivity. }
  rewrite Hrng in Hr. rewrite Hr. simpl fst.
  destruct (iface_Header_Add w "X-Gch-Request-ID" (scope_RequestID (Context r'))
              (set_rng seed σ0)) as [σ1|] eqn:Hadd; [|discriminate].
  simpl in Hrun.
  destruct (handler (RW_log writer) r' σ1) as [σ2|] eqn:Hh; [|discriminate].
  simpl in Hrun.
  destruct (iface_Header_Get w "X-Cached-Find" σ2) as [cachedFind|]; [|discriminate].
  simpl in Hrun.
  destruct (LogResponseWriter_Status writer σ2) as [st|] eqn:Hst; [|discriminate].
  simpl in Hrun. injection Hrun as <-.
  unfold iface_Header_Add in Hadd.
  destruct (iface_base w (set_rng seed σ0)) as [u|] eqn:Hbase; [|discriminate].
  simpl in Hadd.
  destruct (others σ0 !! u) as [o|] eqn:Hu; [|discriminate].
  simpl in Hadd. injection Hadd as <-.
  exists (set_others
            (insert u (mkOtherWriter
                         (Header_Add (ow_header o) "X-Gch-Request-ID"
                            (scope_RequestID (Context r')))
                         (ow_calls o)))
            (set_rng seed σ0)).
  eexists σ2, u, _, (default [] (ow_header o !! "X-Gch-Request-Id")), st, _, _, _, _.
  split; [|split; [|split; [|split; [|split; [|split; [|split]]]]]].
  - apply (iface_base_insert w (set_rng seed σ0) u). exact Hbase.
  - simpl. apply lookup_insert_eq.
  - simpl. unfold Header_Add. apply lookup_insert_eq.
  - exact Hh.
  - exact Hst.
  - reflexivity.
  - destruct (decide (scope_Grafana (Context r') = "")); reflexivity.
  - reflexivity.
Qed.

(** The failing handler behind [App.Handler]: the run completes and its last
    log entry is the access line of the request. *)
Lemma App_Handler_request_id_and_access_log_witness :
  exists (σ' : World) (e : log_entry),
    App_Handler (mkApp example_Config) example_failing_handler (RW_other 0)
      example_Request example_World = Some σ'
    /\ last (logged σ') = Some e
    /\ le_msg e = "access"
    /\ In (zap_String "method" "GET") (le_fields e).
Proof.
  assert (is_Some (App_Handler (mkApp example_Config) example_failing_handler
                     (RW_other 0) example_Request example_World)) as [σ' Hrun].
  { vm_compute. eexists. reflexivity. }
  destruct (App_Handler_request_id_and_access_log
              (mkApp example_Config) example_failing_handler (RW_other 0)
              example_Request example_World σ' Hrun)
    as (σ1 & σ2 & u & o & old & st & logger & peer & client & cached
        & _ & _ & _ & _ & _ & _ & _ & Hlog).
  eexists σ', _. split; [exact Hrun|]. split.
  - rewrite Hlog. apply last_snoc.
  - split; [reflexivity|]. simpl. right. left. reflexivity.
Defined.

(** * Properties of main *)

Lemma trace_bind `{Externals} {A B : Type} (m : Main A) (f : A -> Main B) :
  (m ≫= f).1 = (m.1 ++ match m.2 with
                       | inl a => (f a).1
                       | inr _ => []
                       end)%list.
Proof.
  destruct m as [evs [a|e]]; simpl.
  - destruct (f a) as [evs' r]. reflexivity.
  - rewrite app_nil_r. reflexivity.
Qed.

Lemma result_bind `{Externals} {A B : Type} (m : Main A) (f : A -> Main B) :
  (m ≫= f).2 = match m.2 with
               | inl a => (f a).2
               | inr e => inr e
               end.
Proof.
  destruct m as [evs [a|e]]; simpl; [|reflexivity].
  destruct (f a) as [evs' r]. reflexivity.
Qed.

Section Traces.
Context `{Externals} (P : event -> Prop).

Lemma Forall_trace_bind {A B : Type} (m : Main A) (f : A -> Main B) :
  Forall P m.1 ->
  (forall a : A, m.2 = inl a -> Forall P (f a).1) ->
  Forall P (m ≫= f).1.
Proof.
  intros Hm Hf. rewrite trace_bind. apply Forall_app. split; [exact Hm|].
  destruct m.2 as [a|e]; [apply Hf; reflexivity|constructor].
Qed.

Lemma Forall_trace_emit (ev : event) : P ev -> Forall P (emit ev).1.
Proof. intros Hev. repeat constructor. exact Hev. Qed.

Lemma Forall_trace_stop {A : Type} (e : exit) : Forall P (stop (A := A) e).1.
Proof. constructor. Qed.

Lemma Forall_trace_ret {A : Type} (a : A) : Forall P (mret (M := Main) a).1.
Proof. constructor. Qed.

Lemma Forall_trace_fatal_on (err : option error) : Forall P (fatal_on err).1.
Proof. destruct err; constructor. Qed.

Lemma Forall_trace_when (b : bool) (m : Main unit) :
  Forall P m.1 -> Forall P (when b m).1.
Proof. intros Hm. destruct b; [exact Hm|constructor]. Qed.

End Traces.

(** Walks through a piece of main, leaving one goal for each event. *)
Ltac trace_forall :=
  repeat first
    [ apply Forall_trace_bind; [|intros ? _]
    | apply Forall_trace_when
    | apply Forall_trace_stop
    | apply Forall_trace_ret
    | apply Forall_trace_fatal_on
    | apply Forall_trace_emit
    | match goal with
      | |- Forall _ (match ?x with _ => _ end).1 => destruct x
      end ].

Lemma main_config_startup `{Externals} (flags : Flags) (env : Env) :
  Forall startup_event (main_config flags env).1.
Proof.
  unfold main_config. trace_forall; split; reflexivity.
Qed.

Lemma main_pprof_startup `{Externals} (flags : Flags) (cfg : config_Config) :
  Forall startup_event (main_pprof flags cfg).1.
Proof.
  unfold main_pprof. trace_forall; split; reflexivity.
Qed.

(** When the configuration phase hands over to the rest of main. *)
Lemma main_config_result `{Externals} (flags : Flags) (env : Env)
  (cfg : config_Config) :
  (main_config flags env).2 = inl cfg <->
  printVersion flags = false
  /\ printDefaultConfig flags = false
  /\ checkConfig flags = false
  /\ config_ReadConfig env (configFile flags) (checkConfig flags) = inl cfg
  /\ zapwriter_ApplyConfig env (Logging cfg) = None
  /\ exists mgr, zapwriter_NewManager env (Logging cfg) = inl mgr.
Proof.
  unfold main_config.
  destruct (printVersion flags); cbn; [intuition discriminate|].
  destruct (printDefaultConfig flags); cbn.
  { destruct (config_PrintDefaultConfig env); cbn; intuition discriminate. }
  destruct (config_ReadConfig env (configFile flags) (checkConfig flags))
    as [cfg0|err]; cbn; [|intuition discriminate].
  destruct (checkConfig flags); cbn; [intuition discriminate|].
  destruct (zapwriter_ApplyConfig env (Logging cfg0)) eqn:Happly; cbn.
  { split; [discriminate|]. intros (_ & _ & _ & [= ->] & Hnone & _). congruence. }
  destruct (zapwriter_NewManager env (Logging cfg0)) as [mgr|err] eqn:Hmgr; cbn.
  - destruct (bool_decide (0 < Common_MemoryReturnInterval (Common cfg0))); cbn.
    + split.
      * intros [= ->]. repeat split; try reflexivity; [exact Happly|eauto].
      * intros (_ & _ & _ & [= ->] & _). reflexivity.
    + split.
      * intros [= ->]. repeat split; try reflexivity; [exact Happly|eauto].
      * intros (_ & _ & _ & [= ->] & _). reflexivity.
  - split; [discriminate|].
    intros (_ & _ & _ & [= ->] & _ & mgr & Hm). congruence.
Qed.

Lemma register_handlers_eq `{Externals} (cfg : config_Config) :
  register_handlers (mkApp cfg) cfg
  = (Ev_NewServeMux :: ((fun e => Ev_mux_Handle e.1 e.2) <$> server_mux cfg),
     inl (server_mux cfg)).
Proof. reflexivity. Qed.

Lemma startup_not_ListenAndServe `{Externals} (evs : list event) (addr : string)
  (mux : ServeMux) :
  Forall startup_event evs -> ~ In (Ev_ListenAndServe addr mux) evs.
Proof.
  intros Hall Hin. rewrite Forall_forall in Hall.
  apply list_elem_of_In in Hin. destruct (Hall _ Hin) as [Hs _]. discriminate.
Qed.

(** The only mux that the server phase listens with is [server_mux]. *)
Lemma main_server_ListenAndServe `{Externals} (env : Env) (cfg : config_Config)
  (addr : string) (mux : ServeMux) :
  In (Ev_ListenAndServe addr mux) (main_server env cfg).1 ->
  addr = Common_Listen (Common cfg) /\ mux = server_mux cfg.
Proof.
  unfold main_server. rewrite trace_bind, register_handlers_eq.
  cbn [fst snd]. intros Hin. apply in_app_or in Hin as [Hin|Hin].
  - exfalso. revert Hin. clear. cbn. intuition discriminate.
  - revert Hin.
    destruct (bool_decide (Prometheus_Listen cfg ≠ "")); cbn;
      [destruct (prometheus_Run env cfg); cbn|];
      destruct (metrics_Graphite_set env); cbn;
      try destruct (http_ListenAndServe env _ _); cbn;
      intros Hin;
      repeat match type of Hin with
             | _ \/ _ => destruct Hin as [Hin|Hin]
             | False => destruct Hin
             | _ = _ => first [discriminate Hin | injection Hin as <- <-]
             end; split; reflexivity.
Qed.

(** A run that listens on the main address got there through every phase. *)
Lemma main_ListenAndServe `{Externals} (flags : Flags) (env : Env)
  (addr : string) (mux : ServeMux) :
  In (Ev_ListenAndServe addr mux) (main flags env).1 ->
  exists cfg : config_Config,
    (main_config flags env).2 = inl cfg
    /\ addr = Common_Listen (Common cfg)
    /\ mux = server_mux cfg.
Proof.
  intros Hin.
  assert (In (Ev_ListenAndServe addr mux) (main_body flags env).1) as Hbody.
  { unfold main in Hin. destruct (main_body flags env) as [evs [[]|e]]; exact Hin. }
  clear Hin. unfold main_body in Hbody.
  rewrite trace_bind in Hbody. cbn [emit fst snd] in Hbody.
  apply in_app_or in Hbody as [[Hin|[]]|Hin]; [discriminate|].
  rewrite trace_bind in Hin. apply in_app_or in Hin as [Hin|Hin].
  { destruct (startup_not_ListenAndServe _ _ _ (main_config_startup flags env) Hin). }
  destruct (main_config flags env).2 as [cfg|e] eqn:Hcfg; [|destruct Hin].
  exists cfg. split; [reflexivity|].
  rewrite trace_bind in Hin. apply in_app_or in Hin as [Hin|Hin].
  { destruct (startup_not_ListenAndServe _ _ _ (main_pprof_startup flags cfg) Hin). }
  destruct (main_pprof flags cfg).2 as [[]|e]; [|destruct Hin].
  rewrite trace_bind in Hin. apply in_app_or in Hin as [Hin|Hin].
  { exfalso. revert Hin. unfold main_console.
    destruct (buildTags flags); cbn; [|intuition].
    destruct (tagger_Make env cfg); cbn; intuition discriminate. }
  destruct (main_console flags env cfg).2 as [[]|e]; [|destruct Hin].
  apply main_server_ListenAndServe in Hin. exact Hin.
Qed.

(** ** Strings *)

Lemma string_app_assoc (s1 s2 s3 : string) :
  ((s1 ++ s2) ++ s3 = s1 ++ (s2 ++ s3))%string.
Proof.
  induction s1 as [|c s1 IH]; [reflexivity|].
  change (String c ((s1 ++ s2) ++ s3) = String c (s1 ++ (s2 ++ s3)))%string.
  f_equal. exact IH.
Qed.

Lemma string_length_app (s1 s2 : string) :
  String.length (s1 ++ s2) = (String.length s1 + String.length s2)%nat.
Proof.
  induction s1 as [|c s1 IH]; [reflexivity|].
  change (S (String.length (s1 ++ s2)) = S (String.length s1 + String.length s2)).
  f_equal. exact IH.
Qed.

Lemma prefix_app_inv (p s : string) :
  String.prefix p s = true -> exists rest : string, s = (p ++ rest)%string.
Proof.
  revert s. induction p as [|a p IH]; intros s Hp.
  - exists s. reflexivity.
  - destruct s as [|b s]; [discriminate Hp|]. cbn [String.prefix] in Hp.
    destruct (ascii_dec a b) as [->|]; [|discriminate Hp].
    destruct (IH s Hp) as [rest ->]. exists rest. reflexivity.
Qed.

Lemma prefix_app (p rest : string) : String.prefix p (p ++ rest) = true.
Proof.
  induction p as [|a p IH]; [destruct rest; reflexivity|].
  change (String.prefix (String a p) (String a (p ++ rest)) = true).
  cbn [String.prefix]. destruct (ascii_dec a a) as [_|Hne]; [exact IH|].
  destruct (Hne eq_refl).
Qed.

Lemma strings_Contains_eq (s substr : string) :
  strings_Contains s substr
  = String.prefix substr s
    || match s with
       | EmptyString => false
       | String _ s' => strings_Contains s' substr
       end.
Proof. destruct s; reflexivity. Qed.

(** A string put together around [x] contains [x]. *)
Lemma strings_Contains_app (host x tail : string) :
  strings_Contains (host ++ x ++ tail) x = true.
Proof.
  induction host as [|c host IH].
  - change ("" ++ x ++ tail)%string with (x ++ tail)%string.
    rewrite strings_Contains_eq, prefix_app. reflexivity.
  - change (String c host ++ x ++ tail)%string
      with (String c (host ++ x ++ tail)).
    cbn [strings_Contains]. rewrite IH. apply orb_true_r.
Qed.

(** ** The mux of main under [ServeMux.Handler] *)

(** [ServeMux.match] gives the handler of the entry that matched. *)
Lemma mux_match_entry_handler `{Externals} (mux : ServeMux) (path : string) :
  mux_match mux path = snd <$> mux_match_entry mux path.
Proof.
  unfold mux_match, mux_match_entry.
  destruct (find _ mux) as [[pattern h]|]; reflexivity.
Qed.

(** The eight patterns that main registers. *)
Lemma has_pattern_server `{Externals} (cfg : config_Config) (x : string) :
  has_pattern (server_mux cfg) x = true ->
  In x [ "/_internal/capabilities/"; "/metrics/find/"; "/metrics/index.json";
         "/render/"; "/tags/autoComplete/tags"; "/tags/autoComplete/values";
         "/debug/config"; "/alive" ].
Proof.
  unfold has_pattern, server_mux. cbn -[String.eqb].
  rewrite !orb_true_iff, !String.eqb_eq. intuition discriminate.
Qed.

(** None of the patterns has one of the two subtrees in its middle, or
    goes on after it, whatever host is put in front. *)
Lemma no_pattern_under `{Externals} (cfg : config_Config) (host pre tail : string) :
  In pre ["/metrics/find/"; "/render/"] ->
  tail <> "" ->
  has_pattern (server_mux cfg) (host ++ pre ++ tail) = false.
Proof.
  intros Hpre Htail.
  destruct (has_pattern _ _) eqn:Hhas; [exfalso|reflexivity].
  apply has_pattern_server in Hhas.
  pose proof (strings_Contains_app host pre tail) as Hc.
  assert (String.length (host ++ pre ++ tail) > String.length pre)%nat as Hlen.
  { rewrite !string_length_app. destruct tail; [congruence|]. cbn. lia. }
  cbn [In] in Hpre, Hhas.
  destruct Hpre as [<-|[<-|[]]];
    repeat (destruct Hhas as [Heq|Hhas];
            [rewrite <- Heq in Hc, Hlen; first [discriminate Hc | cbn in Hlen; lia]|]);
    destruct Hhas.
Qed.

(** A path under [/metrics/find/] or [/render/] is never redirected to a
    subtree, whatever the host. *)
Lemma no_redirect_under `{Externals} (cfg : config_Config) (host pre rest : string) :
  In pre ["/metrics/find/"; "/render/"] ->
  redirectToPathSlash (server_mux cfg) host (pre ++ rest) = None.
Proof.
  intros Hpre. unfold redirectToPathSlash, shouldRedirectRLocked.
  destruct (_ || _); [reflexivity|].
  destruct (_ =? _)%nat; [reflexivity|].
  assert (forall h : string,
            has_pattern (server_mux cfg) (h ++ (pre ++ rest) ++ "/") = false)
    as Hno.
  { intros h. rewrite string_app_assoc.
    apply no_pattern_under; [exact Hpre|]. destruct rest; discriminate. }
  rewrite (Hno host). pose proof (Hno "") as Hno0.
  change ("" ++ (pre ++ rest) ++ "/")%string with ((pre ++ rest) ++ "/")%string in Hno0.
  rewrite Hno0. reflexivity.
Qed.

(** No pattern of main has a host, so [ServeMux.handler] is [ServeMux.match]
    on the path. *)
Lemma mux_handler_server `{Externals} (cfg : config_Config) (host path : string) :
  mux_handler (server_mux cfg) host path
  = match mux_match_entry (server_mux cfg) path with
    | Some (pattern, h) => (Registered h, pattern)
    | None => (NotFoundHandler, "")
    end.
Proof. reflexivity. Qed.

(** On a path in canonical form that needs no redirect to a subtree,
    [ServeMux.Handler] is [ServeMux.handler]. *)
Lemma mux_Handler_clean `{Externals} (mux : ServeMux) (r : mux_Request) :
  cleanPath (mr_URL_Path r) = mr_URL_Path r ->
  (forall host : string, redirectToPathSlash mux host (mr_URL_Path r) = None) ->
  exists host : string, mux_Handler mux r = mux_handler mux host (mr_URL_Path r).
Proof.
  intros Hclean Hno. unfold mux_Handler.
  destruct (String.eqb (mr_Method r) "CONNECT").
  - rewrite Hno. eauto.
  - cbn zeta. rewrite Hclean, Hno, String.eqb_refl. cbn [negb]. eauto.
Qed.

(** C7: the mux that main serves with routes every request whose path is in
    canonical form (the form [cleanPath] leaves unchanged) and lies under
    [/metrics/find/] to the find handler, under [/render/] to the render
    handler, and the requests for [/tags/autoComplete/tags] and
    [/tags/autoComplete/values] to the tag-name and the tag-value handler,
    whatever the method and the host; each handler is wrapped by
    [App.Handler], whose [ServeHTTP] is the access-logging function around
    the inner handler, and gets the configuration that main read. The
    routing is that of [ServeMux.Handler]: a path that is not in canonical
    form is answered by a redirect to its canonical form instead. *)
Theorem main_mux_routes `{scope_pkg} `{!handlers_pkg} (flags : Flags) (env : Env)
  (addr : string) (mux : ServeMux) :
  In (Ev_ListenAndServe addr mux) (main flags env).1 ->
  exists cfg : config_Config,
    config_ReadConfig env (configFile flags) (checkConfig flags) = inl cfg
    /\ (forall r : mux_Request,
          cleanPath (mr_URL_Path r) = mr_URL_Path r ->
          (String.prefix "/metrics/find/" (mr_URL_Path r) = true ->
           mux_Handler mux r
           = (Registered (app_Handler (mkApp cfg) (find_NewHandler cfg)),
              "/metrics/find/"))
          /\ (String.prefix "/render/" (mr_URL_Path r) = true ->
              mux_Handler mux r
              = (Registered (app_Handler (mkApp cfg) (render_NewHandler cfg)),
                 "/render/"))
          /\ (mr_URL_Path r = "/tags/autoComplete/tags" ->
              mux_Handler mux r
              = (Registered (app_Handler (mkApp cfg) (autocomplete_NewTags cfg)),
                 "/tags/autoComplete/tags"))
          /\ (mr_URL_Path r = "/tags/autoComplete/values" ->
              mux_Handler mux r
              = (Registered (app_Handler (mkApp cfg) (autocomplete_NewValues cfg)),
                 "/tags/autoComplete/values")))
    /\ (forall h : handler_id,
          ServeHTTP (app_Handler (mkApp cfg) h)
          = App_Handler (mkApp cfg) (ServeHTTP h)).
Proof.
  intros Hin. apply main_ListenAndServe in Hin as (cfg & Hcfg & _ & ->).
  apply main_config_result in Hcfg as (_ & _ & _ & Hread & _).
  exists cfg. split; [exact Hread|]. split; [|reflexivity].
  intros r Hclean.
  assert (forall pre : string,
            In pre ["/metrics/find/"; "/render/"] ->
            String.prefix pre (mr_URL_Path r) = true ->
            exists rest host : string,
              mr_URL_Path r = (pre ++ rest)%string
              /\ mux_Handler (server_mux cfg) r
                 = mux_handler (server_mux cfg) host (pre ++ rest)) as Hunder.
  { intros pre Hpre Hprefix.
    destruct (prefix_app_inv _ _ Hprefix) as [rest Hpath]. exists rest.
    destruct (mux_Handler_clean (server_mux cfg) r Hclean) as [host Hrun].
    - intros host. rewrite Hpath. apply no_redirect_under. exact Hpre.
    - exists host. rewrite Hrun, Hpath. auto. }
  assert (forall p : string,
            In p ["/tags/autoComplete/tags"; "/tags/autoComplete/values"] ->
            mr_URL_Path r = p ->
            exists host : string,
              mux_Handler (server_mux cfg) r = mux_handler (server_mux cfg) host p)
    as Hexact.
  { intros p Hp Hpath.
    destruct (mux_Handler_clean (server_mux cfg) r Hclean) as [host Hrun].
    - intros host. rewrite Hpath.
      destruct Hp as [<-|[<-|[]]]; reflexivity.
    - exists host. rewrite Hrun, Hpath. reflexivity. }
  repeat split.
  - intros Hp. destruct (Hunder "/metrics/find/") as (rest & host & _ & ->);
      [cbn; auto|exact Hp|].
    rewrite mux_handler_server. destruct rest; reflexivity.
  - intros Hp. destruct (Hunder "/render/") as (rest & host & _ & ->);
      [cbn; auto|exact Hp|].
    rewrite mux_handler_server. destruct rest; reflexivity.
  - intros Hp. destruct (Hexact "/tags/autoComplete/tags") as (host & ->);
      [cbn; auto|exact Hp|]. reflexivity.
  - intros Hp. destruct (Hexact "/tags/autoComplete/values") as (host & ->);
      [cbn; auto|exact Hp|]. reflexivity.
Qed.

(** The server run listens with [server_mux]; a render request in canonical
    form is routed to the wrapped render handler. *)
Lemma main_mux_routes_witness :
  In (Ev_ListenAndServe ":9090" (server_mux example_Config))
    (main flags_server example_Env).1
  /\ cleanPath (mr_URL_Path example_render_Request) = mr_URL_Path example_render_Request
  /\ mux_Handler (server_mux example_Config) example_render_Request
     = (Registered (app_Handler (mkApp example_Config) (render_NewHandler example_Config)),
        "/render/").
Proof.
  assert (In (Ev_ListenAndServe ":9090" (server_mux example_Config))
            (main flags_server example_Env).1) as Hin.
  { vm_compute. repeat (first [left; reflexivity | right]). }
  split; [exact Hin|]. split; [reflexivity|].
  destruct (main_mux_routes flags_server example_Env ":9090"
              (server_mux example_Config) Hin)
    as (cfg & [= <-] & Hroutes & _).
  destruct (Hroutes example_render_Request) as (_ & Hrender & _); [reflexivity|].
  apply Hrender. reflexivity.
Defined.

Lemma main_eq `{Externals} (flags : Flags) (env : Env) :
  main flags env
  = ((main_body flags env).1,
     match (main_body flags env).2 with
     | inl _ => Returned
     | inr e => e
     end).
Proof. unfold main. destruct (main_body flags env) as [evs [[]|e]]; reflexivity. Qed.

(** With the tags flag the console phase builds the tags and ends the
    process. *)
Lemma main_console_tags `{Externals} (flags : Flags) (env : Env)
  (cfg : config_Config) :
  buildTags flags = true ->
  main_console flags env cfg
  = ([Ev_tagger_Make cfg],
     inr match tagger_Make env cfg with
         | Some err => Fatal err
         | None => Returned
         end).
Proof.
  intros Htags. unfold main_console. rewrite Htags.
  destruct (tagger_Make env cfg); reflexivity.
Qed.

(** C6, as stated, fails when another flag ends the program first: with
    [-tags -version] main prints the version and returns, and the tag build
    is never invoked. *)
Lemma tags_flag_with_version_flag :
  buildTags flags_tags_version = true
  /\ main flags_tags_version example_Env
     = ([Ev_rand_Seed; Ev_fmt_Print "0.13.4"], Returned)
  /\ existsb is_tagger_Make (main flags_tags_version example_Env).1 = false.
Proof. repeat split; reflexivity. Qed.

(** C6, amended: when the tags flag is set, none of the version,
    default-config and check-config flags is, and the configuration and the
    loggers are set up without error, the main goroutine invokes
    [tagger.Make] once, as its last action, and then returns, or ends by
    [log.Fatal] with the error of the build; before that it has only run the
    start-up (a configured pprof listener goroutine included): it has not
    created the mux, registered a handler, started a side service or served
    on the listen address. *)
Theorem main_tags_build `{Externals} (flags : Flags) (env : Env)
  (cfg : config_Config) :
  buildTags flags = true ->
  printVersion flags = false ->
  printDefaultConfig flags = false ->
  checkConfig flags = false ->
  config_ReadConfig env (configFile flags) false = inl cfg ->
  zapwriter_ApplyConfig env (Logging cfg) = None ->
  (exists mgr, zapwriter_NewManager env (Logging cfg) = inl mgr) ->
  exists pre : list event,
    main flags env
    = ((pre ++ [Ev_tagger_Make cfg])%list,
       match tagger_Make env cfg with
       | Some err => Fatal err
       | None => Returned
       end)
    /\ Forall startup_event pre.
Proof.
  intros Htags Hver Hdef Hcheck Hread Happly Hmgr.
  assert ((main_config flags env).2 = inl cfg) as Hcfg.
  { apply main_config_result. rewrite Hcheck. auto 10. }
  pose proof (main_config_startup flags env) as Hstart.
  pose proof (main_pprof_startup flags cfg) as Hpprof.
  exists (Ev_rand_Seed :: (main_config flags env).1 ++ (main_pprof flags cfg).1)%list.
  split.
  - assert ((main_pprof flags cfg).2 = inl tt) as Hp.
    { unfold main_pprof. destruct (_ || _); reflexivity. }
    rewrite main_eq. unfold main_body. f_equal.
    + rewrite trace_bind. cbn [emit fst snd].
      rewrite trace_bind, Hcfg, trace_bind, Hp, trace_bind.
      rewrite (main_console_tags flags env cfg Htags). cbn [fst snd app].
      rewrite ?app_nil_r, ?app_assoc. reflexivity.
    + rewrite result_bind. cbn [emit snd].
      rewrite result_bind, Hcfg, result_bind, Hp, result_bind.
      rewrite (main_console_tags flags env cfg Htags). cbn [snd].
      destruct (tagger_Make env cfg); reflexivity.
  - constructor; [split; reflexivity|]. apply Forall_app. split; assumption.
Qed.

(** [graphite-clickhouse -tags] with a working configuration: the tag build
    is the last event and main returns. *)
Lemma main_tags_build_witness :
  exists pre : list event,
    main flags_tags example_Env
    = ((pre ++ [Ev_tagger_Make example_Config])%list, Returned)
    /\ Forall startup_event pre.
Proof.
  apply (main_tags_build flags_tags example_Env example_Config);
    try reflexivity.
  exists (fun name => mkLogger name []). reflexivity.
Defined.

(** * Properties of the components specified outside this file *)

(** ** Render Pipeline: alignment *)

Lemma insert_by_time_Permutation (p : Z * float) (l : list (Z * float)) :
  insert_by_time p l ≡ₚ p :: l.
Proof.
  induction l as [|q l IH]; simpl; [reflexivity|].
  destruct (p.1 <? q.1); [reflexivity|].
  rewrite IH. apply Permutation_swap.
Qed.

(** Sorting by time keeps exactly the raw rows. *)
Lemma sort_by_time_Permutation (raw : list (Z * float)) :
  sort_by_time raw ≡ₚ raw.
Proof.
  unfold sort_by_time. rewrite (Permutation_rev raw) at 2.
  induction (rev raw) as [|p l IH]; simpl; [reflexivity|].
  rewrite insert_by_time_Permutation, IH. reflexivity.
Qed.

(** A bucket that no raw timestamp falls into collects no value. *)
Lemma bucket_values_gap (start step : Z) (raw : list (Z * float)) (i : Z) :
  (forall p, p ∈ raw -> bucket_of start step p.1 <> i) ->
  bucket_values start step raw i = [].
Proof.
  intros Hgap. unfold bucket_values.
  destruct (filter (λ p, bucket_of start step p.1 = i) (sort_by_time raw))
    as [|q l] eqn:Hf; [reflexivity|].
  assert (q ∈ filter (λ p, bucket_of start step p.1 = i) (sort_by_time raw)) as Hq.
  { rewrite Hf. left. }
  apply list_elem_of_filter in Hq as [Hq Hin].
  rewrite sort_by_time_Permutation in Hin. destruct (Hgap q Hin Hq).
Qed.

(** A bucket that some raw timestamp falls into collects a value. *)
Lemma bucket_values_hit (start step : Z) (raw : list (Z * float)) (i : Z)
  (p : Z * float) :
  p ∈ raw -> bucket_of start step p.1 = i ->
  bucket_values start step raw i <> [].
Proof.
  intros Hin Hp Hnil. unfold bucket_values in Hnil.
  apply fmap_nil_inv in Hnil.
  apply (filter_nil_not_elem_of _ _ p Hnil Hp).
  rewrite sort_by_time_Permutation. exact Hin.
Qed.

(** C3: with raw points (5, 1) and (7, 3), start 0 and step 10, the one
    output bucket is at time 0, present, and holds the configured
    aggregation of 1 and 3, which is 2 for avg. In every alignment, each of
    the [n] buckets is at [start + i * step]; a bucket into which no raw
    timestamp falls is marked absent ([present = false]), so it is not a
    present point of value zero, and a bucket into which one falls is
    marked present. *)
Theorem Align_example_and_gaps :
  Align agg_avg 0 10 1 [(5, 1%float); (7, 3%float)] = [mkPoint 0 2%float true]
  /\ (forall f : Aggregation,
        Align f 0 10 1 [(5, 1%float); (7, 3%float)]
        = [mkPoint 0 (aggregate f [1%float; 3%float]) true])
  /\ (forall (f : Aggregation) (start step : Z) (n : nat)
        (raw : list (Z * float)) (i : nat),
        (i < n)%nat ->
        exists pt : SeriesPoint,
          Align f start step n raw !! i = Some pt
          /\ timestamp pt = start + Z.of_nat i * step
          /\ ((forall p, p ∈ raw -> bucket_of start step p.1 <> Z.of_nat i) ->
              present pt = false /\ pt <> mkPoint (timestamp pt) 0%float true)
          /\ ((exists p, p ∈ raw /\ bucket_of start step p.1 = Z.of_nat i) ->
              present pt = true)).
Proof.
  split; [reflexivity|]. split; [intros []; reflexivity|].
  intros f start step n raw i Hi.
  exists (render_bucket f start step raw (Z.of_nat i)). split.
  - unfold Align. rewrite list_lookup_fmap, lookup_seq_lt by exact Hi.
    reflexivity.
  - unfold render_bucket. split; [|split].
    + destruct (bucket_values start step raw (Z.of_nat i)); reflexivity.
    + intros Hgap. rewrite (bucket_values_gap _ _ _ _ Hgap). simpl.
      split; [reflexivity|discriminate].
    + intros (p & Hin & Hp).
      pose proof (bucket_values_hit _ _ _ _ p Hin Hp) as Hne.
      destruct (bucket_values start step raw (Z.of_nat i)); [destruct Hne|];
        reflexivity.
Qed.

(** Raw points at 5, 7 and 25 with step 10: the bucket at 10 is a gap. *)
Lemma Align_example_and_gaps_witness :
  exists pt : SeriesPoint,
    Align agg_avg 0 10 3 [(5, 1%float); (7, 3%float); (25, 4%float)] !! 1%nat
    = Some pt
    /\ timestamp pt = 10
    /\ present pt = false.
Proof.
  destruct Align_example_and_gaps as (_ & _ & Hbuckets).
  destruct (Hbuckets agg_avg 0 10 3%nat
              [(5, 1%float); (7, 3%float); (25, 4%float)] 1%nat)
    as (pt & Hpt & Ht & Hgap & _); [lia|].
  exists pt. split; [exact Hpt|]. split; [exact Ht|].
  apply Hgap. intros p Hp.
  repeat (apply elem_of_cons in Hp as [->|Hp]; [discriminate|]).
  inversion Hp.
Defined.

(** ** Cluster Executor *)

(** A shard whose replicas all fail is a failed shard. *)
Lemma query_shard_all_fail (send : string -> option (list string)) (s : Shard) :
  (forall host, host ∈ shard_hosts s -> send host = None) ->
  query_shard send s = None.
Proof.
  intros Hfail. unfold query_shard.
  destruct (shard_hosts s) as [|host spares]; [reflexivity|].
  rewrite (Hfail host) by left.
  destruct spares as [|spare spares]; [reflexivity|].
  apply Hfail. right. left.
Qed.

Lemma elem_of_failed_shards (send : string -> option (list string))
  (cluster : list Shard) (name : string) :
  name ∈ failed_shards send cluster <->
  exists s, s ∈ cluster /\ shard_name s = name /\ query_shard send s = None.
Proof.
  unfold failed_shards. rewrite list_elem_of_fmap. split.
  - intros (s & -> & Hs). apply list_elem_of_filter in Hs as [Hq Hin]. eauto.
  - intros (s & Hin & <- & Hq). exists s. split; [reflexivity|].
    apply list_elem_of_filter. auto.
Qed.

(** C4: if every replica of some shard of the cluster fails, [Execute]
    answers [ExecError(PartialClusterFailure, failedShards)], where
    [failedShards] lists that shard, and lists exactly the shards that got
    no answer; so the answer is never a result set made of the other
    shards' rows. *)
Theorem Execute_partial_failure (send : string -> option (list string))
  (cluster : list Shard) (s : Shard) :
  s ∈ cluster ->
  (forall host, host ∈ shard_hosts s -> send host = None) ->
  exists failed : list string,
    Execute send cluster = ExecError PartialClusterFailure failed
    /\ shard_name s ∈ failed
    /\ (forall name, name ∈ failed <->
          exists s', s' ∈ cluster /\ shard_name s' = name
                     /\ query_shard send s' = None)
    /\ (forall paths, Execute send cluster <> ResultSet paths).
Proof.
  intros Hin Hfail.
  assert (shard_name s ∈ failed_shards send cluster) as Hs.
  { apply elem_of_failed_shards. exists s.
    auto using query_shard_all_fail. }
  exists (failed_shards send cluster). unfold Execute.
  destruct (failed_shards send cluster) as [|name failed] eqn:Hf.
  - inversion Hs.
  - split; [reflexivity|]. split; [exact Hs|]. split; [|discriminate].
    intros n. rewrite <- Hf. apply elem_of_failed_shards.
Qed.

(** In the example cluster every replica of B fails, so the call fails and
    lists B. *)
Lemma Execute_partial_failure_witness :
  exists failed : list string,
    Execute example_send example_cluster = ExecError PartialClusterFailure failed
    /\ "B" ∈ failed
    /\ (forall name, name ∈ failed <->
          exists s', s' ∈ example_cluster /\ shard_name s' = name
                     /\ query_shard example_send s' = None)
    /\ (forall paths, Execute example_send example_cluster <> ResultSet paths).
Proof.
  apply (Execute_partial_failure example_send example_cluster
           (mkShard "B" ["b1"; "b2"])).
  - right. left.
  - intros host Hhost. simpl in Hhost.
    apply elem_of_cons in Hhost as [->|Hhost]; [reflexivity|].
    apply elem_of_cons in Hhost as [->|Hhost]; [reflexivity|].
    inversion Hhost.
Defined.

(** Shard A answers and shard B exhausts its replicas: the call fails and
    names B. *)
Example Execute_A_succeeds_B_fails :
  Execute example_send example_cluster = ExecError PartialClusterFailure ["B"].
Proof. reflexivity. Qed.

(** * Further properties of the response writer *)

(** A store with a wrapper gives the walk at least two steps. *)
Lemma chain_fuel_wrapper (l : loc) (o : LogResponseWriter) (σ : World) :
  logws σ !! l = Some o -> exists n : nat, chain_fuel σ = S (S n).
Proof.
  intros Hl. unfold chain_fuel. destruct (size (logws σ)) as [|n] eqn:Hsize.
  - apply map_size_empty_inv in Hsize. rewrite Hsize in Hl. inversion Hl.
  - exists n. reflexivity.
Qed.

(** One [WriteHeader] on a wrapper around a live writer. *)
Lemma WriteHeader_wrapper (l u : loc) (o : LogResponseWriter) (ow : OtherWriter)
  (code : Z) (σ : World) :
  logws σ !! l = Some o ->
  ResponseWriter o = RW_other u ->
  others σ !! u = Some ow ->
  LogResponseWriter_WriteHeader (Some l) code σ
  = Some (mkWorld (<[l := mkLogResponseWriter (RW_other u) code (cached o)]> (logws σ))
            (<[u := mkOtherWriter (ow_header ow) (ow_calls ow ++ [Did_WriteHeader code])]>
               (others σ))
            (clock σ) (rng σ) (logged σ)).
Proof.
  intros Hl Hemb Hu. unfold LogResponseWriter_WriteHeader.
  destruct (chain_fuel_wrapper l o σ Hl) as [n ->].
  simpl. rewrite Hl. simpl. rewrite Hemb. simpl. rewrite Hu. reflexivity.
Qed.

(** The promoted methods of a wrapper around a live writer land on it. *)
Lemma iface_base_wrapper (l u : loc) (o : LogResponseWriter) (ow : OtherWriter)
  (σ : World) :
  logws σ !! l = Some o ->
  ResponseWriter o = RW_other u ->
  others σ !! u = Some ow ->
  iface_base (RW_log (Some l)) σ = Some u.
Proof.
  intros Hl Hemb Hu. unfold iface_base.
  destruct (chain_fuel_wrapper l o σ Hl) as [n ->].
  simpl. rewrite Hl. simpl. rewrite Hemb. simpl. rewrite Hu. reflexivity.
Qed.

(** X1: a wrapper is transparent. Every history of [WriteHeader], [Write]
    and [Header().Add] calls on a wrapper around a live writer, in which
    every status code is one that the writers of [net/http] accept
    (100..999), completes, and the embedded writer has then received exactly
    the [WriteHeader] and [Write] calls of the history, in order, after the
    calls it had before, and its header map holds the added values; the
    clock and the log are untouched. *)
Theorem LogResponseWriter_transparent (l u : loc) (ops : list writer_op) :
  forallb valid_op ops = true ->
  forall (o : LogResponseWriter) (ow : OtherWriter) (σ : World),
    logws σ !! l = Some o ->
    ResponseWriter o = RW_other u ->
    others σ !! u = Some ow ->
    exists σ' : World,
      run_ops (Some l) ops σ = Some σ'
      /\ others σ'
         = <[u := mkOtherWriter (forwarded_header ops (ow_header ow))
                    (ow_calls ow ++ forwarded_calls ops)]> (others σ)
      /\ clock σ' = clock σ
      /\ logged σ' = logged σ.
Proof.
  induction ops as [|op ops IH]; intros Hvalid o ow σ Hl Hemb Hu.
  - exists σ. split; [reflexivity|]. split; [|split; reflexivity].
    simpl. rewrite app_nil_r. symmetry. apply insert_id.
    rewrite Hu. destruct ow; reflexivity.
  - cbn [forallb] in Hvalid. apply andb_true_iff in Hvalid as [_ Hvalid].
    specialize (IH Hvalid).
    destruct op as [code|body|key value]; simpl.
    + rewrite (WriteHeader_wrapper l u o ow code σ Hl Hemb Hu). simpl.
      edestruct IH as (σ' & Hrun & Hothers & Hclock & Hlogged);
        [ | | | exists σ'; split; [exact Hrun|] ].
      * simpl. apply lookup_insert_eq.
      * reflexivity.
      * simpl. apply lookup_insert_eq.
      * rewrite Hothers, Hclock, Hlogged. simpl.
        rewrite insert_insert_eq, <- app_assoc. auto.
    + unfold iface_Write. rewrite (iface_base_wrapper l u o ow σ Hl Hemb Hu).
      simpl. rewrite Hu. simpl.
      edestruct IH as (σ' & Hrun & Hothers & Hclock & Hlogged);
        [ | | | exists σ'; split; [exact Hrun|] ].
      * simpl. exact Hl.
      * exact Hemb.
      * simpl. apply lookup_insert_eq.
      * rewrite Hothers, Hclock, Hlogged. simpl.
        rewrite insert_insert_eq, <- app_assoc. auto.
    + unfold iface_Header_Add. rewrite (iface_base_wrapper l u o ow σ Hl Hemb Hu).
      simpl. rewrite Hu. simpl.
      edestruct IH as (σ' & Hrun & Hothers & Hclock & Hlogged);
        [ | | | exists σ'; split; [exact Hrun|] ].
      * simpl. exact Hl.
      * exact Hemb.
      * simpl. apply lookup_insert_eq.
      * rewrite Hothers, Hclock, Hlogged. simpl.
        rewrite insert_insert_eq. auto.
Qed.

(** A wrapper around the writer at location 0 that has seen
    [WriteHeader(404)], [Header().Add] and [Write]. *)
Lemma LogResponseWriter_transparent_witness :
  exists σ' : World,
    run_ops (Some 0%nat)
      [Op_WriteHeader 404; Op_Header_Add "content-type" "text/plain"; Op_Write "not found"]
      (WrapResponseWriter (RW_other 0) example_World).2 = Some σ'
    /\ others σ'
       = {[ 0%nat := mkOtherWriter {[ "Content-Type" := ["text/plain"] ]}
                      [Did_WriteHeader 404; Did_Write "not found"] ]}.
Proof.
  destruct (LogResponseWriter_transparent 0%nat 0%nat
              [Op_WriteHeader 404; Op_Header_Add "content-type" "text/plain";
               Op_Write "not found"] eq_refl
              (mkLogResponseWriter (RW_other 0) 0 false) (mkOtherWriter ∅ [])
              (WrapResponseWriter (RW_other 0) example_World).2)
    as (σ' & Hrun & Hothers & _); [reflexivity..|].
  exists σ'. split; [exact Hrun|]. rewrite Hothers. vm_compute. reflexivity.
Defined.

(** Wrapping keeps every wrapper that is there. *)
Lemma WrapResponseWriter_keeps (w : http_ResponseWriter) (σ : World) (l : loc)
  (o : LogResponseWriter) :
  logws σ !! l = Some o -> logws (WrapResponseWriter w σ).2 !! l = Some o.
Proof.
  intros Hl.
  assert (forall o' : LogResponseWriter,
            <[fresh (dom (logws σ)) := o']> (logws σ) !! l = Some o) as Hkeep.
  { intros o'. rewrite lookup_insert_ne; [exact Hl|].
    intros Heq. pose proof (is_fresh (dom (logws σ))) as Hfresh.
    rewrite Heq in Hfresh. apply Hfresh. apply elem_of_dom. eauto. }
  destruct w as [|p|u]; simpl; auto.
Qed.

(** Wrapping leaves the writers of other implementations, the clock, the
    random source and the log alone. *)
Lemma WrapResponseWriter_rest (w : http_ResponseWriter) (σ : World) :
  others (WrapResponseWriter w σ).2 = others σ
  /\ clock (WrapResponseWriter w σ).2 = clock σ
  /\ rng (WrapResponseWriter w σ).2 = rng σ
  /\ logged (WrapResponseWriter w σ).2 = logged σ.
Proof. destruct w; simpl; auto. Qed.

(** X2: wrapping allocates and changes nothing else. Whatever is wrapped,
    every wrapper that existed before is still there with the same fields,
    and the writers of other implementations, the clock, the random source
    and the log are the same. *)
Theorem WrapResponseWriter_frame (w : http_ResponseWriter) (σ : World) :
  (forall (l : loc) (o : LogResponseWriter),
     logws σ !! l = Some o -> logws (WrapResponseWriter w σ).2 !! l = Some o)
  /\ others (WrapResponseWriter w σ).2 = others σ
  /\ clock (WrapResponseWriter w σ).2 = clock σ
  /\ rng (WrapResponseWriter w σ).2 = rng σ
  /\ logged (WrapResponseWriter w σ).2 = logged σ.
Proof.
  split; [intros l o; apply WrapResponseWriter_keeps|].
  apply WrapResponseWriter_rest.
Qed.

(** X3: two wrappers of one writer are two objects with a status each.
    Wrapping the same live writer twice gives two different pointers; a
    [WriteHeader] on the first, with a code that the writers of [net/http]
    accept (100..999), is recorded by the first only, the second still
    reports 200, and the writer they share has received the call. *)
Theorem two_wrappers_independent (u : loc) (ow : OtherWriter) (code : Z)
  (σ : World) :
  others σ !! u = Some ow ->
  checkWriteHeaderCode code = true ->
  let a := (WrapResponseWriter (RW_other u) σ).1 in
  let σ1 := (WrapResponseWriter (RW_other u) σ).2 in
  let b := (WrapResponseWriter (RW_other u) σ1).1 in
  let σ2 := (WrapResponseWriter (RW_other u) σ1).2 in
  a <> b
  /\ exists σ3 : World,
       LogResponseWriter_WriteHeader a code σ2 = Some σ3
       /\ LogResponseWriter_Status a σ3 = Some code
       /\ LogResponseWriter_Status b σ3 = Some 200
       /\ others σ3 !! u
          = Some (mkOtherWriter (ow_header ow)
                    (ow_calls ow ++ [Did_WriteHeader code])).
Proof.
  intros Hu Hcode. simpl.
  set (la := fresh (dom (logws σ))).
  set (m1 := <[la := mkLogResponseWriter (RW_other u) 0 false]> (logws σ)).
  set (lb := fresh (dom m1)).
  assert (lb <> la) as Hne.
  { intros Heq. pose proof (is_fresh (dom m1)) as Hfresh. fold lb in Hfresh.
    rewrite Heq in Hfresh. apply Hfresh. apply elem_of_dom.
    exists (mkLogResponseWriter (RW_other u) 0 false). apply lookup_insert_eq. }
  split; [intros [= Heq]; apply Hne; symmetry; exact Heq|].
  set (σ2 := mkWorld (<[lb := mkLogResponseWriter (RW_other u) 0 false]> m1)
               (others σ) (clock σ) (rng σ) (logged σ)).
  assert (logws σ2 !! la = Some (mkLogResponseWriter (RW_other u) 0 false)) as Hla.
  { simpl. rewrite lookup_insert_ne by exact Hne. apply lookup_insert_eq. }
  eexists. split.
  - apply (WriteHeader_wrapper la u _ ow code σ2 Hla); [reflexivity|exact Hu].
  - split; [|split].
    + simpl. rewrite lookup_insert_eq. simpl.
      destruct (decide (code = 0)) as [->|]; [discriminate Hcode|reflexivity].
    + simpl. rewrite lookup_insert_ne by (intros Heq; apply Hne; symmetry; exact Heq).
      rewrite lookup_insert_eq. reflexivity.
    + simpl. apply lookup_insert_eq.
Qed.

(** Two wrappers of the writer at location 0, and [WriteHeader(404)] on the
    first. *)
Lemma two_wrappers_independent_witness :
  exists σ3 : World,
    LogResponseWriter_WriteHeader (WrapResponseWriter (RW_other 0) example_World).1
      404
      (WrapResponseWriter (RW_other 0)
         (WrapResponseWriter (RW_other 0) example_World).2).2 = Some σ3
    /\ LogResponseWriter_Status
         (WrapResponseWriter (RW_other 0) example_World).1 σ3 = Some 404
    /\ LogResponseWriter_Status
         (WrapResponseWriter (RW_other 0)
            (WrapResponseWriter (RW_other 0) example_World).2).1 σ3 = Some 200.
Proof.
  destruct (two_wrappers_independent 0%nat (mkOtherWriter ∅ []) 404 example_World
              eq_refl eq_refl) as (_ & σ3 & Hrun & Ha & Hb & _).
  exists σ3. split; [exact Hrun|]. split; [exact Ha|exact Hb].
Defined.

(** * Further properties of the access-logging middleware *)

(** Where a chain of wrappers ends depends on the wrappers and on which
    other writers are there, and on nothing else. *)
Lemma iface_base_ext (w : http_ResponseWriter) (σ σ' : World) :
  logws σ' = logws σ ->
  (forall u : loc, is_Some (others σ' !! u) <-> is_Some (others σ !! u)) ->
  iface_base w σ' = iface_base w σ.
Proof.
  intros Hlogws Hdom. unfold iface_base, chain_fuel. rewrite Hlogws.
  generalize (S (size (logws σ))). intros fuel. revert w.
  induction fuel as [|fuel IH]; intros w; [reflexivity|].
  destruct w as [|p|u]; simpl; [reflexivity| |].
  - destruct p as [l|]; [|reflexivity]. simpl. rewrite Hlogws.
    destruct (logws σ !! l) as [o|]; [|reflexivity]. simpl. apply IH.
  - specialize (Hdom u).
    destruct (others σ' !! u) as [o'|], (others σ !! u) as [o|]; simpl;
      try reflexivity.
    + destruct Hdom as [Hd _]. destruct Hd as [x Hx]; [eauto|discriminate].
    + destruct Hdom as [_ Hd]. destruct Hd as [x Hx]; [eauto|discriminate].
Qed.

Lemma iface_base_set_rng (w : http_ResponseWriter) (seed : N) (σ : World) :
  iface_base w (set_rng seed σ) = iface_base w σ.
Proof. apply iface_base_ext; [reflexivity|intros u; reflexivity]. Qed.

Lemma iface_base_zap_Info (w : http_ResponseWriter) (l : zap_Logger)
  (msg : string) (fs : list zap_Field) (σ : World) :
  iface_base w (zap_Info l msg fs σ) = iface_base w σ.
Proof. apply iface_base_ext; [reflexivity|intros u; reflexivity]. Qed.

(** What a completed run of the handler built by [App.Handler] went through,
    with every intermediate value. *)
Lemma App_Handler_inv `{scope_pkg} (app : App) (handler : http_Handler)
  (w : http_ResponseWriter) (r : http_Request) (σ σ' : World) :
  App_Handler app handler w r σ = Some σ' ->
  let writer := (WrapResponseWriter w σ).1 in
  let σ0 := (WrapResponseWriter w σ).2 in
  let r' := (scope_HttpRequest r (rng σ)).1 in
  let seed := (scope_HttpRequest r (rng σ)).2 in
  exists (u : loc) (o : OtherWriter) (σ2 : World) (cachedFind : string) (st : Z),
    let σ1 :=
      set_others
        (insert u (mkOtherWriter
                     (Header_Add (ow_header o) "X-Gch-Request-ID"
                        (scope_RequestID (Context r')))
                     (ow_calls o)))
        (set_rng seed σ0) in
    iface_base w σ0 = Some u
    /\ others σ0 !! u = Some o
    /\ handler (RW_log writer) r' σ1 = Some σ2
    /\ iface_Header_Get w "X-Cached-Find" σ2 = Some cachedFind
    /\ LogResponseWriter_Status writer σ2 = Some st
    /\ σ' = zap_Info (access_logger app r') "access"
               (access_fields (clock σ2 - clock σ1) (Method r') (URL r')
                  (access_peer r') (access_client r') st
                  (String.eqb cachedFind "true")) σ2.
Proof.
  intros Hrun writer σ0 r' seed. subst writer σ0 r' seed.
  unfold App_Handler in Hrun.
  destruct (WrapResponseWriter w σ) as [writer σ0] eqn:Hw.
  assert (rng σ0 = rng σ) as Hrng.
  { destruct w; simpl in Hw; injection Hw as _ <-; reflexivity. }
  rewrite Hrng in Hrun.
  destruct (scope_HttpRequest r (rng σ)) as [r' seed] eqn:Hr.
  cbn [fst snd].
  destruct (iface_Header_Add w "X-Gch-Request-ID" (scope_RequestID (Context r'))
              (set_rng seed σ0)) as [σ1|] eqn:Hadd; [|discriminate].
  simpl in Hrun.
  destruct (handler (RW_log writer) r' σ1) as [σ2|] eqn:Hh; [|discriminate].
  simpl in Hrun.
  destruct (iface_Header_Get w "X-Cached-Find" σ2) as [cachedFind|] eqn:Hget;
    [|discriminate].
  simpl in Hrun.
  destruct (LogResponseWriter_Status writer σ2) as [st|] eqn:Hst; [|discriminate].
  simpl in Hrun. injection Hrun as <-.
  unfold iface_Header_Add in Hadd.
  rewrite iface_base_set_rng in Hadd.
  destruct (iface_base w σ0) as [u|] eqn:Hbase; [|discriminate].
  simpl in Hadd.
  destruct (others σ0 !! u) as [o|] eqn:Hu; [|discriminate].
  simpl in Hadd. injection Hadd as <-.
  exists u, o, σ2, cachedFind, st.
  repeat split; try assumption; reflexivity.
Qed.

(** X4: the footprint of [App.Handler]. Around the wrapped handler the
    middleware itself calls neither [WriteHeader] nor [Write]: before the
    handler starts, the response writer differs from the incoming one only
    by the one added header value, with the clock and the log as they were;
    after the handler returns, nothing changes but the log, which grows by
    one entry. *)
Theorem App_Handler_footprint `{scope_pkg} (app : App) (handler : http_Handler)
  (w : http_ResponseWriter) (r : http_Request) (σ σ' : World) :
  App_Handler app handler w r σ = Some σ' ->
  exists (u : loc) (o : OtherWriter) (σ1 σ2 : World) (e : log_entry),
    handler (RW_log (WrapResponseWriter w σ).1) (scope_HttpRequest r (rng σ)).1 σ1
    = Some σ2
    /\ others σ !! u = Some o
    /\ others σ1
       = <[u := mkOtherWriter
                  (Header_Add (ow_header o) "X-Gch-Request-ID"
                     (scope_RequestID (Context (scope_HttpRequest r (rng σ)).1)))
                  (ow_calls o)]> (others σ)
    /\ logws σ1 = logws (WrapResponseWriter w σ).2
    /\ clock σ1 = clock σ
    /\ logged σ1 = logged σ
    /\ logws σ' = logws σ2
    /\ others σ' = others σ2
    /\ clock σ' = clock σ2
    /\ rng σ' = rng σ2
    /\ logged σ' = (logged σ2 ++ [e])%list.
Proof.
  intros Hrun.
  destruct (App_Handler_inv app handler w r σ σ' Hrun)
    as (u & o & σ2 & cachedFind & st & Hbase & Hu & Hh & Hget & Hst & ->).
  destruct (WrapResponseWriter_rest w σ) as (Hothers & Hclock & _ & Hlogged).
  rewrite Hothers in Hu.
  eexists u, o, _, σ2, _. split; [exact Hh|]. split; [exact Hu|].
  simpl. rewrite Hothers, Hclock, Hlogged. repeat split; reflexivity.
Qed.

(** The failing handler behind [App.Handler]: after the handler only the log
    grows. *)
Lemma App_Handler_footprint_witness :
  exists (σ' σ2 : World) (e : log_entry),
    App_Handler (mkApp example_Config) example_failing_handler (RW_other 0)
      example_Request example_World = Some σ'
    /\ others σ' = others σ2
    /\ logws σ' = logws σ2
    /\ logged σ' = (logged σ2 ++ [e])%list.
Proof.
  assert (is_Some (App_Handler (mkApp example_Config) example_failing_handler
                     (RW_other 0) example_Request example_World)) as [σ' Hrun].
  { vm_compute. eexists. reflexivity. }
  destruct (App_Handler_footprint (mkApp example_Config) example_failing_handler
              (RW_other 0) example_Request example_World σ' Hrun)
    as (u & o & σ1 & σ2 & e & _ & _ & _ & _ & _ & _ & Hlogws & Hothers & _ & _ & Hlog).
  exists σ', σ2, e. auto.
Defined.

(** X5: [App.Handler] around [App.Handler]. The inner layer gets the wrapper
    of the outer layer and wraps nothing again, so the innermost handler
    writes to the one wrapper that the outer layer made; the run ends with
    two access lines, the inner one first, and both report the same status. *)
Theorem App_Handler_nested `{scope_pkg} (app1 app2 : App) (h : http_Handler)
  (w : http_ResponseWriter) (r : http_Request) (σ σ' : World) :
  App_Handler app1 (App_Handler app2 h) w r σ = Some σ' ->
  exists (r2 : http_Request) (σa σb : World) (st : Z) (e1 e2 : log_entry),
    h (RW_log (WrapResponseWriter w σ).1) r2 σa = Some σb
    /\ logws σa = logws (WrapResponseWriter w σ).2
    /\ logws σ' = logws σb
    /\ logged σ' = (logged σb ++ [e1; e2])%list
    /\ le_msg e1 = "access"
    /\ le_msg e2 = "access"
    /\ In (zap_Int "status" st) (le_fields e1)
    /\ In (zap_Int "status" st) (le_fields e2).
Proof.
  intros Hrun.
  destruct (App_Handler_inv app1 (App_Handler app2 h) w r σ σ' Hrun)
    as (u & o & σ2 & cachedFind & st & _ & _ & Hin & _ & Hst & ->).
  destruct (App_Handler_inv app2 h _ _ _ _ Hin)
    as (u' & o' & σb & cachedFind' & st' & _ & _ & Hh & _ & Hst' & ->).
  cbn [WrapResponseWriter fst snd] in Hh, Hst'.
  assert (st = st') as <-.
  { change (LogResponseWriter_Status (WrapResponseWriter w σ).1 σb = Some st) in Hst.
    congruence. }
  eexists _, _, σb, st, _, _. split; [exact Hh|].
  split; [reflexivity|]. split; [reflexivity|].
  split; [simpl; rewrite <- app_assoc; reflexivity|].
  split; [reflexivity|]. split; [reflexivity|].
  split; simpl; auto 10.
Qed.

(** The failing handler behind two layers: two access lines, both with the
    handler's status. *)
Lemma App_Handler_nested_witness :
  exists (σ' σb : World) (st : Z) (e1 e2 : log_entry),
    App_Handler (mkApp example_Config)
      (App_Handler (mkApp example_Config) example_failing_handler) (RW_other 0)
      example_Request example_World = Some σ'
    /\ logws σ' = logws σb
    /\ logged σ' = (logged σb ++ [e1; e2])%list
    /\ In (zap_Int "status" st) (le_fields e1)
    /\ In (zap_Int "status" st) (le_fields e2).
Proof.
  assert (is_Some (App_Handler (mkApp example_Config)
                     (App_Handler (mkApp example_Config) example_failing_handler)
                     (RW_other 0) example_Request example_World)) as [σ' Hrun].
  { vm_compute. eexists. reflexivity. }
  destruct (App_Handler_nested _ _ _ _ _ _ σ' Hrun)
    as (r2 & σa & σb & st & e1 & e2 & _ & _ & Hlogws & Hlog & _ & _ & H1 & H2).
  exists σ', σb, st, e1, e2. auto.
Defined.

(** Two layers around the failing handler: one wrapper, status 500 twice. *)
Example App_Handler_nested_run :
  (fun σ' => (size (logws σ'), (fun e => le_fields e !! 5%nat) <$> logged σ'))
    <$> App_Handler (mkApp example_Config)
          (App_Handler (mkApp example_Config) example_failing_handler)
          (RW_other 0) example_Request example_World
  = Some (1%nat, [Some (zap_Int "status" 500); Some (zap_Int "status" 500)]).
Proof. vm_compute. reflexivity. Qed.

(** ** The peer and the client of the access line *)

(** Joined with port 0, a host ends in [:0], bare or in brackets. *)
Lemma JoinHostPort_port_0 (host : string) :
  exists pre : string,
    net_JoinHostPort host "0" = (pre ++ ":0")%string
    /\ (pre = host \/ pre = ("[" ++ host ++ "]")%string).
Proof.
  unfold net_JoinHostPort. destruct (string_existsb (Ascii.eqb ":") host).
  - exists ("[" ++ host ++ "]")%string. split; [|right; reflexivity].
    change (String "[" (host ++ "]:0") = String "[" ((host ++ "]") ++ ":0"))%string.
    f_equal. rewrite string_app_assoc. reflexivity.
  - exists host. split; [reflexivity|left; reflexivity].
Qed.





(** The last entry of the log after a completed run. *)
Lemma App_Handler_last_entry `{scope_pkg} (app : App) (handler : http_Handler)
  (w : http_ResponseWriter) (r : http_Request) (σ σ' : World) :
  App_Handler app handler w r σ = Some σ' ->
  exists (d st : Z) (cachedFind : string),
    LogResponseWriter_Status (WrapResponseWriter w σ).1 σ' = Some st
    /\ iface_Header_Get w "X-Cached-Find" σ' = Some cachedFind
    /\ last (logged σ')
       = Some (mkEntry (access_logger app (scope_HttpRequest r (rng σ)).1) "access"
                 (access_fields d (Method (scope_HttpRequest r (rng σ)).1)
                    (URL (scope_HttpRequest r (rng σ)).1)
                    (access_peer (scope_HttpRequest r (rng σ)).1)
                    (access_client (scope_HttpRequest r (rng σ)).1) st
                    (String.eqb cachedFind "true"))).
Proof.
  intros Hrun.
  destruct (App_Handler_inv app handler w r σ σ' Hrun)
    as (u & o & σ2 & cachedFind & st & _ & _ & _ & Hget & Hst & ->).
  eexists _, st, cachedFind. split; [exact Hst|]. split.
  - unfold iface_Header_Get in *. rewrite iface_base_zap_Info. exact Hget.
  - simpl. apply last_snoc.
Qed.

(** X6: the peer of the access line. When the request carries [X-Real-Ip],
    the logged peer is that address joined with port 0, so it ends in [:0]
    after the address, bare or in brackets, and [RemoteAddr] is not used;
    without the header the peer is [RemoteAddr] as it is. *)
Theorem App_Handler_peer `{scope_pkg} (app : App) (handler : http_Handler)
  (w : http_ResponseWriter) (r : http_Request) (σ σ' : World) :
  App_Handler app handler w r σ = Some σ' ->
  let r' := (scope_HttpRequest r (rng σ)).1 in
  let ip := Header_Get (Header r') "X-Real-Ip" in
  exists (e : log_entry) (peer : string),
    last (logged σ') = Some e
    /\ In (zap_String "peer" peer) (le_fields e)
    /\ (ip = "" -> peer = RemoteAddr r')
    /\ (ip <> "" ->
        exists pre : string,
          peer = (pre ++ ":0")%string
          /\ (pre = ip \/ pre = ("[" ++ ip ++ "]")%string)).
Proof.
  intros Hrun r' ip.
  destruct (App_Handler_last_entry app handler w r σ σ' Hrun)
    as (d & st & cachedFind & _ & _ & Hlast).
  eexists _, (access_peer r'). split; [exact Hlast|].
  split; [simpl; auto 10|].
  unfold access_peer. fold ip. destruct (decide (ip = "")) as [Hip|Hip].
  - split; [reflexivity|]. intros Hne. destruct (Hne Hip).
  - split; [intros Heq; destruct (Hip Heq)|]. intros _.
    apply JoinHostPort_port_0.
Qed.


(** X8: the access line describes the response as it stands when the
    request ends: its status is what the wrapper reports in the final
    store, and [find_cached] is true exactly when the first
    [X-Cached-Find] value of the response header map is [true] there. *)
Theorem App_Handler_final_state `{scope_pkg} (app : App) (handler : http_Handler)
  (w : http_ResponseWriter) (r : http_Request) (σ σ' : World) :
  App_Handler app handler w r σ = Some σ' ->
  exists (e : log_entry) (st : Z) (cachedFind : string),
    last (logged σ') = Some e
    /\ LogResponseWriter_Status (WrapResponseWriter w σ).1 σ' = Some st
    /\ In (zap_Int "status" st) (le_fields e)
    /\ iface_Header_Get w "X-Cached-Find" σ' = Some cachedFind
    /\ In (zap_Bool "find_cached" (String.eqb cachedFind "true")) (le_fields e).
Proof.
  intros Hrun.
  destruct (App_Handler_last_entry app handler w r σ σ' Hrun)
    as (d & st & cachedFind & Hst & Hget & Hlast).
  eexists _, st, cachedFind. split; [exact Hlast|].
  split; [exact Hst|]. split; [simpl; auto 10|].
  split; [exact Hget|]. simpl. auto 10.
Qed.

(** The proxied request: the peer ends in [:0]. *)
Lemma App_Handler_peer_witness :
  exists (σ' : World) (e : log_entry) (peer pre : string),
    App_Handler (mkApp example_Config) example_cached_handler (RW_other 0)
      example_proxied_Request example_World = Some σ'
    /\ last (logged σ') = Some e
    /\ In (zap_String "peer" peer) (le_fields e)
    /\ peer = (pre ++ ":0")%string.
Proof.
  assert (is_Some (App_Handler (mkApp example_Config) example_cached_handler
                     (RW_other 0) example_proxied_Request example_World))
    as [σ' Hrun].
  { vm_compute. eexists. reflexivity. }
  destruct (App_Handler_peer _ _ _ _ _ σ' Hrun)
    as (e & peer & Hlast & Hin & _ & Hport).
  destruct Hport as (pre & Hpre & _); [vm_compute; discriminate|].
  exists σ', e, peer, pre. auto.
Defined.


(** The cached find: the final header map says so, and so does the line. *)
Lemma App_Handler_final_state_witness :
  exists (σ' : World) (e : log_entry) (st : Z) (cachedFind : string),
    App_Handler (mkApp example_Config) example_cached_handler (RW_other 0)
      example_proxied_Request example_World = Some σ'
    /\ last (logged σ') = Some e
    /\ LogResponseWriter_Status
         (WrapResponseWriter (RW_other 0) example_World).1 σ' = Some st
    /\ In (zap_Int "status" st) (le_fields e)
    /\ iface_Header_Get (RW_other 0) "X-Cached-Find" σ' = Some cachedFind
    /\ In (zap_Bool "find_cached" (String.eqb cachedFind "true")) (le_fields e).
Proof.
  assert (is_Some (App_Handler (mkApp example_Config) example_cached_handler
                     (RW_other 0) example_proxied_Request example_World))
    as [σ' Hrun].
  { vm_compute. eexists. reflexivity. }
  destruct (App_Handler_final_state _ _ _ _ _ σ' Hrun)
    as (e & st & cachedFind & H1 & H2 & H3 & H4 & H5).
  exists σ', e, st, cachedFind. auto 10.
Defined.

(** The proxied, cached request in full. *)
Example App_Handler_proxied_run :
  logged <$> App_Handler (mkApp example_Config) example_cached_handler
               (RW_other 0) example_proxied_Request example_World
  = Some [mkEntry (mkLogger "gch.http" []) "access"
            [ zap_Duration "time" 0;
              zap_String "method" "GET";
              zap_String "url" "/metrics/find/?query=a.*";
              zap_String "peer" "[::1]:0";
              zap_String "client" "10.1.1.1";
              zap_Int "status" 200;
              zap_Bool "find_cached" true ]].
Proof. vm_compute. reflexivity. Qed.

(** * Further properties of main *)

(** The configuration phase in closed form. *)
Lemma main_config_cases `{Externals} (flags : Flags) (env : Env) :
  main_config flags env
  = if printVersion flags then ([Ev_fmt_Print Version], inr Returned)
    else if printDefaultConfig flags
    then ([Ev_PrintDefaultConfig],
          inr match config_PrintDefaultConfig env with
              | Some err => Fatal err
              | None => Returned
              end)
    else match config_ReadConfig env (configFile flags) (checkConfig flags) with
         | inr err =>
             ([Ev_ReadConfig (configFile flags) (checkConfig flags)], inr (Fatal err))
         | inl cfg =>
             if checkConfig flags
             then ([Ev_ReadConfig (configFile flags) true], inr Returned)
             else match zapwriter_ApplyConfig env (Logging cfg) with
                  | Some err =>
                      ([Ev_ReadConfig (configFile flags) false;
                        Ev_ApplyConfig (Logging cfg)], inr (Fatal err))
                  | None =>
                      match zapwriter_NewManager env (Logging cfg) with
                      | inr err =>
                          ([Ev_ReadConfig (configFile flags) false;
                            Ev_ApplyConfig (Logging cfg);
                            Ev_NewManager (Logging cfg)], inr (Fatal err))
                      | inl mgr => (startup_trace flags cfg mgr, inl cfg)
                      end
                  end
         end.
Proof.
  unfold main_config, startup_trace.
  destruct (printVersion flags); [reflexivity|].
  destruct (printDefaultConfig flags).
  { destruct (config_PrintDefaultConfig env); reflexivity. }
  cbn.
  destruct (config_ReadConfig env (configFile flags) (checkConfig flags))
    as [cfg|err]; [|reflexivity].
  destruct (checkConfig flags); [reflexivity|]. cbn.
  destruct (zapwriter_ApplyConfig env (Logging cfg)); [reflexivity|]. cbn.
  destruct (zapwriter_NewManager env (Logging cfg)) as [mgr|err]; [|reflexivity].
  cbn.
  destruct (bool_decide (0 < Common_MemoryReturnInterval (Common cfg)));
    reflexivity.
Qed.

Lemma main_pprof_eq `{Externals} (flags : Flags) (cfg : config_Config) :
  main_pprof flags cfg = (pprof_trace flags cfg, inl tt).
Proof.
  unfold main_pprof, pprof_trace, pprof_listen.
  destruct (_ || _); reflexivity.
Qed.

Lemma main_console_no_tags `{Externals} (flags : Flags) (env : Env)
  (cfg : config_Config) :
  buildTags flags = false -> main_console flags env cfg = ([], inl tt).
Proof. intros Htags. unfold main_console. rewrite Htags. reflexivity. Qed.

(** The server phase in closed form. *)
Lemma main_server_eq `{Externals} (env : Env) (cfg : config_Config) :
  main_server env cfg
  = match (if bool_decide (Prometheus_Listen cfg ≠ "")
           then prometheus_Run env cfg else None) with
    | Some err =>
        ((registration_trace cfg ++ [Ev_prometheus_Run cfg])%list, inr (Fatal err))
    | None =>
        ((registration_trace cfg ++ side_trace env cfg
            ++ [Ev_ListenAndServe (Common_Listen (Common cfg)) (server_mux cfg)])%list,
         inr match http_ListenAndServe env (Common_Listen (Common cfg))
                     (server_mux cfg) with
             | Some err => Fatal err
             | None => Serving
             end)
    end.
Proof.
  unfold main_server, side_trace. rewrite register_handlers_eq.
  fold (registration_trace cfg).
  destruct (bool_decide (Prometheus_Listen cfg ≠ ""));
    [destruct (prometheus_Run env cfg)|];
    destruct (metrics_Graphite_set env); cbn;
    try match goal with
        | |- context [http_ListenAndServe ?e ?a ?m] =>
            destruct (http_ListenAndServe e a m)
        end;
    reflexivity.
Qed.

(** Every run of main is one of the nine cases. *)
Lemma main_cases `{Externals} (flags : Flags) (env : Env) :
  main_case flags env (main flags env).1 (main flags env).2.
Proof.
  rewrite main_eq. cbn [fst snd]. unfold main_body.
  rewrite trace_bind, result_bind. cbn [emit fst snd].
  rewrite trace_bind, result_bind, main_config_cases.
  destruct (printVersion flags) eqn:Hver; [apply case_version; exact Hver|].
  destruct (printDefaultConfig flags) eqn:Hdef.
  { cbn [fst snd app]. apply case_default_config; assumption. }
  destruct (config_ReadConfig env (configFile flags) (checkConfig flags))
    as [cfg|err] eqn:Hread; [|apply case_config_error; assumption].
  destruct (checkConfig flags) eqn:Hcheck.
  { apply (case_check_config flags env cfg); assumption. }
  destruct (zapwriter_ApplyConfig env (Logging cfg)) as [err|] eqn:Happly.
  { apply (case_logging_error flags env cfg); assumption. }
  destruct (zapwriter_NewManager env (Logging cfg)) as [mgr|err] eqn:Hmgr.
  2:{ apply (case_manager_error flags env cfg); assumption. }
  assert (config_ok flags env cfg mgr) as Hok.
  { unfold config_ok. rewrite Hcheck. auto 10. }
  cbn [fst snd].
  rewrite trace_bind, result_bind, main_pprof_eq. cbn [fst snd].
  rewrite trace_bind, result_bind.
  destruct (buildTags flags) eqn:Htags.
  - rewrite (main_console_tags flags env cfg Htags). cbn [fst snd].
    rewrite app_nil_r. cbn [app].
    apply (case_tags flags env cfg mgr Hok Htags).
  - rewrite (main_console_no_tags flags env cfg Htags). cbn [fst snd].
    rewrite main_server_eq. cbn [app].
    destruct (bool_decide (Prometheus_Listen cfg ≠ "")) eqn:Hprom.
    + apply bool_decide_eq_true in Hprom.
      destruct (prometheus_Run env cfg) as [err|] eqn:Hrun; cbn [fst snd].
      * apply (case_prometheus_error flags env cfg mgr err); assumption.
      * apply (case_server flags env cfg mgr); auto.
    + apply bool_decide_eq_false in Hprom. cbn [fst snd].
      apply (case_server flags env cfg mgr); [assumption..|].
      intros Hne. destruct (Hprom Hne).
Qed.

(** Events of one kind are found by a test [P]; a list on which the test
    fails everywhere holds none of them. *)
Lemma Forall_false_not_In `{Externals} (P : event -> bool) (l : list event)
  (ev : event) :
  Forall (fun x => P x = false) l -> P ev = true -> ~ In ev l.
Proof.
  intros Hall Hev Hin. rewrite Forall_forall in Hall.
  apply list_elem_of_In in Hin. rewrite (Hall _ Hin) in Hev. discriminate.
Qed.

(** Proves that a test fails on every event of the phases of main. *)
Ltac phase_Forall :=
  unfold startup_trace, pprof_trace, registration_trace, side_trace, server_mux;
  repeat match goal with
         | |- context [if ?b then _ else _] => destruct b
         end;
  cbn; repeat constructor.

Section Phases.
Context `{Externals} (flags : Flags) (env : Env) (cfg : config_Config)
  (mgr : string -> zap_Logger).

Lemma startup_trace_no_server :
  Forall (fun ev => is_server_event ev = false) (startup_trace flags cfg mgr).
Proof. phase_Forall. Qed.

Lemma pprof_trace_no_server :
  Forall (fun ev => is_server_event ev = false) (pprof_trace flags cfg).
Proof. phase_Forall. Qed.

Lemma startup_trace_no_tagger :
  Forall (fun ev => is_tagger_Make ev = false) (startup_trace flags cfg mgr).
Proof. phase_Forall. Qed.

Lemma pprof_trace_no_tagger :
  Forall (fun ev => is_tagger_Make ev = false) (pprof_trace flags cfg).
Proof. phase_Forall. Qed.

Lemma registration_trace_no_tagger :
  Forall (fun ev => is_tagger_Make ev = false) (registration_trace cfg).
Proof. phase_Forall. Qed.

Lemma side_trace_no_tagger :
  Forall (fun ev => is_tagger_Make ev = false) (side_trace env cfg).
Proof. phase_Forall. Qed.

Lemma startup_trace_no_ListenAndServe :
  Forall (fun ev => is_ListenAndServe ev = false) (startup_trace flags cfg mgr).
Proof. phase_Forall. Qed.

Lemma pprof_trace_no_ListenAndServe :
  Forall (fun ev => is_ListenAndServe ev = false) (pprof_trace flags cfg).
Proof. phase_Forall. Qed.

Lemma registration_trace_no_ListenAndServe :
  Forall (fun ev => is_ListenAndServe ev = false) (registration_trace cfg).
Proof. phase_Forall. Qed.

Lemma side_trace_no_ListenAndServe :
  Forall (fun ev => is_ListenAndServe ev = false) (side_trace env cfg).
Proof. phase_Forall. Qed.

Lemma startup_trace_no_pprof :
  Forall (fun ev => is_pprof ev = false) (startup_trace flags cfg mgr).
Proof. phase_Forall. Qed.

Lemma registration_trace_no_pprof :
  Forall (fun ev => is_pprof ev = false) (registration_trace cfg).
Proof. phase_Forall. Qed.

Lemma side_trace_no_pprof :
  Forall (fun ev => is_pprof ev = false) (side_trace env cfg).
Proof. phase_Forall. Qed.

End Phases.

(** Splits a membership in a trace into its places. *)
Ltac split_In H :=
  repeat match type of H with
         | In _ (_ :: _) => destruct H as [H|H]
         | In _ (_ ++ _) => apply in_app_or in H; destruct H as [H|H]
         | In _ [] => destruct H
         end.

(** Closes a place where an event of the kind cannot be. *)
Ltac absurd_by L H :=
  solve [exfalso; revert H; eapply Forall_false_not_In; [apply L|reflexivity]].

Ltac absurd_In H :=
  first
    [ discriminate H
    | absurd_by startup_trace_no_server H | absurd_by pprof_trace_no_server H
    | absurd_by startup_trace_no_tagger H | absurd_by pprof_trace_no_tagger H
    | absurd_by registration_trace_no_tagger H | absurd_by side_trace_no_tagger H
    | absurd_by startup_trace_no_ListenAndServe H
    | absurd_by pprof_trace_no_ListenAndServe H
    | absurd_by registration_trace_no_ListenAndServe H
    | absurd_by side_trace_no_ListenAndServe H
    | absurd_by startup_trace_no_pprof H
    | absurd_by registration_trace_no_pprof H
    | absurd_by side_trace_no_pprof H ].

(** X9: the tag build runs only on request, and last. Whenever main calls
    [tagger.Make], the tags flag is set, the configuration handed to the
    build is the one that was read, the loggers were set up before, the call
    is the last thing main does, and none of the HTTP service was started. *)
Theorem main_tagger_only_with_flag `{Externals} (flags : Flags) (env : Env)
  (cfg : config_Config) :
  In (Ev_tagger_Make cfg) (main flags env).1 ->
  buildTags flags = true
  /\ config_ReadConfig env (configFile flags) false = inl cfg
  /\ zapwriter_ApplyConfig env (Logging cfg) = None
  /\ last (main flags env).1 = Some (Ev_tagger_Make cfg)
  /\ Forall (fun ev => is_server_event ev = false) (main flags env).1
  /\ (main flags env).2 = match tagger_Make env cfg with
                          | Some err => Fatal err
                          | None => Returned
                          end.
Proof.
  intros Hin. pose proof (main_cases flags env) as Hcase.
  destruct (main flags env) as [evs e]. cbn [fst snd] in *.
  destruct Hcase as [ | | | | | | cfg' mgr Hok Htags | | ];
    split_In Hin; try absurd_In Hin.
  injection Hin as <-.
  destruct Hok as (_ & _ & _ & Hread & Happly & _).
  split; [exact Htags|]. split; [exact Hread|]. split; [exact Happly|].
  split.
  - rewrite app_comm_cons, app_assoc. apply last_snoc.
  - split; [|reflexivity].
    constructor; [reflexivity|]. apply Forall_app. split.
    + apply startup_trace_no_server.
    + apply Forall_app. split; [apply pprof_trace_no_server|].
      repeat constructor.
Qed.

(** [graphite-clickhouse -tags]: the build is there, and it is last. *)
Lemma main_tagger_only_with_flag_witness :
  In (Ev_tagger_Make example_Config) (main flags_tags example_Env).1
  /\ buildTags flags_tags = true
  /\ last (main flags_tags example_Env).1 = Some (Ev_tagger_Make example_Config).
Proof.
  assert (In (Ev_tagger_Make example_Config) (main flags_tags example_Env).1)
    as Hin.
  { vm_compute. repeat (first [left; reflexivity | right]). }
  destruct (main_tagger_only_with_flag flags_tags example_Env example_Config Hin)
    as (Htags & _ & _ & Hlast & _).
  auto.
Defined.

(** X10: main returns only in its console modes. A run that ends by a plain
    return had the version, default-config, check-config or tags flag set,
    and has started nothing of the HTTP service; a run that got as far as
    the server never returns. *)
Theorem main_returns_only_in_console_modes `{Externals} (flags : Flags) (env : Env) :
  (main flags env).2 = Returned ->
  (printVersion flags = true \/ printDefaultConfig flags = true
   \/ checkConfig flags = true \/ buildTags flags = true)
  /\ Forall (fun ev => is_server_event ev = false) (main flags env).1.
Proof.
  intros Hret. pose proof (main_cases flags env) as Hcase.
  destruct (main flags env) as [evs e]. cbn [fst snd] in *. subst e.
  inversion Hcase as [ Hv | Hv Hd | | cfg Hv Hd Hc | | | cfg mgr Hok Ht | | cfg mgr Hok Ht Hp Hevs Hexit ];
    subst.
  - split; [auto|repeat constructor].
  - split; [auto|repeat constructor].
  - split; [auto|repeat constructor].
  - split; [auto 10|].
    constructor; [reflexivity|]. apply Forall_app. split.
    + apply startup_trace_no_server.
    + apply Forall_app. split; [apply pprof_trace_no_server|repeat constructor].
  - destruct (http_ListenAndServe env (Common_Listen (Common cfg)) (server_mux cfg));
      discriminate.
Qed.

Lemma main_returns_only_in_console_modes_witness :
  (main flags_tags example_Env).2 = Returned
  /\ (printVersion flags_tags = true \/ printDefaultConfig flags_tags = true
      \/ checkConfig flags_tags = true \/ buildTags flags_tags = true)
  /\ Forall (fun ev => is_server_event ev = false) (main flags_tags example_Env).1.
Proof.
  split; [reflexivity|].
  apply (main_returns_only_in_console_modes flags_tags example_Env). reflexivity.
Defined.

(** X11: when main itself ends the process by [log.Fatal], the error is the
    one that the call it made last returned, unchanged: printing the
    default configuration, reading the configuration, setting up the
    loggers, building the tags, starting Prometheus, or serving. Nothing
    runs between the failing call and the exit. The statement is about the
    sequence of main; the [log.Fatal] of the pprof goroutine that main
    starts is not part of it. *)
Theorem main_fatal_provenance `{Externals} (flags : Flags) (env : Env)
  (err : error) :
  (main flags env).2 = Fatal err ->
  (last (main flags env).1 = Some Ev_PrintDefaultConfig
   /\ printDefaultConfig flags = true
   /\ config_PrintDefaultConfig env = Some err)
  \/ (last (main flags env).1
      = Some (Ev_ReadConfig (configFile flags) (checkConfig flags))
      /\ config_ReadConfig env (configFile flags) (checkConfig flags) = inr err)
  \/ exists cfg : config_Config,
       config_ReadConfig env (configFile flags) (checkConfig flags) = inl cfg
       /\ ((last (main flags env).1 = Some (Ev_ApplyConfig (Logging cfg))
            /\ zapwriter_ApplyConfig env (Logging cfg) = Some err)
           \/ (last (main flags env).1 = Some (Ev_NewManager (Logging cfg))
               /\ zapwriter_NewManager env (Logging cfg) = inr err)
           \/ (last (main flags env).1 = Some (Ev_tagger_Make cfg)
               /\ buildTags flags = true
               /\ tagger_Make env cfg = Some err)
           \/ (last (main flags env).1 = Some (Ev_prometheus_Run cfg)
               /\ Prometheus_Listen cfg <> ""
               /\ prometheus_Run env cfg = Some err)
           \/ (last (main flags env).1
               = Some (Ev_ListenAndServe (Common_Listen (Common cfg)) (server_mux cfg))
               /\ http_ListenAndServe env (Common_Listen (Common cfg))
                    (server_mux cfg) = Some err)).
Proof.
  intros Hfatal. pose proof (main_cases flags env) as Hcase.
  destruct (main flags env) as [evs e]. cbn [fst snd] in *. subst e.
  inversion Hcase as [ Hv | Hv Hd Hevs Hexit | err' Hv Hd Hr
                     | cfg Hv Hd Hc Hr | cfg err' Hv Hd Hc Hr Ha
                     | cfg err' Hv Hd Hc Hr Ha Hm
                     | cfg mgr Hok Ht Hevs Hexit | cfg mgr err' Hok Ht Hp Hrun
                     | cfg mgr Hok Ht Hp Hevs Hexit ]; subst.
  - left. destruct (config_PrintDefaultConfig env) as [err'|];
      [injection Hexit as <-|discriminate Hexit]. auto.
  - right. left. auto.
  - right. right. exists cfg. rewrite Hc. auto.
  - right. right. exists cfg. rewrite Hc. auto.
  - destruct Hok as (_ & _ & Hc & Hr & _).
    destruct (tagger_Make env cfg) as [err'|] eqn:Hmake;
      [injection Hexit as <-|discriminate Hexit].
    right. right. exists cfg. rewrite Hc. split; [exact Hr|].
    right. right. left. split; [|auto].
    rewrite app_comm_cons, !app_assoc. apply last_snoc.
  - destruct Hok as (_ & _ & Hc & Hr & _).
    right. right. exists cfg. rewrite Hc. split; [exact Hr|].
    right. right. right. left. split; [|auto].
    rewrite app_comm_cons, !app_assoc. apply last_snoc.
  - destruct Hok as (_ & _ & Hc & Hr & _).
    destruct (http_ListenAndServe env (Common_Listen (Common cfg)) (server_mux cfg))
      as [err'|] eqn:Hserve; [injection Hexit as <-|discriminate Hexit].
    right. right. exists cfg. rewrite Hc. split; [exact Hr|].
    right. right. right. right. split; [|exact Hserve].
    rewrite app_comm_cons, !app_assoc. apply last_snoc.
Qed.

(** Prometheus cannot bind its address: main ends with that error, right
    after the call. *)
Lemma main_fatal_provenance_witness :
  (main flags_server example_Env_prometheus_fails).2
  = Fatal "listen tcp :9092: bind: address already in use"
  /\ last (main flags_server example_Env_prometheus_fails).1
     = Some (Ev_prometheus_Run example_Config_prometheus)
  /\ prometheus_Run example_Env_prometheus_fails example_Config_prometheus
     = Some "listen tcp :9092: bind: address already in use".
Proof.
  split; [reflexivity|].
  destruct (main_fatal_provenance flags_server example_Env_prometheus_fails
              "listen tcp :9092: bind: address already in use" eq_refl)
    as [(Hlast & _)|[(Hlast & _)|(cfg & [= <-] & Hlast)]].
  - vm_compute in Hlast. discriminate Hlast.
  - vm_compute in Hlast. discriminate Hlast.
  - destruct Hlast as [(Hlast & _)|[(Hlast & _)|[(Hlast & _)|[(Hlast & _ & Hrun)|(Hlast & _)]]]];
      try (vm_compute in Hlast; discriminate Hlast).
    split; [exact Hlast|exact Hrun].
Defined.

(** X12: serving is the last thing main does, and it does it once, after
    every handler is registered. Whenever main calls [http.ListenAndServe],
    the address is the configured one, the call is the last event and no
    earlier event is such a call, every entry of the mux was registered
    before, the tags flag is not set, and main ends as the call ends: by
    [log.Fatal] with its error, or never. *)
Theorem main_serves_last `{Externals} (flags : Flags) (env : Env)
  (addr : string) (mux : ServeMux) :
  In (Ev_ListenAndServe addr mux) (main flags env).1 ->
  exists (cfg : config_Config) (pre : list event),
    config_ReadConfig env (configFile flags) false = inl cfg
    /\ addr = Common_Listen (Common cfg)
    /\ buildTags flags = false
    /\ (main flags env).1 = (pre ++ [Ev_ListenAndServe addr mux])%list
    /\ Forall (fun ev => is_ListenAndServe ev = false) pre
    /\ Forall (fun e => In (Ev_mux_Handle e.1 e.2) pre) mux
    /\ (main flags env).2 = match http_ListenAndServe env addr mux with
                            | Some err => Fatal err
                            | None => Serving
                            end.
Proof.
  intros Hin. pose proof (main_cases flags env) as Hcase.
  destruct (main flags env) as [evs e]. cbn [fst snd] in *.
  destruct Hcase as [ | | | | | | | | cfg mgr Hok Htags Hprom ];
    split_In Hin; try absurd_In Hin.
  injection Hin as <- <-.
  destruct Hok as (_ & _ & _ & Hread & _).
  exists cfg,
    (Ev_rand_Seed :: startup_trace flags cfg mgr ++ pprof_trace flags cfg
       ++ registration_trace cfg ++ side_trace env cfg)%list.
  split; [exact Hread|]. split; [reflexivity|]. split; [exact Htags|].
  split; [cbn [app]; rewrite <- !app_assoc; reflexivity|].
  split; [|split; [|reflexivity]].
  - constructor; [reflexivity|].
    apply Forall_app. split; [apply startup_trace_no_ListenAndServe|].
    apply Forall_app. split; [apply pprof_trace_no_ListenAndServe|].
    apply Forall_app. split; [apply registration_trace_no_ListenAndServe|].
    apply side_trace_no_ListenAndServe.
  - apply Forall_forall. intros entry Hentry.
    right. apply in_or_app. right. apply in_or_app. right.
    apply in_or_app. left. unfold registration_trace. right.
    apply list_elem_of_In.
    apply (list_elem_of_fmap_2 (fun e => Ev_mux_Handle e.1 e.2)). exact Hentry.
Qed.

(** The server run: the last event is the call, and main is then inside
    the server. *)
Lemma main_serves_last_witness :
  exists pre : list event,
    In (Ev_ListenAndServe ":9090" (server_mux example_Config))
      (main flags_server example_Env).1
    /\ (main flags_server example_Env).1
       = (pre ++ [Ev_ListenAndServe ":9090" (server_mux example_Config)])%list
    /\ (main flags_server example_Env).2 = Serving.
Proof.
  assert (In (Ev_ListenAndServe ":9090" (server_mux example_Config))
            (main flags_server example_Env).1) as Hin.
  { vm_compute. repeat (first [left; reflexivity | right]). }
  destruct (main_serves_last flags_server example_Env _ _ Hin)
    as (cfg & pre & _ & _ & _ & Htrace & _ & _ & Hexit).
  exists pre. split; [exact Hin|]. split; [exact Htrace|]. exact Hexit.
Defined.

(** X13: the printing flags need no configuration. With the version flag,
    or with the default-config flag, main prints and ends, whatever the
    other flags are and whatever the configuration file holds: the file is
    never read, and with the version flag the run is exactly the seed, the
    print of the version, and a return. *)
Theorem main_printing_flags `{Externals} (flags : Flags) (env : Env) :
  printVersion flags = true \/ printDefaultConfig flags = true ->
  Forall (fun ev => is_ReadConfig ev = false) (main flags env).1
  /\ (printVersion flags = true ->
      main flags env = ([Ev_rand_Seed; Ev_fmt_Print Version], Returned))
  /\ (printVersion flags = false ->
      main flags env
      = ([Ev_rand_Seed; Ev_PrintDefaultConfig],
         match config_PrintDefaultConfig env with
         | Some err => Fatal err
         | None => Returned
         end)).
Proof.
  intros Hflag. pose proof (main_cases flags env) as Hcase.
  destruct (main flags env) as [evs e]. cbn [fst snd] in *.
  destruct Hcase as [ Hv | Hv Hd | err Hv Hd Hr | cfg Hv Hd Hc Hr
                    | cfg err Hv Hd Hc Hr Ha | cfg err Hv Hd Hc Hr Ha Hm
                    | cfg mgr Hok Ht | cfg mgr err Hok Ht Hp Hrun
                    | cfg mgr Hok Ht Hp ];
    try (destruct Hok as (Hv & Hd & _));
    try (destruct Hflag as [Hflag|Hflag]; congruence).
  - split; [repeat constructor|]. split; [reflexivity|]. congruence.
  - split; [repeat constructor|]. split; [congruence|]. reflexivity.
Qed.

(** [graphite-clickhouse -tags -version] prints the version and returns. *)
Lemma main_printing_flags_witness :
  Forall (fun ev => is_ReadConfig ev = false) (main flags_tags_version example_Env).1
  /\ main flags_tags_version example_Env
     = ([Ev_rand_Seed; Ev_fmt_Print Version], Returned).
Proof.
  destruct (main_printing_flags flags_tags_version example_Env) as (Hno & Hv & _).
  - left. reflexivity.
  - split; [exact Hno|]. apply Hv. reflexivity.
Defined.

(** X14: check-config only checks. With the check-config flag and neither
    printing flag, main reads the configuration in check mode and ends: by
    a return when it is valid, by [log.Fatal] with the error when it is not.
    It sets up no logger and starts nothing, tags flag or not. *)
Theorem main_check_config `{Externals} (flags : Flags) (env : Env) :
  printVersion flags = false ->
  printDefaultConfig flags = false ->
  checkConfig flags = true ->
  main flags env
  = ([Ev_rand_Seed; Ev_ReadConfig (configFile flags) true],
     match config_ReadConfig env (configFile flags) true with
     | inl _ => Returned
     | inr err => Fatal err
     end).
Proof.
  intros Hver Hdef Hcheck. pose proof (main_cases flags env) as Hcase.
  destruct (main flags env) as [evs e]. cbn [fst snd] in *.
  destruct Hcase as [ Hv | Hv Hd | err Hv Hd Hr | cfg Hv Hd Hc Hr
                    | cfg err Hv Hd Hc Hr Ha | cfg err Hv Hd Hc Hr Ha Hm
                    | cfg mgr Hok Ht | cfg mgr err Hok Ht Hp Hrun
                    | cfg mgr Hok Ht Hp ];
    try (destruct Hok as (_ & _ & Hc & _)); try congruence.
  - rewrite Hcheck in *. rewrite Hr. reflexivity.
  - rewrite Hr. reflexivity.
Qed.

Lemma main_check_config_witness :
  main flags_check_config example_Env
  = ([Ev_rand_Seed;
      Ev_ReadConfig "/etc/graphite-clickhouse/graphite-clickhouse.conf" true],
     Returned).
Proof.
  apply (main_check_config flags_check_config example_Env); reflexivity.
Defined.

(** The pprof listener of a run, when there is one. *)
Lemma pprof_trace_In `{Externals} (flags : Flags) (cfg : config_Config)
  (listen : string) :
  In (Ev_go_pprof_ListenAndServe listen) (pprof_trace flags cfg) ->
  listen <> ""
  /\ (pprof flags <> "" -> listen = pprof flags)
  /\ (pprof flags = "" -> listen = Common_PprofListen (Common cfg)).
Proof.
  unfold pprof_trace, pprof_listen.
  destruct (bool_decide (pprof flags ≠ "")) eqn:Hflag.
  - apply bool_decide_eq_true in Hflag. cbn.
    intros [[= <-]|[]]. split; [exact Hflag|]. split; [auto|].
    intros Heq. destruct (Hflag Heq).
  - apply bool_decide_eq_false in Hflag.
    destruct (bool_decide (Common_PprofListen (Common cfg) ≠ "")) eqn:Hcfg; cbn;
      [|intros []].
    apply bool_decide_eq_true in Hcfg.
    intros [[= <-]|[]]. split; [exact Hcfg|]. split; [|auto].
    intros Hne. destruct (Hflag Hne).
Qed.

(** X15: the pprof listener. Whenever main starts the pprof listener, its
    address is not empty; it is the address of the pprof flag when that flag
    is given, and the address of the configuration otherwise. The listener
    is started only once the configuration is read and the loggers are set
    up. *)
Theorem main_pprof_address `{Externals} (flags : Flags) (env : Env)
  (listen : string) :
  In (Ev_go_pprof_ListenAndServe listen) (main flags env).1 ->
  listen <> ""
  /\ exists cfg : config_Config,
       config_ReadConfig env (configFile flags) false = inl cfg
       /\ zapwriter_ApplyConfig env (Logging cfg) = None
       /\ (pprof flags <> "" -> listen = pprof flags)
       /\ (pprof flags = "" -> listen = Common_PprofListen (Common cfg)).
Proof.
  intros Hin. pose proof (main_cases flags env) as Hcase.
  destruct (main flags env) as [evs e]. cbn [fst snd] in *.
  destruct Hcase as [ | | | | | | cfg mgr Hok Ht | cfg mgr err Hok Ht Hp Hrun
                    | cfg mgr Hok Ht Hp ];
    split_In Hin; try absurd_In Hin;
    destruct Hok as (_ & _ & _ & Hread & Happly & _);
    destruct (pprof_trace_In flags cfg listen Hin) as (Hne & Hflag & Hcfg);
    (split; [exact Hne|]); exists cfg; auto.
Qed.

(** [graphite-clickhouse -tags -pprof :6060]: the listener is on [:6060]. *)
Lemma main_pprof_address_witness :
  In (Ev_go_pprof_ListenAndServe ":6060") (main flags_tags_pprof example_Env).1
  /\ ":6060" <> "".
Proof.
  assert (In (Ev_go_pprof_ListenAndServe ":6060")
            (main flags_tags_pprof example_Env).1) as Hin.
  { vm_compute. repeat (first [left; reflexivity | right]). }
  split; [exact Hin|].
  apply (main_pprof_address flags_tags_pprof example_Env ":6060" Hin).
Defined.

Lemma startup_trace_no_prometheus `{Externals} (flags : Flags)
  (cfg : config_Config) (mgr : string -> zap_Logger) :
  Forall (fun ev => is_prometheus_Run ev = false) (startup_trace flags cfg mgr).
Proof. phase_Forall. Qed.

Lemma pprof_trace_no_prometheus `{Externals} (flags : Flags) (cfg : config_Config) :
  Forall (fun ev => is_prometheus_Run ev = false) (pprof_trace flags cfg).
Proof. phase_Forall. Qed.

Lemma registration_trace_no_prometheus `{Externals} (cfg : config_Config) :
  Forall (fun ev => is_prometheus_Run ev = false) (registration_trace cfg).
Proof. phase_Forall. Qed.

(** Every entry of the mux is registered in the registration phase. *)
Lemma registration_trace_handles `{Externals} (cfg : config_Config)
  (entry : string * handler_id) :
  In entry (server_mux cfg) ->
  In (Ev_mux_Handle entry.1 entry.2) (registration_trace cfg).
Proof.
  intros Hentry. unfold registration_trace. right. apply list_elem_of_In.
  apply (list_elem_of_fmap_2 (fun e => Ev_mux_Handle e.1 e.2)).
  apply list_elem_of_In. exact Hentry.
Qed.

(** X16: Prometheus comes with the registrations and can stop the
    server. Whenever main calls [prometheus.Run], a Prometheus address is
    configured and all eight handlers are registered in that run; if the call
    fails, main ends by [log.Fatal] with its error and never serves; if it
    succeeds, main goes on to serve on the listen address. *)
Theorem main_prometheus `{Externals} (flags : Flags) (env : Env)
  (cfg : config_Config) :
  In (Ev_prometheus_Run cfg) (main flags env).1 ->
  Prometheus_Listen cfg <> ""
  /\ Forall (fun e => In (Ev_mux_Handle e.1 e.2) (main flags env).1) (server_mux cfg)
  /\ match prometheus_Run env cfg with
     | Some err =>
         (main flags env).2 = Fatal err
         /\ Forall (fun ev => is_ListenAndServe ev = false) (main flags env).1
     | None =>
         In (Ev_ListenAndServe (Common_Listen (Common cfg)) (server_mux cfg))
           (main flags env).1
     end.
Proof.
  intros Hin. pose proof (main_cases flags env) as Hcase.
  destruct (main flags env) as [evs e]. cbn [fst snd] in *.
  assert (forall (A B C : list event) (cfg' : config_Config),
            Forall (fun e => In (Ev_mux_Handle e.1 e.2)
                               (Ev_rand_Seed :: A ++ B ++ registration_trace cfg' ++ C))
              (server_mux cfg')) as Hreg.
  { intros A B C cfg'. apply Forall_forall. intros entry Hentry.
    right. apply in_or_app. right. apply in_or_app. right. apply in_or_app. left.
    apply registration_trace_handles. apply list_elem_of_In. exact Hentry. }
  destruct Hcase as [ | | | | | | cfg' mgr Hok Ht | cfg' mgr err Hok Ht Hp Hrun
                    | cfg' mgr Hok Ht Hp ];
    split_In Hin; try absurd_In Hin;
    try absurd_by startup_trace_no_prometheus Hin;
    try absurd_by pprof_trace_no_prometheus Hin;
    try absurd_by registration_trace_no_prometheus Hin.
  - injection Hin as <-. split; [exact Hp|]. split; [apply Hreg|].
    rewrite Hrun. split; [reflexivity|].
    constructor; [reflexivity|].
    apply Forall_app. split; [apply startup_trace_no_ListenAndServe|].
    apply Forall_app. split; [apply pprof_trace_no_ListenAndServe|].
    apply Forall_app. split; [apply registration_trace_no_ListenAndServe|].
    repeat constructor.
  - unfold side_trace in Hin.
    destruct (bool_decide (Prometheus_Listen cfg' ≠ "")) eqn:Hlisten.
    2:{ exfalso. destruct (metrics_Graphite_set env); cbn in Hin;
        intuition discriminate. }
    apply bool_decide_eq_true in Hlisten.
    assert (cfg = cfg') as <-.
    { destruct (metrics_Graphite_set env); cbn in Hin;
        destruct Hin as [Hin|Hin]; try (injection Hin as <-; reflexivity);
        intuition discriminate. }
    split; [exact Hlisten|]. split; [apply Hreg|].
    rewrite (Hp Hlisten).
    right. apply in_or_app. right. apply in_or_app. right. apply in_or_app. right.
    apply in_or_app. right. left. reflexivity.
Qed.

(** A run in which Prometheus cannot bind its address: fatal, no server. *)
Lemma main_prometheus_witness :
  In (Ev_prometheus_Run example_Config_prometheus)
    (main flags_server example_Env_prometheus_fails).1
  /\ (main flags_server example_Env_prometheus_fails).2
     = Fatal "listen tcp :9092: bind: address already in use"
  /\ Forall (fun ev => is_ListenAndServe ev = false)
       (main flags_server example_Env_prometheus_fails).1.
Proof.
  assert (In (Ev_prometheus_Run example_Config_prometheus)
            (main flags_server example_Env_prometheus_fails).1) as Hin.
  { vm_compute. repeat (first [left; reflexivity | right]). }
  split; [exact Hin|].
  destruct (main_prometheus flags_server example_Env_prometheus_fails
              example_Config_prometheus Hin) as (_ & _ & Hfail).
  exact Hfail.
Defined.

(** * Further properties of the routing *)

(** Takes the exact tests of [ServeMux.match] on [path] one by one. *)
Ltac case_exact path :=
  repeat match goal with
         | |- context [String.eqb ?a path] =>
             destruct (String.eqb_spec a path)
         end.

Ltac case_prefix path :=
  repeat match goal with
         | |- context [String.prefix ?a path] =>
             let Hp := fresh "Hprefix" in
             destruct (String.prefix a path) eqn:Hp
         end.

(** What the mux of main matches, and with which handler. *)
Lemma server_mux_match_Some `{Externals} (cfg : config_Config) (path : string)
  (h : handler_id) :
  mux_match (server_mux cfg) path = Some h ->
  (path = "/debug/config" /\ h = debug_config_func cfg)
  \/ (path = "/alive" /\ h = alive_func)
  \/ exists inner : handler_id, h = app_Handler (mkApp cfg) inner.
Proof.
  unfold mux_match, server_mux. cbn -[String.eqb String.prefix].
  case_exact path; case_prefix path; cbn; intros [= <-]; eauto 6.
Qed.

Lemma server_mux_match_None `{Externals} (cfg : config_Config) (path : string) :
  mux_match (server_mux cfg) path = None <->
  path <> "/metrics/index.json"
  /\ path <> "/tags/autoComplete/tags"
  /\ path <> "/tags/autoComplete/values"
  /\ path <> "/debug/config"
  /\ path <> "/alive"
  /\ String.prefix "/_internal/capabilities/" path = false
  /\ String.prefix "/metrics/find/" path = false
  /\ String.prefix "/render/" path = false.
Proof.
  unfold mux_match, server_mux. cbn -[String.eqb String.prefix].
  case_exact path; case_prefix path; cbn; split;
    try discriminate;
    try (intros _; repeat split; congruence);
    try (intros (? & ? & ? & ? & ? & ? & ? & ?); congruence).
  all: intros (? & ? & ? & ? & ? & ? & ? & ?); subst path; discriminate.
Qed.

(** A host that begins with no slash, as every host name does, changes no
    lookup in the mux of main. *)
Lemma has_pattern_host `{Externals} (cfg : config_Config) (host x : string) :
  String.prefix "/" host = false ->
  has_pattern (server_mux cfg) x || has_pattern (server_mux cfg) (host ++ x)
  = has_pattern (server_mux cfg) x.
Proof.
  intros Hhost. destruct host as [|c host].
  - change ("" ++ x)%string with x. apply orb_diag.
  - assert (has_pattern (server_mux cfg) (String c host ++ x) = false) as ->;
      [|apply orb_false_r].
    cbn [String.prefix] in Hhost.
    destruct (ascii_dec "/" c) as [<-|Hne]; [destruct host; discriminate Hhost|].
    change (String c host ++ x)%string with (String c (host ++ x)).
    destruct (has_pattern _ _) eqn:Hhas; [exfalso|reflexivity].
    apply has_pattern_server in Hhas. cbn [In] in Hhas.
    repeat (destruct Hhas as [Heq|Hhas];
            [injection Heq as Hc _; apply Hne; exact Hc|]).
    destruct Hhas.
Qed.

(** A string that ends in a slash, without the slash. *)
Lemma app_slash_inv (p s : string) :
  (p ++ "/")%string = s -> p = substring 0 (String.length s - 1) s.
Proof.
  revert s. induction p as [|c p IH]; intros s Hs.
  - rewrite <- Hs. reflexivity.
  - change (String c (p ++ "/") = s) in Hs. rewrite <- Hs.
    specialize (IH _ eq_refl).
    assert (exists n : nat, String.length (p ++ "/") = S n) as [n Hn].
    { rewrite string_length_app. cbn. exists (String.length p). lia. }
    cbn [String.length]. rewrite Hn in *. cbn in IH |- *.
    rewrite Nat.sub_0_r in *. f_equal. exact IH.
Qed.

(** The mux of main redirects to a subtree exactly from the three subtree
    roots. *)
Lemma shouldRedirect_server `{Externals} (cfg : config_Config) (host p : string) :
  String.prefix "/" host = false ->
  shouldRedirectRLocked (server_mux cfg) host p = true <-> In p subtree_roots.
Proof.
  intros Hhost. unfold shouldRedirectRLocked.
  rewrite !has_pattern_host by exact Hhost. split.
  - destruct (has_pattern _ p); [discriminate|].
    destruct (_ =? _)%nat; [discriminate|].
    destruct (has_pattern _ (p ++ "/")) eqn:Hhas; [|discriminate].
    intros _. apply has_pattern_server in Hhas. cbn [In] in Hhas.
    repeat (destruct Hhas as [Heq|Hhas];
            [symmetry in Heq; pose proof (app_slash_inv _ _ Heq) as Hp;
             vm_compute in Hp; subst p;
             first [ discriminate Heq
                   | vm_compute; repeat (first [left; reflexivity | right]) ]|]).
    destruct Hhas.
  - intros Hin. cbn [In subtree_roots] in Hin.
    destruct Hin as [<-|[<-|[<-|[]]]]; reflexivity.
Qed.

(** X17: the whole routing table of the mux that main serves with, as
    [ServeMux.Handler] answers a request whose host begins with no slash.
    Let [p] be the path the mux looks up: the path of the request for
    [CONNECT], its canonical form otherwise. The request is redirected (301)
    exactly when [p] is one of the three subtrees without its trailing
    slash, and then to [p/], or when [p] is not the path of the request, and
    then to [p]. Otherwise a registered handler answers exactly when
    [ServeMux.match] finds one: [/debug/config] and [/alive] are the only
    ones answered without the access-logging wrapper, and only on their
    exact path; and nothing is found exactly when the path is none of the
    five exact patterns and lies under none of the three subtrees. *)
Theorem main_mux_routing_table `{Externals} (flags : Flags) (env : Env)
  (addr : string) (mux : ServeMux) :
  In (Ev_ListenAndServe addr mux) (main flags env).1 ->
  exists cfg : config_Config,
    config_ReadConfig env (configFile flags) (checkConfig flags) = inl cfg
    /\ forall r : mux_Request,
         String.prefix "/" (mux_host r) = false ->
         match (mux_Handler mux r).1 with
         | RedirectHandler target code =>
             code = 301
             /\ ((In (mux_path r) subtree_roots
                  /\ target = (mux_path r ++ "/")%string)
                 \/ (~ In (mux_path r) subtree_roots
                     /\ mux_path r <> mr_URL_Path r
                     /\ target = mux_path r))
         | Registered h =>
             ~ In (mux_path r) subtree_roots
             /\ mux_path r = mr_URL_Path r
             /\ mux_match mux (mr_URL_Path r) = Some h
             /\ ((mr_URL_Path r = "/debug/config" /\ h = debug_config_func cfg)
                 \/ (mr_URL_Path r = "/alive" /\ h = alive_func)
                 \/ exists inner : handler_id, h = app_Handler (mkApp cfg) inner)
         | NotFoundHandler =>
             ~ In (mux_path r) subtree_roots
             /\ mux_path r = mr_URL_Path r
             /\ mr_URL_Path r <> "/metrics/index.json"
             /\ mr_URL_Path r <> "/tags/autoComplete/tags"
             /\ mr_URL_Path r <> "/tags/autoComplete/values"
             /\ mr_URL_Path r <> "/debug/config"
             /\ mr_URL_Path r <> "/alive"
             /\ String.prefix "/_internal/capabilities/" (mr_URL_Path r) = false
             /\ String.prefix "/metrics/find/" (mr_URL_Path r) = false
             /\ String.prefix "/render/" (mr_URL_Path r) = false
         end.
Proof.
  intros Hin. apply main_ListenAndServe in Hin as (cfg & Hcfg & _ & ->).
  apply main_config_result in Hcfg as (_ & _ & _ & Hread & _).
  exists cfg. split; [exact Hread|]. intros r Hhost.
  assert (forall host : string,
            mux_path r = mr_URL_Path r ->
            ~ In (mux_path r) subtree_roots ->
            match (mux_handler (server_mux cfg) host (mr_URL_Path r)).1 with
            | RedirectHandler _ _ => False
            | Registered h =>
                ~ In (mux_path r) subtree_roots
                /\ mux_path r = mr_URL_Path r
                /\ mux_match (server_mux cfg) (mr_URL_Path r) = Some h
                /\ ((mr_URL_Path r = "/debug/config" /\ h = debug_config_func cfg)
                    \/ (mr_URL_Path r = "/alive" /\ h = alive_func)
                    \/ exists inner : handler_id, h = app_Handler (mkApp cfg) inner)
            | NotFoundHandler =>
                ~ In (mux_path r) subtree_roots
                /\ mux_path r = mr_URL_Path r
                /\ mr_URL_Path r <> "/metrics/index.json"
                /\ mr_URL_Path r <> "/tags/autoComplete/tags"
                /\ mr_URL_Path r <> "/tags/autoComplete/values"
                /\ mr_URL_Path r <> "/debug/config"
                /\ mr_URL_Path r <> "/alive"
                /\ String.prefix "/_internal/capabilities/" (mr_URL_Path r) = false
                /\ String.prefix "/metrics/find/" (mr_URL_Path r) = false
                /\ String.prefix "/render/" (mr_URL_Path r) = false
            end) as Hserved.
  { intros host Hsame Hroot. rewrite mux_handler_server.
    pose proof (mux_match_entry_handler (server_mux cfg) (mr_URL_Path r)) as Hm.
    destruct (mux_match_entry (server_mux cfg) (mr_URL_Path r)) as [[pattern h]|];
      cbn [fst fmap option_fmap option_map snd] in *.
    - split; [exact Hroot|]. split; [exact Hsame|]. split; [exact Hm|].
      apply server_mux_match_Some. exact Hm.
    - split; [exact Hroot|]. split; [exact Hsame|].
      apply (proj1 (server_mux_match_None cfg (mr_URL_Path r))). exact Hm. }
  pose proof (shouldRedirect_server cfg (mux_host r) (mux_path r) Hhost) as Hred.
  unfold mux_Handler, redirectToPathSlash. unfold mux_host, mux_path in Hred.
  unfold mux_path in Hserved |- *.
  destruct (String.eqb (mr_Method r) "CONNECT"); cbn zeta.
  - destruct (shouldRedirectRLocked _ _ _).
    + cbn. split; [reflexivity|]. left. split; [apply Hred|]; reflexivity.
    + assert (~ In (mr_URL_Path r) subtree_roots) as Hroot.
      { intros Hroot. apply Hred in Hroot. discriminate Hroot. }
      pose proof (Hserved (mr_Host r) eq_refl Hroot) as Hs.
      destruct (mux_handler _ _ _).1; [exact Hs|destruct Hs|exact Hs].
  - destruct (shouldRedirectRLocked _ _ _).
    + cbn. split; [reflexivity|]. left. split; [apply Hred|]; reflexivity.
    + assert (~ In (cleanPath (mr_URL_Path r)) subtree_roots) as Hroot.
      { intros Hroot. apply Hred in Hroot. discriminate Hroot. }
      destruct (String.eqb_spec (cleanPath (mr_URL_Path r)) (mr_URL_Path r))
        as [Hsame|Hdiff]; cbn [negb].
      * pose proof (Hserved (stripHostPort (mr_Host r)) Hsame Hroot) as Hs.
        destruct (mux_handler _ _ _).1; [exact Hs|destruct Hs|exact Hs].
      * cbn. split; [reflexivity|]. right. auto.
Qed.

(** The server run: [/metrics/find] without its slash is redirected to the
    subtree, and a path that is not in canonical form to its canonical
    form; neither reaches a handler of main. *)
Lemma main_mux_routing_table_witness :
  In (Ev_ListenAndServe ":9090" (server_mux example_Config))
    (main flags_server example_Env).1
  /\ String.prefix "/" (mux_host example_root_Request) = false
  /\ (mux_Handler (server_mux example_Config) example_root_Request).1
     = RedirectHandler "/metrics/find/" 301
  /\ (mux_Handler (server_mux example_Config) example_unclean_Request).1
     = RedirectHandler "/alive" 301.
Proof.
  assert (In (Ev_ListenAndServe ":9090" (server_mux example_Config))
            (main flags_server example_Env).1) as Hin.
  { vm_compute. repeat (first [left; reflexivity | right]). }
  split; [exact Hin|]. split; [reflexivity|].
  destruct (main_mux_routing_table flags_server example_Env ":9090"
              (server_mux example_Config) Hin) as (cfg & _ & Htable).
  pose proof (Htable example_root_Request eq_refl) as Hroot.
  pose proof (Htable example_unclean_Request eq_refl) as Hunclean.
  destruct (mux_Handler (server_mux example_Config) example_root_Request).1
    as [h|target code|] eqn:Hsel1; [vm_compute in Hsel1; discriminate Hsel1| |
                                    vm_compute in Hsel1; discriminate Hsel1].
  destruct (mux_Handler (server_mux example_Config) example_unclean_Request).1
    as [h|target' code'|] eqn:Hsel2; [vm_compute in Hsel2; discriminate Hsel2| |
                                      vm_compute in Hsel2; discriminate Hsel2].
  destruct Hroot as [-> [[_ ->]|[Hno _]]].
  2:{ exfalso. apply Hno. vm_compute. auto. }
  destruct Hunclean as [-> [[Hyes _]|(_ & _ & ->)]].
  { exfalso. vm_compute in Hyes. intuition discriminate. }
  split; reflexivity.
Defined.

(** * Further properties of the bare handlers *)

(** Calls on a writer of another implementation, not wrapped. *)
Lemma iface_WriteHeader_other (u : loc) (ow : OtherWriter) (code : Z) (σ : World) :
  others σ !! u = Some ow ->
  iface_WriteHeader (RW_other u) code σ
  = Some (set_others
            (insert u (mkOtherWriter (ow_header ow)
                         (ow_calls ow ++ [Did_WriteHeader code]))) σ).
Proof.
  intros Hu. unfold iface_WriteHeader, chain_fuel. simpl. rewrite Hu. reflexivity.
Qed.

Lemma iface_Write_other (u : loc) (ow : OtherWriter) (body : string) (σ : World) :
  others σ !! u = Some ow ->
  iface_Write (RW_other u) body σ
  = Some (set_others
            (insert u (mkOtherWriter (ow_header ow) (ow_calls ow ++ [Did_Write body])))
            σ).
Proof.
  intros Hu. unfold iface_Write, iface_base, chain_fuel. simpl.
  rewrite Hu. simpl. rewrite Hu. reflexivity.
Qed.

Lemma iface_Header_Set_other (u : loc) (ow : OtherWriter) (key value : string)
  (σ : World) :
  others σ !! u = Some ow ->
  iface_Header_Set (RW_other u) key value σ
  = Some (set_others
            (insert u (mkOtherWriter
                         (<[CanonicalMIMEHeaderKey key := [value]]> (ow_header ow))
                         (ow_calls ow))) σ).
Proof.
  intros Hu. unfold iface_Header_Set, iface_base, chain_fuel. simpl.
  rewrite Hu. simpl. rewrite Hu. reflexivity.
Qed.

(** X18: [/alive]. The mux that main serves with answers the exact path
    [/alive] with a handler that, on the writer of the server, calls
    [WriteHeader(200)] and then writes the line [Graphite-clickhouse is
    alive.], touches no header, and logs nothing: the liveness check leaves
    no access line. *)
Theorem main_alive `{scope_pkg} `{!handlers_pkg} (flags : Flags) (env : Env)
  (addr : string) (mux : ServeMux) :
  In (Ev_ListenAndServe addr mux) (main flags env).1 ->
  exists h : handler_id,
    mux_match mux "/alive" = Some h
    /\ forall (u : loc) (ow : OtherWriter) (r : http_Request) (σ : World),
         others σ !! u = Some ow ->
         exists σ' : World,
           ServeHTTP h (RW_other u) r σ = Some σ'
           /\ others σ'
              = <[u := mkOtherWriter (ow_header ow)
                         (ow_calls ow
                            ++ [Did_WriteHeader 200;
                                Did_Write ("Graphite-clickhouse is alive." ++ newline)])]>
                  (others σ)
           /\ logws σ' = logws σ
           /\ logged σ' = logged σ.
Proof.
  intros Hin. apply main_ListenAndServe in Hin as (cfg & _ & _ & ->).
  exists alive_func. split; [reflexivity|].
  intros u ow r σ Hu. cbn [ServeHTTP].
  rewrite (iface_WriteHeader_other u ow _ σ Hu). cbn [mbind option_bind].
  erewrite iface_Write_other by (simpl; apply lookup_insert_eq).
  eexists. split; [reflexivity|]. simpl.
  rewrite insert_insert_eq, <- app_assoc. auto.
Qed.

Lemma main_alive_witness :
  exists h : handler_id,
    In (Ev_ListenAndServe ":9090" (server_mux example_Config))
      (main flags_server example_Env).1
    /\ mux_match (server_mux example_Config) "/alive" = Some h
    /\ exists σ' : World,
         ServeHTTP h (RW_other 0) example_Request example_World = Some σ'
         /\ logged σ' = [].
Proof.
  assert (In (Ev_ListenAndServe ":9090" (server_mux example_Config))
            (main flags_server example_Env).1) as Hin.
  { vm_compute. repeat (first [left; reflexivity | right]). }
  destruct (main_alive flags_server example_Env ":9090"
              (server_mux example_Config) Hin) as (h & Hmatch & Hserve).
  exists h. split; [exact Hin|]. split; [exact Hmatch|].
  destruct (Hserve 0%nat (mkOtherWriter ∅ []) example_Request example_World)
    as (σ' & Hrun & _ & _ & Hlog); [reflexivity|].
  exists σ'. split; [exact Hrun|exact Hlog].
Defined.

(** X19: [/debug/config]. The mux that main serves with answers the exact
    path [/debug/config] with a handler for the configuration that main
    read: it writes the JSON of that configuration and nothing else, or,
    when marshalling fails, answers 500 with the error text as plain text
    and [nosniff]; either way it logs nothing. *)
Theorem main_debug_config `{scope_pkg} `{!handlers_pkg} (flags : Flags) (env : Env)
  (addr : string) (mux : ServeMux) :
  In (Ev_ListenAndServe addr mux) (main flags env).1 ->
  exists (cfg : config_Config) (h : handler_id),
    config_ReadConfig env (configFile flags) (checkConfig flags) = inl cfg
    /\ mux_match mux "/debug/config" = Some h
    /\ forall (u : loc) (ow : OtherWriter) (r : http_Request) (σ : World),
         others σ !! u = Some ow ->
         exists σ' : World,
           ServeHTTP h (RW_other u) r σ = Some σ'
           /\ logws σ' = logws σ
           /\ logged σ' = logged σ
           /\ others σ'
              = <[u := match json_MarshalIndent cfg with
                       | inl b =>
                           mkOtherWriter (ow_header ow) (ow_calls ow ++ [Did_Write b])
                       | inr err =>
                           mkOtherWriter
                             (<["X-Content-Type-Options" := ["nosniff"]]>
                                (<["Content-Type" := ["text/plain; charset=utf-8"]]>
                                   (ow_header ow)))
                             (ow_calls ow
                                ++ [Did_WriteHeader 500; Did_Write (err ++ newline)])
                       end]> (others σ).
Proof.
  intros Hin. apply main_ListenAndServe in Hin as (cfg & Hcfg & _ & ->).
  apply main_config_result in Hcfg as (_ & _ & _ & Hread & _).
  exists cfg, (debug_config_func cfg). split; [exact Hread|].
  split; [reflexivity|].
  intros u ow r σ Hu. cbn [ServeHTTP].
  destruct (json_MarshalIndent cfg) as [b|err].
  - rewrite (iface_Write_other u ow b σ Hu). eexists. split; [reflexivity|].
    simpl. auto.
  - unfold http_Error.
    rewrite (iface_Header_Set_other u ow _ _ σ Hu). cbn [mbind option_bind].
    erewrite iface_Header_Set_other by (simpl; apply lookup_insert_eq).
    cbn [mbind option_bind].
    erewrite iface_WriteHeader_other by (simpl; apply lookup_insert_eq).
    cbn [mbind option_bind].
    erewrite iface_Write_other by (simpl; apply lookup_insert_eq).
    eexists. split; [reflexivity|]. simpl.
    rewrite !insert_insert_eq, <- app_assoc. auto.
Qed.

Lemma main_debug_config_witness :
  exists h : handler_id,
    In (Ev_ListenAndServe ":9090" (server_mux example_Config))
      (main flags_server example_Env).1
    /\ mux_match (server_mux example_Config) "/debug/config" = Some h
    /\ exists σ' : World,
         ServeHTTP h (RW_other 0) example_Request example_World = Some σ'
         /\ logged σ' = [].
Proof.
  assert (In (Ev_ListenAndServe ":9090" (server_mux example_Config))
            (main flags_server example_Env).1) as Hin.
  { vm_compute. repeat (first [left; reflexivity | right]). }
  destruct (main_debug_config flags_server example_Env ":9090"
              (server_mux example_Config) Hin) as (cfg & h & _ & Hmatch & Hserve).
  exists h. split; [exact Hin|]. split; [exact Hmatch|].
  destruct (Hserve 0%nat (mkOtherWriter ∅ []) example_Request example_World)
    as (σ' & Hrun & _ & Hlog & _); [reflexivity|].
  exists σ'. split; [exact Hrun|exact Hlog].
Defined.
